(** * Persistent storage and credential subsystem of the browser shell

    A shallow embedding of the two storage modules of the repository
    (the plain variant, [Storage], and the per-profile variant with the
    encrypted credential store, [ProfileStorage]) together with the
    properties their specification states about them.

    Conventions of the embedding.
    - A JavaScript value that came out of [JSON.parse], or that is about
      to go into [JSON.stringify], is a [json]; [undefined] is [None] in
      [option json].  Numbers are integers ([Z]): the code only stores
      timestamps and byte counts.  Objects are finite maps from property
      names to values, so the enumeration order of keys is not modelled.
    - A string is a Rocq [string], read as the UTF-8 bytes of a
      well-formed text; encoding a string to UTF-8 and decoding it back
      are therefore the identity on bytes.
    - The file system is a finite map from normalised absolute paths to
      the text of regular files.  Directories are implicit: [mkdirSync]
      has nothing to do, and a write always succeeds.
    - [Date.now()], [crypto.randomBytes] and [Math.random()] read from
      oracles carried by the state, each with its own cursor.
    - The functions of the Node runtime that the code only calls
      ([JSON.parse], [JSON.stringify], the AES-256-GCM cipher, PBKDF2)
      are the fields of the class [Platform]; what the proofs use of
      them is stated in [PlatformLaws]. *)

From Stdlib Require Import ZArith Ascii String List Lia Bool.
From Stdlib.Strings Require Import Byte.
From stdpp Require Import base option list gmap strings pretty.

Set Warnings "-register-all".

#[global] Instance byte_eq_dec : EqDecision byte := Byte.byte_eq_dec.

(** ** JavaScript values *)

Inductive json :=
| JNull
| JBool (b : bool)
| JNum (n : Z)
| JStr (s : string)
| JArr (xs : list json)
| JObj (fs : gmap string json).

Inductive exn :=
| TypeError
| RangeError
| SyntaxError
| Error (msg : string)
| ENOENT.

Inductive outcome (A : Type) :=
| Returned (a : A)
| Thrown (e : exn).
Arguments Returned {A} a.
Arguments Thrown {A} e.

(** ** Paths *)

(** A normalised absolute path: the segments below the root. *)
Abbreviation path := (list string).

(** ** The state of the process and of its environment *)

Record World := mkWorld {
  userData : path;                     (* app.getPath("userData") *)
  disk : gmap path string;             (* regular files *)
  activeProfileId : string;            (* let activeProfileId = "default" *)
  clock : nat -> Z;                    (* values of Date.now(), in call order *)
  ticks : nat;
  entropy : nat -> byte;               (* bytes of crypto.randomBytes *)
  drawn : nat;
  mathRandom : nat -> string;          (* Math.random().toString(36).slice(2, 6) *)
  rolls : nat
}.

Definition set_disk (d : gmap path string) (w : World) : World :=
  mkWorld (userData w) d (activeProfileId w) (clock w) (ticks w)
          (entropy w) (drawn w) (mathRandom w) (rolls w).

Definition set_activeProfileId (id : string) (w : World) : World :=
  mkWorld (userData w) (disk w) id (clock w) (ticks w)
          (entropy w) (drawn w) (mathRandom w) (rolls w).

Definition set_ticks (n : nat) (w : World) : World :=
  mkWorld (userData w) (disk w) (activeProfileId w) (clock w) n
          (entropy w) (drawn w) (mathRandom w) (rolls w).

Definition set_drawn (n : nat) (w : World) : World :=
  mkWorld (userData w) (disk w) (activeProfileId w) (clock w) (ticks w)
          (entropy w) n (mathRandom w) (rolls w).

Definition set_rolls (n : nat) (w : World) : World :=
  mkWorld (userData w) (disk w) (activeProfileId w) (clock w) (ticks w)
          (entropy w) (drawn w) (mathRandom w) n.

(** ** Computations: state passing with exceptions

    A thrown exception keeps the state reached so far, as in JavaScript. *)

Definition M (A : Type) : Type := World -> World * outcome A.

Definition ret {A} (a : A) : M A := fun w => (w, Returned a).

Definition bind {A B} (m : M A) (k : A -> M B) : M B :=
  fun w =>
    match m w with
    | (w', Returned a) => k a w'
    | (w', Thrown e) => (w', Thrown e)
    end.

Definition throw {A} (e : exn) : M A := fun w => (w, Thrown e).

(** [try { m } catch { h }] *)
Definition try_catch {A} (m : M A) (h : M A) : M A :=
  fun w =>
    match m w with
    | (w', Returned a) => (w', Returned a)
    | (w', Thrown _) => h w'
    end.

Declare Scope js_scope.
Delimit Scope js_scope with js.
Notation "'let*' x := m 'in' k" := (bind m (fun x => k))
  (at level 10, x pattern, m at level 100, k at level 200) : js_scope.
Notation "m ;;; k" := (bind m (fun _ => k))
  (at level 100, k at level 200, right associativity) : js_scope.
Local Open Scope js_scope.

Definition get_world : M World := fun w => (w, Returned w).
Definition modify (f : World -> World) : M unit := fun w => (f w, Returned tt).

(** The world after a computation, and its result. *)
Definition after {A} (m : M A) (w : World) : World := fst (m w).
Definition result {A} (m : M A) (w : World) : outcome A := snd (m w).

(** ** The environment's oracles *)

Definition Date_now : M Z :=
  fun w => (set_ticks (S (ticks w)) w, Returned (clock w (ticks w))).

Definition randomBytes (n : nat) : M (list byte) :=
  fun w => (set_drawn (drawn w + n) w,
            Returned (map (entropy w) (seq (drawn w) n))).

Definition Math_random_suffix : M string :=
  fun w => (set_rolls (S (rolls w)) w, Returned (mathRandom w (rolls w))).

(** ** The file system *)

(** A path exists when it is a file or has a file below it (a directory
    that holds one). *)
Definition existsSync (p : path) : M bool :=
  fun w => (w, Returned (bool_decide (map_Exists (fun q _ => p `prefix_of` q) (disk w)))).

Definition readFileSync (p : path) : M string :=
  fun w =>
    match disk w !! p with
    | Some txt => (w, Returned txt)
    | None => (w, Thrown ENOENT)
    end.

Definition writeFileSync (p : path) (txt : string) : M unit :=
  modify (fun w => set_disk (<[p := txt]> (disk w)) w).

(** [fs.rmSync(dir, { recursive: true, force: true })]: the file at [dir]
    and every file below it go; nothing happens when there is none. *)
Definition below (dir p : path) : bool := bool_decide (dir `prefix_of` p).

Definition rmSync (dir : path) : M unit :=
  modify (fun w => set_disk (filter (fun kv => below dir kv.1 = false) (disk w)) w).

(** ** [path.join] (POSIX) on an absolute base *)

(** The pieces of [s] between occurrences of the character [sep]. *)
Fixpoint split_on (sep : ascii) (s : string) : list string :=
  match s with
  | EmptyString => [EmptyString]
  | String c r =>
      if Ascii.eqb c sep then EmptyString :: split_on sep r
      else match split_on sep r with
           | h :: t => String c h :: t
           | [] => [String c EmptyString]
           end
  end.

Definition step_segment (p : path) (seg : string) : path :=
  if String.eqb seg "" then p
  else if String.eqb seg "." then p
  else if String.eqb seg ".." then removelast p
  else p ++ [seg].

Definition path_join (base : path) (parts : list string) : path :=
  fold_left step_segment (flat_map (split_on "/") parts) base.

(** ** Hexadecimal text, as [Buffer] reads and writes it *)

Definition hex_digit (n : N) : ascii :=
  match n with
  | 0 => "0" | 1 => "1" | 2 => "2" | 3 => "3" | 4 => "4" | 5 => "5"
  | 6 => "6" | 7 => "7" | 8 => "8" | 9 => "9" | 10 => "a" | 11 => "b"
  | 12 => "c" | 13 => "d" | 14 => "e" | _ => "f"
  end%N%char.

Definition hex_value (c : ascii) : option N :=
  let n := N_of_ascii c in
  if ((48 <=? n) && (n <=? 57))%N then Some (n - 48)%N
  else if ((97 <=? n) && (n <=? 102))%N then Some (n - 87)%N
  else if ((65 <=? n) && (n <=? 70))%N then Some (n - 55)%N
  else None.

(** [buf.toString("hex")] *)
Fixpoint hex_encode (bs : list byte) : string :=
  match bs with
  | [] => EmptyString
  | b :: r =>
      let n := Byte.to_N b in
      String (hex_digit (n / 16)) (String (hex_digit (n mod 16)) (hex_encode r))
  end.

(** [Buffer.from(s, "hex")]: pairs of digits, up to the first pair that
    is not two hexadecimal digits; a trailing single character is dropped. *)
Fixpoint hex_decode (s : string) : list byte :=
  match s with
  | String h (String l r) =>
      match hex_value h, hex_value l with
      | Some a, Some b =>
          match Byte.of_N (a * 16 + b) with
          | Some x => x :: hex_decode r
          | None => []
          end
      | _, _ => []
      end
  | _ => []
  end.

(** [s.trim()], for the ASCII white space characters. *)
Definition is_space (c : ascii) : bool :=
  let n := N_of_ascii c in
  ((n =? 32) || ((9 <=? n) && (n <=? 13)))%N.

Fixpoint trimStart (s : string) : string :=
  match s with
  | String c r => if is_space c then trimStart r else s
  | EmptyString => EmptyString
  end.

Fixpoint trimEnd (s : string) : string :=
  match s with
  | String c r =>
      match trimEnd r with
      | EmptyString => if is_space c then EmptyString else String c EmptyString
      | r' => String c r'
      end
  | EmptyString => EmptyString
  end.

Definition trim (s : string) : string := trimEnd (trimStart s).

(** ** The JavaScript operations the stores use

    The stores cast what [JSON.parse] returns to the type they expect
    without looking at it, so every operation below is given on all of
    [json], with the [TypeError] that JavaScript raises where the value
    does not have the shape the code takes for granted. *)

(** [v.k], for a property name [k] that no prototype defines
    ([url], [id], [email], ...). *)
Definition getProp (v : json) (k : string) : M (option json) :=
  match v with
  | JNull => throw TypeError
  | JObj fs => ret (fs !! k)
  | _ => ret None
  end.

(** [v === s] for a string [s]. *)
Definition strictEqStr (v : option json) (s : string) : bool :=
  match v with
  | Some (JStr t) => String.eqb t s
  | _ => false
  end.

(** The receiver of an array method must be an array. *)
Definition asArray (v : json) : M (list json) :=
  match v with
  | JArr xs => ret xs
  | _ => throw TypeError
  end.

Fixpoint someM (f : json -> M bool) (xs : list json) : M bool :=
  match xs with
  | [] => ret false
  | x :: r => let* b := f x in if b then ret true else someM f r
  end.

Fixpoint filterM (f : json -> M bool) (xs : list json) : M (list json) :=
  match xs with
  | [] => ret []
  | x :: r =>
      let* b := f x in
      let* r' := filterM f r in
      ret (if b then x :: r' else r')
  end.

Fixpoint findM (f : json -> M bool) (xs : list json) : M (option json) :=
  match xs with
  | [] => ret None
  | x :: r => let* b := f x in if b then ret (Some x) else findM f r
  end.

(** [None] stands for the index -1. *)
Fixpoint findIndexM (f : json -> M bool) (xs : list json) (i : nat) : M (option nat) :=
  match xs with
  | [] => ret None
  | x :: r => let* b := f x in if b then ret (Some i) else findIndexM f r (S i)
  end.

Definition Array_some (f : json -> M bool) (v : json) : M bool :=
  let* xs := asArray v in someM f xs.

Definition Array_filter (f : json -> M bool) (v : json) : M json :=
  let* xs := asArray v in
  let* ys := filterM f xs in
  ret (JArr ys).

Definition Array_find (f : json -> M bool) (v : json) : M (option json) :=
  let* xs := asArray v in findM f xs.

Definition Array_findIndex (f : json -> M bool) (v : json) : M (option nat) :=
  let* xs := asArray v in findIndexM f xs 0.

(** [v.push(x)] and [v.unshift(x)] change the array in place; the
    computation returns the array as it is afterwards. *)
Definition Array_push (v x : json) : M json :=
  let* xs := asArray v in ret (JArr (xs ++ [x])).

(** In [v.unshift(arg)] the receiver is looked at first ([null] has no
    properties), then the argument is evaluated, then the method is
    called, if there is one. *)
Definition Array_unshift (v : json) (arg : M json) : M json :=
  match v with
  | JNull => throw TypeError
  | JArr xs => let* x := arg in ret (JArr (x :: xs))
  | _ => arg ;;; throw TypeError
  end.

(** [if (v.length > n) v.length = n], on an array. *)
Definition capLength (n : nat) (v : json) : json :=
  match v with
  | JArr xs => if bool_decide (n < length xs) then JArr (take n xs) else v
  | _ => v
  end.

(** [v[i] = x], on an array and an index found in it. *)
Definition Array_set (v : json) (i : nat) (x : json) : json :=
  match v with
  | JArr xs => JArr (<[i := x]> xs)
  | _ => v
  end.

(** [v.length === 0] *)
Definition lengthIsZero (v : json) : M bool :=
  match v with
  | JNull => throw TypeError
  | JArr xs => ret (bool_decide (xs = []))
  | JStr s => ret (String.eqb s "")
  | JObj fs => ret (match fs !! "length" with
                    | Some (JNum 0) => true
                    | _ => false
                    end)
  | _ => ret false
  end.

(** The own enumerable properties that [{ ...v }] copies. *)
Definition ownProps (v : json) : gmap string json :=
  match v with
  | JObj fs => fs
  | JArr xs => list_to_map (imap (fun i x => (pretty i, x)) xs)
  | JStr s =>
      list_to_map (imap (fun i c => (pretty i, JStr (String c EmptyString)))
                        (list_ascii_of_string s))
  | _ => ∅
  end.

(** [{ ...a, ...b }]: the properties of [b] win. *)
Definition spread (a b : gmap string json) : gmap string json := b ∪ a.

(** [s.toLowerCase()], on the ASCII letters. *)
Definition lower (c : ascii) : ascii :=
  let n := N_of_ascii c in
  if ((65 <=? n) && (n <=? 90))%N then ascii_of_N (n + 32) else c.

Fixpoint toLowerCase (s : string) : string :=
  match s with
  | EmptyString => EmptyString
  | String c r => String (lower c) (toLowerCase r)
  end.

(** [v.toLowerCase()] on a value read from a document: only a string has
    the method. *)
Definition toLowerCaseOf (v : option json) : M string :=
  match v with
  | Some (JStr s) => ret (toLowerCase s)
  | _ => throw TypeError
  end.

(** [s.includes(q)] *)
Fixpoint includes (q s : string) : bool :=
  String.prefix q s ||
  match s with
  | EmptyString => false
  | String _ r => includes q r
  end.

(** ** The interfaces both storage modules declare *)

Record Bookmark := mkBookmark {
  bm_url : string;
  bm_title : string;
  bm_addedAt : Z
}.

Record HistoryEntry := mkHistoryEntry {
  he_url : string;
  he_title : string;
  he_visitedAt : Z
}.

Record SessionTab := mkSessionTab {
  tab_url : string;
  tab_title : string
}.

Inductive DownloadState := progressing | completed | cancelled | interrupted.

Record DownloadItem := mkDownloadItem {
  dl_id : string;
  dl_filename : string;
  dl_url : string;
  dl_savePath : string;
  dl_totalBytes : Z;
  dl_receivedBytes : Z;
  dl_state : DownloadState;
  dl_startedAt : Z
}.

Record Profile := mkProfile {
  pr_id : string;
  pr_name : string;
  pr_avatar : string;
  pr_createdAt : Z;
  pr_isDefault : bool
}.

(** The objects these records are at run time. *)
Definition json_of_Bookmark (b : Bookmark) : json :=
  JObj {[ "url" := JStr (bm_url b); "title" := JStr (bm_title b);
          "addedAt" := JNum (bm_addedAt b) ]}.

Definition json_of_HistoryEntry (h : HistoryEntry) : json :=
  JObj {[ "url" := JStr (he_url h); "title" := JStr (he_title h);
          "visitedAt" := JNum (he_visitedAt h) ]}.

Definition json_of_SessionTab (t : SessionTab) : json :=
  JObj {[ "url" := JStr (tab_url t); "title" := JStr (tab_title t) ]}.

Definition string_of_DownloadState (s : DownloadState) : string :=
  match s with
  | progressing => "progressing"
  | completed => "completed"
  | cancelled => "cancelled"
  | interrupted => "interrupted"
  end.

Definition json_of_DownloadItem (d : DownloadItem) : json :=
  JObj {[ "id" := JStr (dl_id d); "filename" := JStr (dl_filename d);
          "url" := JStr (dl_url d); "savePath" := JStr (dl_savePath d);
          "totalBytes" := JNum (dl_totalBytes d);
          "receivedBytes" := JNum (dl_receivedBytes d);
          "state" := JStr (string_of_DownloadState (dl_state d));
          "startedAt" := JNum (dl_startedAt d) ]}.

Definition json_of_Profile (p : Profile) : json :=
  JObj {[ "id" := JStr (pr_id p); "name" := JStr (pr_name p);
          "avatar" := JStr (pr_avatar p); "createdAt" := JNum (pr_createdAt p);
          "isDefault" := JBool (pr_isDefault p) ]}.

(** ** The Node runtime

    [JSON_stringify] is [JSON.stringify(v)] and [JSON_stringify_pretty] is
    [JSON.stringify(v, null, 2)].  [gcm_encrypt key iv plaintext] is the
    ciphertext and the authentication tag of AES-256-GCM; [gcm_decrypt key
    iv tag ciphertext] is [None] when the decipher throws (wrong key or
    nonce length, tag that does not verify).  [pbkdf2_sha512 password salt
    iterations keylen] is [crypto.pbkdf2Sync(..., "sha512")]. *)

Class Platform := {
  JSON_parse : string -> option json;
  JSON_stringify : json -> string;
  JSON_stringify_pretty : json -> string;
  gcm_encrypt : list byte -> list byte -> list byte -> list byte * list byte;
  gcm_decrypt : list byte -> list byte -> list byte -> list byte -> option (list byte);
  pbkdf2_sha512 : string -> string -> N -> N -> list byte
}.

Class PlatformLaws (P : Platform) : Prop := {
  parse_stringify : forall v, JSON_parse (JSON_stringify v) = Some v;
  parse_stringify_pretty : forall v, JSON_parse (JSON_stringify_pretty v) = Some v;
  gcm_decrypt_encrypt : forall key iv pt,
    length key = 32 -> length iv = 16 ->
    gcm_decrypt key iv (gcm_encrypt key iv pt).2 (gcm_encrypt key iv pt).1 = Some pt
}.

(** ** The plain storage module (part_003, lines 1-169) *)

Module Storage.
Section WithPlatform.
Context {P : Platform}.

Definition dataDir (w : World) : path := path_join (userData w) ["browser-data"].

Definition ensureDir : M unit := ret tt.

Definition filePath (name : string) : M path :=
  ensureDir ;;;
  let* w := get_world in
  ret (path_join (dataDir w) [name +:+ ".json"]).

Definition parseJSON (raw : string) : M json :=
  match JSON_parse raw with
  | Some v => ret v
  | None => throw SyntaxError
  end.

Definition readJSON (name : string) (fallback : json) : M json :=
  try_catch
    (let* p := filePath name in
     let* raw := readFileSync p in
     parseJSON raw)
    (ret fallback).

Definition writeJSON (name : string) (data : json) : M unit :=
  let* p := filePath name in
  writeFileSync p (JSON_stringify_pretty data).

(** *** Bookmarks *)

Definition urlIs (url : string) (b : json) : M bool :=
  let* u := getProp b "url" in ret (strictEqStr u url).

Definition urlIsNot (url : string) (b : json) : M bool :=
  let* u := getProp b "url" in ret (negb (strictEqStr u url)).

Definition getBookmarks : M json := readJSON "bookmarks" (JArr []).

Definition addBookmark (url title : string) : M json :=
  let* bookmarks := getBookmarks in
  let* known := Array_some (urlIs url) bookmarks in
  if negb known then
    let* addedAt := Date_now in
    let* bookmarks' :=
      Array_push bookmarks
        (JObj {[ "url" := JStr url; "title" := JStr title; "addedAt" := JNum addedAt ]}) in
    writeJSON "bookmarks" bookmarks' ;;;
    ret bookmarks'
  else ret bookmarks.

Definition removeBookmark (url : string) : M json :=
  let* bookmarks := getBookmarks in
  let* bookmarks' := Array_filter (urlIsNot url) bookmarks in
  writeJSON "bookmarks" bookmarks' ;;;
  ret bookmarks'.

Definition isBookmarked (url : string) : M bool :=
  let* bookmarks := getBookmarks in
  Array_some (urlIs url) bookmarks.

(** *** History *)

Definition getHistory : M json := readJSON "history" (JArr []).

Definition addHistoryEntry (url title : string) : M unit :=
  let* history := getHistory in
  let* history' :=
    Array_unshift history
      (let* visitedAt := Date_now in
       ret (JObj {[ "url" := JStr url; "title" := JStr title;
                    "visitedAt" := JNum visitedAt ]})) in
  let history'' := capLength 1000 history' in
  writeJSON "history" history''.

Definition clearHistory : M unit := writeJSON "history" (JArr []).

Definition matches (q : string) (h : json) : M bool :=
  let* u := getProp h "url" in
  let* lu := toLowerCaseOf u in
  if includes q lu then ret true
  else
    let* t := getProp h "title" in
    let* lt := toLowerCaseOf t in
    ret (includes q lt).

Definition searchHistory (query : string) : M json :=
  let q := toLowerCase query in
  let* history := getHistory in
  Array_filter (matches q) history.

(** *** Settings *)

Inductive SearchEngine := google | duckduckgo | bing.

Definition string_of_SearchEngine (e : SearchEngine) : string :=
  match e with
  | google => "google"
  | duckduckgo => "duckduckgo"
  | bing => "bing"
  end.

Record PartialSettings := mkPartialSettings {
  searchEngine : option SearchEngine;
  adBlockEnabled : option bool;
  restoreSession : option bool
}.

Definition props_of_PartialSettings (s : PartialSettings) : gmap string json :=
  list_to_map
    (omap id
       [ (fun e => ("searchEngine", JStr (string_of_SearchEngine e))) <$> searchEngine s;
         (fun b => ("adBlockEnabled", JBool b)) <$> adBlockEnabled s;
         (fun b => ("restoreSession", JBool b)) <$> restoreSession s ]).

Definition defaultSettings : gmap string json :=
  {[ "searchEngine" := JStr "google";
     "adBlockEnabled" := JBool true;
     "restoreSession" := JBool true ]}.

Definition getSettings : M json :=
  let* stored := readJSON "settings" (JObj ∅) in
  ret (JObj (spread defaultSettings (ownProps stored))).

Definition updateSettings (partial : PartialSettings) : M json :=
  let* current := getSettings in
  let settings := JObj (spread (ownProps current) (props_of_PartialSettings partial)) in
  writeJSON "settings" settings ;;;
  ret settings.

(** *** Session *)

Definition saveSession (sessionTabs : list SessionTab) : M unit :=
  writeJSON "session" (JArr (json_of_SessionTab <$> sessionTabs)).

Definition getSession : M json := readJSON "session" (JArr []).

(** *** Downloads *)

Definition idIs (id : string) (d : json) : M bool :=
  let* i := getProp d "id" in ret (strictEqStr i id).

Definition getDownloads : M json := readJSON "downloads" (JArr []).

Definition saveDownload (item : DownloadItem) : M unit :=
  let* downloads := getDownloads in
  let* idx := Array_findIndex (idIs (dl_id item)) downloads in
  let* downloads' :=
    match idx with
    | Some i => ret (Array_set downloads i (json_of_DownloadItem item))
    | None => Array_unshift downloads (ret (json_of_DownloadItem item))
    end in
  let downloads'' := capLength 100 downloads' in
  writeJSON "downloads" downloads''.

Definition clearDownloads : M unit := writeJSON "downloads" (JArr []).

End WithPlatform.
End Storage.

(** ** The per-profile storage module with the credential store (part_002, lines 96-461) *)

Module ProfileStorage.
Section WithPlatform.
Context {P : Platform}.

(** *** Encryption layer (part_002, lines 105-139) *)

Definition keyPath (w : World) : path := path_join (userData w) [".browser-key"].

Definition getAppKey : M (list byte) :=
  let* w := get_world in
  let keyPath := keyPath w in
  let* present := existsSync keyPath in
  if present then
    let* txt := readFileSync keyPath in
    ret (hex_decode (trim txt))
  else
    let* key := randomBytes 32 in
    writeFileSync keyPath (hex_encode key) ;;;
    ret key.

(** [crypto.createCipheriv("aes-256-gcm", key, iv)] refuses a key that is
    not 32 bytes long. *)
Definition createCipheriv (key iv : list byte) : M (list byte -> list byte * list byte) :=
  if bool_decide (length key = 32) then ret (gcm_encrypt key iv)
  else throw RangeError.

Definition encryptData (data : string) : M string :=
  let* key := getAppKey in
  let* iv := randomBytes 16 in
  let* cipher := createCipheriv key iv in
  let encrypted := hex_encode (cipher (list_byte_of_string data)).1 in
  let tag := (cipher (list_byte_of_string data)).2 in
  ret (hex_encode iv +:+ ":" +:+ hex_encode tag +:+ ":" +:+ encrypted).

Definition decryptData (encryptedStr : string) : M string :=
  let* key := getAppKey in
  let parts := split_on ":" encryptedStr in
  match parts with
  | [p0; p1; p2] =>
      let iv := hex_decode p0 in
      let tag := hex_decode p1 in
      let encrypted := p2 in
      match gcm_decrypt key iv tag (hex_decode encrypted) with
      | Some decrypted => ret (string_of_list_byte decrypted)
      | None => throw (Error "Unsupported state or unable to authenticate data")
      end
  | _ => throw (Error "Invalid encrypted data")
  end.

(** *** File system helpers (part_002, lines 145-195) *)

Definition baseDataDir (w : World) : path := path_join (userData w) ["browser-data"].

(** Directories are implicit in [disk]: there is nothing to create. *)
Definition ensureDir (dir : path) : M unit := ret tt.

Definition profileDir (profileId : option string) : M path :=
  let* w := get_world in
  let id := default (activeProfileId w) profileId in
  let dir := path_join (baseDataDir w) ["profiles"; id] in
  ensureDir dir ;;;
  ret dir.

Definition globalPath (name : string) : M path :=
  let* w := get_world in
  ensureDir (baseDataDir w) ;;;
  ret (path_join (baseDataDir w) [name +:+ ".json"]).

Definition profilePath (name : string) (profileId : option string) : M path :=
  let* dir := profileDir profileId in
  ret (path_join dir [name +:+ ".json"]).

Definition parseJSON (raw : string) : M json :=
  match JSON_parse raw with
  | Some v => ret v
  | None => throw SyntaxError
  end.

Definition readJSON (filePath : path) (fallback : json) : M json :=
  try_catch
    (let* raw := readFileSync filePath in parseJSON raw)
    (ret fallback).

Definition writeJSON (filePath : path) (data : json) : M unit :=
  ensureDir (removelast filePath) ;;;
  writeFileSync filePath (JSON_stringify_pretty data).

Definition readEncrypted (filePath : path) (fallback : json) : M json :=
  try_catch
    (let* raw := readFileSync filePath in
     let* text := decryptData raw in
     parseJSON text)
    (ret fallback).

Definition writeEncrypted (filePath : path) (data : json) : M unit :=
  ensureDir (removelast filePath) ;;;
  let* envelope := encryptData (JSON_stringify data) in
  writeFileSync filePath envelope.

(** *** Profile system (part_002, lines 201-254) *)

Definition defaultProfile (now : Z) : json :=
  JObj {[ "id" := JStr "default"; "name" := JStr "Default";
          "avatar" := JStr "person"; "createdAt" := JNum now;
          "isDefault" := JBool true ]}.

Definition getProfiles : M json :=
  let* p := globalPath "profiles" in
  let* profiles := readJSON p (JArr []) in
  let* empty := lengthIsZero profiles in
  if empty then
    let* now := Date_now in
    let def := defaultProfile now in
    let* p' := globalPath "profiles" in
    writeJSON p' (JArr [def]) ;;;
    ret (JArr [def])
  else ret profiles.

Definition createProfile (name avatar : string) : M json :=
  let* profiles := getProfiles in
  let* stamp := Date_now in
  let* suffix := Math_random_suffix in
  let* createdAt := Date_now in
  let profile :=
    JObj {[ "id" := JStr ("profile-" +:+ pretty stamp +:+ "-" +:+ suffix);
            "name" := JStr name; "avatar" := JStr avatar;
            "createdAt" := JNum createdAt; "isDefault" := JBool false ]} in
  let* profiles' := Array_push profiles profile in
  let* p := globalPath "profiles" in
  writeJSON p profiles' ;;;
  ret profile.

Definition deleteProfile (id : string) : M json :=
  if String.eqb id "default" then getProfiles
  else
    let* all := getProfiles in
    let* profiles :=
      Array_filter (fun p => let* i := getProp p "id" in ret (negb (strictEqStr i id))) all in
    let* gp := globalPath "profiles" in
    writeJSON gp profiles ;;;
    let* w := get_world in
    let dir := path_join (baseDataDir w) ["profiles"; id] in
    let* there := existsSync dir in
    (if there then rmSync dir else ret tt) ;;;
    let* w' := get_world in
    (if String.eqb (activeProfileId w') id
     then modify (set_activeProfileId "default") else ret tt) ;;;
    getProfiles.

(** [null] is [JNull]. *)
Definition switchProfile (id : string) : M json :=
  let* profiles := getProfiles in
  let* profile :=
    Array_find (fun p => let* i := getProp p "id" in ret (strictEqStr i id)) profiles in
  match profile with
  | None => ret JNull
  | Some profile =>
      modify (set_activeProfileId id) ;;;
      ret profile
  end.

(** [profiles.find(...) ?? profiles[0]!]; the result is [undefined] when
    the array has no element. *)
Definition getActiveProfile : M (option json) :=
  let* profiles := getProfiles in
  let* w := get_world in
  let* found :=
    Array_find (fun p => let* i := getProp p "id" in
                         ret (strictEqStr i (activeProfileId w))) profiles in
  match found with
  | Some p => ret (Some p)
  | None => let* xs := asArray profiles in ret (head xs)
  end.

(** *** Auth system (part_002, lines 260-321) *)

Definition authStatePath : M path :=
  let* w := get_world in ret (path_join (baseDataDir w) ["auth.enc"]).

Definition credentialsPath : M path :=
  let* w := get_world in ret (path_join (baseDataDir w) ["credentials.enc"]).

Definition loggedOut : json :=
  JObj {[ "isLoggedIn" := JBool false; "email" := JNull;
          "token" := JNull; "profileId" := JNull ]}.

Definition loggedIn (email token profileId : string) : json :=
  JObj {[ "isLoggedIn" := JBool true; "email" := JStr email;
          "token" := JStr token; "profileId" := JStr profileId ]}.

Definition getAuthState : M json :=
  let* p := authStatePath in
  readEncrypted p loggedOut.

Definition saveAuthState (state : json) : M unit :=
  let* p := authStatePath in
  writeEncrypted p state.

Definition failure (msg : string) : json :=
  JObj {[ "success" := JBool false; "error" := JStr msg ]}.

Definition success : json := JObj {[ "success" := JBool true ]}.

(** [crypto.pbkdf2Sync(password, salt, 100000, 64, "sha512").toString("hex")];
    a salt that is not a string is a [TypeError]. *)
Definition pbkdf2Sync (password : string) (salt : option json) : M string :=
  match salt with
  | Some (JStr s) => ret (hex_encode (pbkdf2_sha512 password s 100000%N 64%N))
  | _ => throw TypeError
  end.

Definition registerUser (email password : string) : M json :=
  let* cp := credentialsPath in
  let* creds := readEncrypted cp (JArr []) in
  let* taken :=
    Array_some (fun c => let* e := getProp c "email" in ret (strictEqStr e email)) creds in
  if taken then ret (failure "Email already registered")
  else
    let* saltBytes := randomBytes 16 in
    let salt := hex_encode saltBytes in
    let* passwordHash := pbkdf2Sync password (Some (JStr salt)) in
    let* createdAt := Date_now in
    let* creds' :=
      Array_push creds
        (JObj {[ "email" := JStr email; "passwordHash" := JStr passwordHash;
                 "salt" := JStr salt; "createdAt" := JNum createdAt ]}) in
    let* cp' := credentialsPath in
    writeEncrypted cp' creds' ;;;
    let* tokenBytes := randomBytes 32 in
    let token := hex_encode tokenBytes in
    let* w := get_world in
    saveAuthState (loggedIn email token (activeProfileId w)) ;;;
    ret success.

Definition loginUser (email password : string) : M json :=
  let* cp := credentialsPath in
  let* creds := readEncrypted cp (JArr []) in
  let* user :=
    Array_find (fun c => let* e := getProp c "email" in ret (strictEqStr e email)) creds in
  match user with
  | None => ret (failure "Invalid email or password")
  | Some user =>
      let* salt := getProp user "salt" in
      let* hash := pbkdf2Sync password salt in
      let* passwordHash := getProp user "passwordHash" in
      if negb (strictEqStr passwordHash hash)
      then ret (failure "Invalid email or password")
      else
        let* tokenBytes := randomBytes 32 in
        let token := hex_encode tokenBytes in
        let* w := get_world in
        saveAuthState (loggedIn email token (activeProfileId w)) ;;;
        ret success
  end.

Definition logoutUser : M unit := saveAuthState loggedOut.



(** *** Bookmarks (part_002, lines 327-354) *)

Definition urlIs (url : string) (b : json) : M bool :=
  let* u := getProp b "url" in ret (strictEqStr u url).

Definition urlIsNot (url : string) (b : json) : M bool :=
  let* u := getProp b "url" in ret (negb (strictEqStr u url)).

Definition getBookmarks : M json :=
  let* p := profilePath "bookmarks" None in
  readJSON p (JArr []).

Definition addBookmark (url title : string) : M json :=
  let* bookmarks := getBookmarks in
  let* known := Array_some (urlIs url) bookmarks in
  if negb known then
    let* addedAt := Date_now in
    let* bookmarks' :=
      Array_push bookmarks
        (JObj {[ "url" := JStr url; "title" := JStr title; "addedAt" := JNum addedAt ]}) in
    let* p := profilePath "bookmarks" None in
    writeJSON p bookmarks' ;;;
    ret bookmarks'
  else ret bookmarks.

Definition removeBookmark (url : string) : M json :=
  let* all := getBookmarks in
  let* bookmarks := Array_filter (urlIsNot url) all in
  let* p := profilePath "bookmarks" None in
  writeJSON p bookmarks ;;;
  ret bookmarks.

Definition isBookmarked (url : string) : M bool :=
  let* bookmarks := getBookmarks in
  Array_some (urlIs url) bookmarks.

(** *** History (part_002, lines 360-386) *)

Definition getHistory : M json :=
  let* p := profilePath "history" None in
  readJSON p (JArr []).

Definition addHistoryEntry (url title : string) : M unit :=
  let* history := getHistory in
  let* history' :=
    Array_unshift history
      (let* visitedAt := Date_now in
       ret (JObj {[ "url" := JStr url; "title" := JStr title;
                    "visitedAt" := JNum visitedAt ]})) in
  let history'' := capLength 1000 history' in
  let* p := profilePath "history" None in
  writeJSON p history''.

Definition clearHistory : M unit :=
  let* p := profilePath "history" None in
  writeJSON p (JArr []).

Definition matches (q : string) (h : json) : M bool :=
  let* u := getProp h "url" in
  let* lu := toLowerCaseOf u in
  if includes q lu then ret true
  else
    let* t := getProp h "title" in
    let* lt := toLowerCaseOf t in
    ret (includes q lt).

Definition searchHistory (query : string) : M json :=
  let q := toLowerCase query in
  let* history := getHistory in
  Array_filter (matches q) history.

(** *** Settings (part_002, lines 392-412) *)

Inductive SearchEngine := duckduckgo | bing.

Definition string_of_SearchEngine (e : SearchEngine) : string :=
  match e with
  | duckduckgo => "duckduckgo"
  | bing => "bing"
  end.

(** [Partial<Settings>] *)
Record PartialSettings := mkPartialSettings {
  searchEngine : option SearchEngine;
  adBlockEnabled : option bool;
  restoreSession : option bool
}.

Definition props_of_PartialSettings (s : PartialSettings) : gmap string json :=
  list_to_map
    (omap id
       [ (fun e => ("searchEngine", JStr (string_of_SearchEngine e))) <$> searchEngine s;
         (fun b => ("adBlockEnabled", JBool b)) <$> adBlockEnabled s;
         (fun b => ("restoreSession", JBool b)) <$> restoreSession s ]).

Definition defaultSettings : gmap string json :=
  {[ "searchEngine" := JStr "duckduckgo";
     "adBlockEnabled" := JBool true;
     "restoreSession" := JBool true ]}.

Definition getSettings : M json :=
  let* p := profilePath "settings" None in
  let* stored := readJSON p (JObj ∅) in
  ret (JObj (spread defaultSettings (ownProps stored))).

Definition updateSettings (partial : PartialSettings) : M json :=
  let* current := getSettings in
  let settings := JObj (spread (ownProps current) (props_of_PartialSettings partial)) in
  let* p := profilePath "settings" None in
  writeJSON p settings ;;;
  ret settings.

(** *** Session (part_002, lines 418-429) *)

Definition saveSession (sessionTabs : list SessionTab) : M unit :=
  let* p := profilePath "session" None in
  writeJSON p (JArr (json_of_SessionTab <$> sessionTabs)).

Definition getSession : M json :=
  let* p := profilePath "session" None in
  readJSON p (JArr []).

(** *** Downloads (part_002, lines 435-461) *)

Definition idIs (id : string) (d : json) : M bool :=
  let* i := getProp d "id" in ret (strictEqStr i id).

Definition getDownloads : M json :=
  let* p := profilePath "downloads" None in
  readJSON p (JArr []).

Definition saveDownload (item : DownloadItem) : M unit :=
  let* downloads := getDownloads in
  let* idx := Array_findIndex (idIs (dl_id item)) downloads in
  let* downloads' :=
    match idx with
    | Some i => ret (Array_set downloads i (json_of_DownloadItem item))
    | None => Array_unshift downloads (ret (json_of_DownloadItem item))
    end in
  let downloads'' := capLength 100 downloads' in
  let* p := profilePath "downloads" None in
  writeJSON p downloads''.

Definition clearDownloads : M unit :=
  let* p := profilePath "downloads" None in
  writeJSON p (JArr []).

End WithPlatform.
End ProfileStorage.

(** ** The URL bar

    What the handler of "nav:resolveUrl" uses of JavaScript: [trim], two
    regular expressions and [encodeURIComponent]. *)

(** The white space that [String.prototype.trim] removes, as UTF-8: the
    bytes 9 to 13 and 32 ([is_space]); U+00A0 in two bytes; and U+1680,
    U+2000 to U+200A, U+2028, U+2029, U+202F, U+205F, U+3000 and U+FEFF in
    three bytes. *)
Definition space2 (a b : ascii) : bool :=
  ((N_of_ascii a =? 194) && (N_of_ascii b =? 160))%N.

Definition space3 (a b c : ascii) : bool :=
  let x := N_of_ascii a in
  let y := N_of_ascii b in
  let z := N_of_ascii c in
  (((x =? 225) && (y =? 154) && (z =? 128))
   || ((x =? 226) && (y =? 128)
       && (((128 <=? z) && (z <=? 138)) || (z =? 168) || (z =? 169) || (z =? 175)))
   || ((x =? 226) && (y =? 129) && (z =? 159))
   || ((x =? 227) && (y =? 128) && (z =? 128))
   || ((x =? 239) && (y =? 187) && (z =? 191)))%N.

Fixpoint String_trimStart (s : string) : string :=
  match s with
  | String a r =>
      if is_space a then String_trimStart r
      else
        match r with
        | String b r2 =>
            if space2 a b then String_trimStart r2
            else
              match r2 with
              | String c r3 => if space3 a b c then String_trimStart r3 else s
              | EmptyString => s
              end
        | EmptyString => s
        end
  | EmptyString => EmptyString
  end.

Fixpoint String_rev_append (s acc : string) : string :=
  match s with
  | String c r => String_rev_append r (String c acc)
  | EmptyString => acc
  end.

Definition String_rev (s : string) : string := String_rev_append s EmptyString.

(** [String_trimStart] on the reversed string: the bytes of a white space
    character come last byte first. *)
Fixpoint trimStart_reversed (s : string) : string :=
  match s with
  | String a r =>
      if is_space a then trimStart_reversed r
      else
        match r with
        | String b r2 =>
            if space2 b a then trimStart_reversed r2
            else
              match r2 with
              | String c r3 => if space3 c b a then trimStart_reversed r3 else s
              | EmptyString => s
              end
        | EmptyString => s
        end
  | EmptyString => EmptyString
  end.

Definition String_trimEnd (s : string) : string :=
  String_rev (trimStart_reversed (String_rev s)).

Definition String_trim (s : string) : string := String_trimEnd (String_trimStart s).

Definition isDigit (c : ascii) : bool :=
  let n := N_of_ascii c in ((48 <=? n) && (n <=? 57))%N.

Definition isLetter (c : ascii) : bool :=
  let n := N_of_ascii c in
  (((65 <=? n) && (n <=? 90)) || ((97 <=? n) && (n <=? 122)))%N.

(** [/^https?:\/\//i.test(s)]: with the flag [i] only the ASCII letters
    have two cases. *)
Definition hasHttpScheme (s : string) : bool :=
  String.prefix "http://" (toLowerCase s) || String.prefix "https://" (toLowerCase s).

(** [[a-zA-Z0-9-]] *)
Definition isLabelChar (c : ascii) : bool :=
  isLetter c || isDigit c || Ascii.eqb c "-".

Fixpoint skipLabel (s : string) : string :=
  match s with
  | String c r => if isLabelChar c then skipLabel r else s
  | EmptyString => EmptyString
  end.

(** [/^[a-zA-Z0-9-]+(\.[a-zA-Z]{2,})+/.test(s)]: the dot is no label
    character, so the first group can only start where the label
    characters end, and one group of a dot and two letters makes the
    match. *)
Definition looksLikeDomain (s : string) : bool :=
  match s with
  | String c _ =>
      isLabelChar c
      && match skipLabel s with
         | String "." (String a (String b _)) => isLetter a && isLetter b
         | _ => false
         end
  | EmptyString => false
  end.

(** The characters that [encodeURIComponent] leaves as they are. *)
Definition unreserved (c : ascii) : bool :=
  isLetter c || isDigit c
  || existsb (Ascii.eqb c) ["-"; "_"; "."; "!"; "~"; "*"; "'"; "("; ")"]%char.

Definition upper_hex_digit (n : N) : ascii :=
  match n with
  | 0 => "0" | 1 => "1" | 2 => "2" | 3 => "3" | 4 => "4" | 5 => "5"
  | 6 => "6" | 7 => "7" | 8 => "8" | 9 => "9" | 10 => "A" | 11 => "B"
  | 12 => "C" | 13 => "D" | 14 => "E" | _ => "F"
  end%N%char.

(** [encodeURIComponent(s)]: every other byte of the UTF-8 text becomes a
    percent sign and two hexadecimal digits. *)
Fixpoint encodeURIComponent (s : string) : string :=
  match s with
  | EmptyString => EmptyString
  | String c r =>
      if unreserved c then String c (encodeURIComponent r)
      else
        let n := N_of_ascii c in
        String "%" (String (upper_hex_digit (n / 16))
                      (String (upper_hex_digit (n mod 16)) (encodeURIComponent r)))
  end.

(** ** The main process before the stores (part_002, lines 1-95) *)

Module MainV1.

(** [ipcMain.handle("nav:resolveUrl", ...)] (part_002, lines 46-55) *)
Definition resolveUrl (input : string) : string :=
  let trimmed := String_trim input in
  if hasHttpScheme trimmed then trimmed
  else if looksLikeDomain trimmed then "https://" +:+ trimmed
  else "https://www.google.com/search?q=" +:+ encodeURIComponent trimmed.

End MainV1.

(** ** The main process (part_001)

    The handlers that the main process registers for the renderer and that
    call the storage module.  The module they import declares the search
    engines "duckduckgo" and "bing" only, which is the per-profile one. *)

(** What the handlers read from a download of Electron at the time of an
    event. *)
Record ElectronDownloadItem := mkElectronDownloadItem {
  getFilename : string;
  getURL : string;
  getSavePath : string;
  getTotalBytes : Z;
  getReceivedBytes : Z
}.

Module Main.
Section WithPlatform.
Context {P : Platform}.

(** [const searchUrls: Record<Settings["searchEngine"], string>] *)
Definition searchUrls : gmap string string :=
  {[ "duckduckgo" := "https://duckduckgo.com/?q=";
     "bing" := "https://www.bing.com/search?q=" ]}.

(** The properties every object inherits from [Object.prototype]. *)
Definition objectPrototypeNames : list string :=
  ["constructor"; "__defineGetter__"; "__defineSetter__"; "hasOwnProperty";
   "__lookupGetter__"; "__lookupSetter__"; "isPrototypeOf"; "propertyIsEnumerable";
   "toString"; "valueOf"; "__proto__"; "toLocaleString"].

(** [`${searchUrls[k]}`] for the value [k] of [settings.searchEngine]: the
    url of an engine of the record, and the text "undefined" for a key the
    record does not have.  [None] where the model stops: a string that
    names an inherited property finds a function, whose text is the
    engine's own, and an array or object is converted to a key by methods
    that it can override. *)
Definition searchUrlText (k : option json) : option string :=
  match k with
  | Some (JStr s) =>
      match searchUrls !! s with
      | Some url => Some url
      | None => if bool_decide (s ∈ objectPrototypeNames) then None else Some "undefined"
      end
  | Some (JArr _) => None
  | Some (JObj _) => None
  | _ => Some "undefined"
  end.

(** [ipcMain.handle("nav:resolveUrl", ...)] (part_001, lines 51-65) *)
Definition resolveUrl (input : string) : M (option string) :=
  let* settings := ProfileStorage.getSettings in
  let trimmed := String_trim input in
  if hasHttpScheme trimmed then ret (Some trimmed)
  else if looksLikeDomain trimmed then ret (Some ("https://" +:+ trimmed))
  else
    let* searchEngine := getProp settings "searchEngine" in
    ret ((fun url => url +:+ encodeURIComponent trimmed) <$> searchUrlText searchEngine).

(** The truth value JavaScript gives to [v] in a condition. *)
Definition truthy (v : option json) : bool :=
  match v with
  | None => false
  | Some JNull => false
  | Some (JBool b) => b
  | Some (JNum n) => negb (n =? 0)%Z
  | Some (JStr s) => negb (String.eqb s "")
  | Some (JArr _) => true
  | Some (JObj _) => true
  end.

(** [ipcMain.handle("session:get", ...)] (part_001, lines 84-88) *)
Definition session_get : M json :=
  let* settings := ProfileStorage.getSettings in
  let* restoreSession := getProp settings "restoreSession" in
  if negb (truthy restoreSession) then ret (JArr [])
  else ProfileStorage.getSession.

(** [ipcMain.on("session:save", ...)] (part_001, lines 89-91) *)
Definition session_save (tabs : list SessionTab) : M unit :=
  ProfileStorage.saveSession tabs.

(** The handlers of [setupDownloadHandler] (part_001, lines 100-137).
    They share the object [dlItem], which each of them changes and saves:
    here each takes it and returns it as it is afterwards.  The map
    [activeDownloads], which is only written, and the messages to the
    renderer are left out. *)

(** On "will-download". *)
Definition will_download (item : ElectronDownloadItem) : M DownloadItem :=
  let* stamp := Date_now in
  let* suffix := Math_random_suffix in
  let id := "dl-" +:+ pretty stamp +:+ "-" +:+ suffix in
  let* startedAt := Date_now in
  let dlItem :=
    mkDownloadItem id (getFilename item) (getURL item) (getSavePath item)
                   (getTotalBytes item) 0 progressing startedAt in
  ProfileStorage.saveDownload dlItem ;;;
  ret dlItem.

(** On "updated", with the state that Electron reports. *)
Definition on_updated (dlItem : DownloadItem) (item : ElectronDownloadItem) (state : string)
  : M DownloadItem :=
  let dlItem' :=
    mkDownloadItem (dl_id dlItem) (dl_filename dlItem) (dl_url dlItem)
                   (getSavePath item) (getTotalBytes item) (getReceivedBytes item)
                   (if String.eqb state "interrupted" then interrupted else progressing)
                   (dl_startedAt dlItem) in
  ProfileStorage.saveDownload dlItem' ;;;
  ret dlItem'.

(** On "done". *)
Definition on_done (dlItem : DownloadItem) (item : ElectronDownloadItem) (state : string)
  : M DownloadItem :=
  let dlItem' :=
    mkDownloadItem (dl_id dlItem) (dl_filename dlItem) (dl_url dlItem)
                   (dl_savePath dlItem) (dl_totalBytes dlItem) (getReceivedBytes item)
                   (if String.eqb state "completed" then completed else cancelled)
                   (dl_startedAt dlItem) in
  ProfileStorage.saveDownload dlItem' ;;;
  ret dlItem'.

End WithPlatform.
End Main.

(** ** A small executable platform

    An instance of [Platform] that computes, used to run the model on
    concrete inputs.  Its JSON text is not the JSON grammar: a value is
    flattened to a tree, the tree is numbered, and the number is written
    in binary.  Its cipher adds one key-dependent byte to every byte of
    the plaintext and authenticates with a checksum.  Only the laws of
    [PlatformLaws] matter to the proofs. *)

Module Reference.

Definition leaf : Type := unit + bool + Z + string.

Definition field_tree (k : string) (t : gen_tree leaf) : gen_tree leaf :=
  GenNode 2 [GenLeaf (inr k); t].

Fixpoint tree_of_json (v : json) : gen_tree leaf :=
  match v with
  | JNull => GenLeaf (inl (inl (inl tt)))
  | JBool b => GenLeaf (inl (inl (inr b)))
  | JNum n => GenLeaf (inl (inr n))
  | JStr s => GenLeaf (inr s)
  | JArr xs => GenNode 0 (map tree_of_json xs)
  | JObj fs =>
      GenNode 1 (map_fold (fun k v acc => field_tree k (tree_of_json v) :: acc) [] fs)
  end.

Fixpoint json_of_tree (t : gen_tree leaf) : json :=
  match t with
  | GenLeaf (inl (inl (inl _))) => JNull
  | GenLeaf (inl (inl (inr b))) => JBool b
  | GenLeaf (inl (inr n)) => JNum n
  | GenLeaf (inr s) => JStr s
  | GenNode 0 ts => JArr (map json_of_tree ts)
  | GenNode 1 ts =>
      JObj (list_to_map
              (map (fun t' => match t' with
                              | GenNode _ [GenLeaf (inr k); u] => (k, json_of_tree u)
                              | _ => (EmptyString, JNull)
                              end) ts))
  | GenNode _ _ => JNull
  end.

Fixpoint string_of_pos (p : positive) : string :=
  match p with
  | xH => EmptyString
  | xO q => String "0" (string_of_pos q)
  | xI q => String "1" (string_of_pos q)
  end.

Fixpoint pos_of_string (s : string) : option positive :=
  match s with
  | EmptyString => Some xH
  | String c r =>
      if Ascii.eqb c "0" then xO <$> pos_of_string r
      else if Ascii.eqb c "1" then xI <$> pos_of_string r
      else None
  end.

Definition stringify (v : json) : string := string_of_pos (encode (tree_of_json v)).

Definition parse (s : string) : option json :=
  p ← pos_of_string s;
  t ← decode p;
  Some (json_of_tree t).

Definition shift (k b : byte) : byte :=
  default x00 (Byte.of_N ((Byte.to_N b + Byte.to_N k) mod 256)).

Definition unshift (k b : byte) : byte :=
  default x00 (Byte.of_N ((Byte.to_N b + 256 - Byte.to_N k) mod 256)).

Definition pad (key iv : list byte) : byte :=
  shift (hd x00 key) (hd x00 iv).

Definition checksum (bs : list byte) : byte :=
  fold_right shift x00 bs.

Definition tag_of (key iv ct : list byte) : list byte :=
  replicate 16 (checksum (key ++ iv ++ ct)).

Definition encrypt (key iv pt : list byte) : list byte * list byte :=
  let ct := map (shift (pad key iv)) pt in
  (ct, tag_of key iv ct).

Definition decrypt (key iv tag ct : list byte) : option (list byte) :=
  if bool_decide (length key = 32) && negb (bool_decide (iv = []))
     && bool_decide (tag = tag_of key iv ct)
  then Some (map (unshift (pad key iv)) ct)
  else None.

Definition kdf (password salt : string) (iterations keylen : N) : list byte :=
  resize (N.to_nat keylen) x00 (list_byte_of_string (salt +:+ password)).

#[export] Instance platform : Platform := {|
  JSON_parse := parse;
  JSON_stringify := stringify;
  JSON_stringify_pretty := stringify;
  gcm_encrypt := encrypt;
  gcm_decrypt := decrypt;
  pbkdf2_sha512 := kdf
|}.

(** A fresh installation: no file, clock at zero, all-zero entropy. *)
Definition fresh : World :=
  mkWorld ["home"; "user"; ".config"; "browser"] ∅ "default"
          (fun n => Z.of_nat n) 0 (fun _ => x00) 0 (fun _ => "k3x9") 0.

End Reference.

(** * Vocabulary of the statements *)

(** A measure on values, for induction through arrays and objects. *)
Fixpoint jsize (v : json) : nat :=
  match v with
  | JArr xs => S (foldr (fun x acc => jsize x + acc) 0 xs)
  | JObj fs => S (map_fold (fun _ x acc => jsize x + acc) 0 fs)
  | _ => 1
  end.

Fixpoint all_chars (p : ascii -> bool) (s : string) : bool :=
  match s with
  | EmptyString => true
  | String c r => p c && all_chars p r
  end.

Definition is_hex_char (c : ascii) : bool := bool_decide (is_Some (hex_value c)).

Section KeyVocabulary.
Context {P : Platform}.

(** The key file holds the 32-byte key [key]. *)
Definition has_key (w : World) (key : list byte) : Prop :=
  exists txt,
    disk w !! ProfileStorage.keyPath w = Some txt /\
    hex_decode (trim txt) = key /\ length key = 32.

(** There is no key yet, or there is a key of the right length. *)
Definition key_usable (w : World) : Prop :=
  (forall q, ProfileStorage.keyPath w `prefix_of` q -> disk w !! q = None) \/
  (exists key, has_key w key).

(** The state after [getAppKey] made a key. *)
Definition with_new_key (w : World) : World :=
  set_disk (<[ProfileStorage.keyPath w := hex_encode (map (entropy w) (seq (drawn w) 32))]> (disk w))
           (set_drawn (drawn w + 32) w).

End KeyVocabulary.

Section StoreVocabulary.
Context {P : Platform}.

(** What [readJSON] returns for the file at [p]. *)
Definition stored (w : World) (p : path) (fallback : json) : json :=
  match disk w !! p with
  | Some raw => default fallback (JSON_parse raw)
  | None => fallback
  end.

(** The state after [writeJSON p v]. *)
Definition put (p : path) (v : json) (w : World) : World :=
  set_disk (<[p := JSON_stringify_pretty v]> (disk w)) w.

(** The documents of the active profile, of the data root, and of the
    plain module. *)
Definition profileFile (w : World) (name : string) : path :=
  path_join (path_join (ProfileStorage.baseDataDir w) ["profiles"; activeProfileId w])
            [name +:+ ".json"].

Definition globalFile (w : World) (name : string) : path :=
  path_join (ProfileStorage.baseDataDir w) [name +:+ ".json"].

Definition plainFile (w : World) (name : string) : path :=
  path_join (Storage.dataDir w) [name +:+ ".json"].

(** The state after one call of [Date.now()]. *)
Definition tick (w : World) : World := set_ticks (S (ticks w)) w.

(** The state after one call of [Math.random()]. *)
Definition roll (w : World) : World := set_rolls (S (rolls w)) w.

(** The state after [fs.rmSync(dir, ...)]. *)
Definition removed (dir : path) (w : World) : World :=
  set_disk (filter (fun kv => below dir kv.1 = false) (disk w)) w.

(** [v.k] as a function, for [v] other than [null]. *)
Definition prop (k : string) (v : json) : option json :=
  match v with
  | JObj fs => fs !! k
  | _ => None
  end.

Definition hasUrl (url : string) (v : json) : bool := strictEqStr (prop "url" v) url.
Definition hasId (id : string) (v : json) : bool := strictEqStr (prop "id" v) id.
Definition hasEmail (email : string) (v : json) : bool := strictEqStr (prop "email" v) email.

(** The test [f] of an array method computes [g] on the elements of [xs]
    and leaves the state alone. *)
Definition pure_on (f : json -> M bool) (g : json -> bool) (xs : list json) : Prop :=
  Forall (fun x => forall w, f x w = (w, Returned (g x))) xs.

End StoreVocabulary.

Section EntryVocabulary.
Context {P : Platform}.

Definition bookmarkEntry (url title : string) (addedAt : Z) : json :=
  JObj {[ "url" := JStr url; "title" := JStr title; "addedAt" := JNum addedAt ]}.

Definition historyEntry (url title : string) (visitedAt : Z) : json :=
  JObj {[ "url" := JStr url; "title" := JStr title; "visitedAt" := JNum visitedAt ]}.

(** [addHistoryEntry] called once for each pair of [es], in order. *)
Fixpoint addHistoryEntries (es : list (string * string)) : M unit :=
  match es with
  | [] => ret tt
  | (url, title) :: r =>
      ProfileStorage.addHistoryEntry url title ;;; addHistoryEntries r
  end.

(** The number of entries of an array document that pass the test [g]. *)
Definition entriesWith (g : json -> bool) (doc : json) : nat :=
  match doc with
  | JArr xs => length (List.filter g xs)
  | _ => 0
  end.

End EntryVocabulary.

(** A bookmarks file of the executable platform in which one url occurs twice. *)
Definition twiceBookmarked : World :=
  put (P := Reference.platform) (profileFile Reference.fresh "bookmarks")
      (JArr (json_of_Bookmark <$> [mkBookmark "u" "first" 1; mkBookmark "u" "second" 2]))
      Reference.fresh.

(** The entries that [addHistoryEntries es] makes from the state [w], oldest
    first: the i-th call reads the clock at tick [ticks w + i]. *)
Definition newEntries (w : World) (es : list (string * string)) : list json :=
  imap (fun i e => historyEntry e.1 e.2 (clock w (ticks w + i))) es.

(** Where [saveDownload item] puts [item] in the list [l]: over the first
    entry with its id, or in front of all entries. *)
Definition upsert (item : DownloadItem) (l : list DownloadItem) : list DownloadItem :=
  match list_find (fun d => dl_id d = dl_id item) l with
  | Some (i, _) => <[i := item]> l
  | None => item :: l
  end.

(** The index of the first entry of an array document that passes [g]. *)
Definition indexWhere (g : json -> bool) (doc : json) : option nat :=
  match doc with
  | JArr xs => fst <$> list_find (fun x => g x) xs
  | _ => None
  end.

Definition download (id : string) (receivedBytes : Z) : DownloadItem :=
  mkDownloadItem id "file.bin" "https://example.org/file.bin" "/tmp/file.bin"
                 1000 receivedBytes progressing 0.

(** Download lists of the executable platform: one holds the id "a" twice,
    the other holds it once, behind 100 other entries. *)
Definition twiceDownloaded : World :=
  put (P := Reference.platform) (profileFile Reference.fresh "downloads")
      (JArr (json_of_DownloadItem <$> [download "a" 1; download "a" 2]))
      Reference.fresh.

Definition longDownloads : World :=
  put (P := Reference.platform) (profileFile Reference.fresh "downloads")
      (JArr (json_of_DownloadItem <$>
               (map (fun i : nat => download (pretty i) 0) (seq 0 100) ++ [download "a" 1])))
      Reference.fresh.


(** ** The operations that both modules export *)


(** What a call returns to JavaScript: a value, or [undefined] for [void]. *)
Definition returning (m : M json) : M (option json) := let* v := m in ret (Some v).

Section Calls.
Context {P : Platform}.





(** A computation that neither reads nor changes the state. *)
Definition stateless {A} (m : M A) : Prop := exists r, forall w, m w = (w, r).


End Calls.

(** ** The profile operations *)

Inductive ProfileCall :=
| GetProfiles
| CreateProfile (name avatar : string)
| DeleteProfile (id : string)
| SwitchProfile (id : string)
| GetActiveProfile.

Section ProfileVocabulary.
Context {P : Platform}.

Definition callProfiles (c : ProfileCall) : M (option json) :=
  match c with
  | GetProfiles => returning ProfileStorage.getProfiles
  | CreateProfile name avatar => returning (ProfileStorage.createProfile name avatar)
  | DeleteProfile id => returning (ProfileStorage.deleteProfile id)
  | SwitchProfile id => returning (ProfileStorage.switchProfile id)
  | GetActiveProfile => ProfileStorage.getActiveProfile
  end.

(** A data root nobody has written to, in a process that just started. *)
Definition fresh_root (w : World) : Prop :=
  (forall p, userData w `prefix_of` p -> disk w !! p = None) /\
  activeProfileId w = "default".

(** The states that sequences of profile operations reach from a fresh
    data root. *)
Inductive reachable : World -> Prop :=
| reachable_fresh w : fresh_root w -> reachable w
| reachable_call w c : reachable w -> reachable (after (callProfiles c) w).

Definition isDefault (p : Profile) : bool := String.eqb (pr_id p) "default".

(** Exactly one profile of the list has the id "default". *)
Definition one_default (ps : list Profile) : Prop :=
  length (List.filter isDefault ps) = 1.

(** The profile index holds no profile yet, or holds a list with exactly
    one default profile. *)
Definition profiles_inv (w : World) : Prop :=
  exists ps,
    stored w (globalFile w "profiles") (JArr []) = JArr (json_of_Profile <$> ps) /\
    (ps = [] \/ one_default ps).

(** The documents a profile directory holds. *)
Definition profileDocuments : list string :=
  ["bookmarks"; "history"; "settings"; "session"; "downloads"].

End ProfileVocabulary.

(** ** The credential store *)

Section AuthVocabulary.
Context {P : Platform}.

Definition credentialsFile (w : World) : path :=
  path_join (ProfileStorage.baseDataDir w) ["credentials.enc"].

Definition authFile (w : World) : path :=
  path_join (ProfileStorage.baseDataDir w) ["auth.enc"].

(** The next [n] bytes of [crypto.randomBytes]. *)
Definition nextBytes (w : World) (n : nat) : list byte := map (entropy w) (seq (drawn w) n).

(** What [encryptData text] returns under the key [key] and the nonce [iv]. *)
Definition envelope (key iv : list byte) (text : string) : string :=
  hex_encode iv +:+ ":" +:+ hex_encode (gcm_encrypt key iv (list_byte_of_string text)).2
  +:+ ":" +:+ hex_encode (gcm_encrypt key iv (list_byte_of_string text)).1.

(** The key [getAppKey] returns, and the state it leaves: the key of the
    key file, or a new one that it writes there. *)
Definition current_key (w : World) : list byte :=
  match disk w !! ProfileStorage.keyPath w with
  | Some txt => hex_decode (trim txt)
  | None => nextBytes w 32
  end.

Definition keyed (w : World) : World :=
  match disk w !! ProfileStorage.keyPath w with
  | Some _ => w
  | None => with_new_key w
  end.

(** The state after [writeEncrypted p v] in a state that has the key [key]. *)
Definition sealed_write (p : path) (v : json) (key : list byte) (w : World) : World :=
  set_disk (<[p := envelope key (nextBytes w 16) (JSON_stringify v)]> (disk w))
           (set_drawn (drawn w + 16) w).

(** One record of the credentials document. *)
Definition credential (email passwordHash salt : string) (createdAt : Z) : json :=
  JObj {[ "email" := JStr email; "passwordHash" := JStr passwordHash;
          "salt" := JStr salt; "createdAt" := JNum createdAt ]}.

(** [hex(pbkdf2(password, salt))], the hash that is stored and compared. *)
Definition passwordHash (password salt : string) : string :=
  hex_encode (pbkdf2_sha512 password salt 100000%N 64%N).

End AuthVocabulary.

(** ** All public operations of the per-profile module *)


Section CallVocabulary.
Context {P : Platform}.


(** The computation returns, it does not throw. *)
Definition returns {A} (m : M A) (w : World) : Prop := exists w' a, m w = (w', Returned a).





End CallVocabulary.


(** ** Bookmarks as a set of urls *)

(** A bookmarks file of the executable platform with two entries. *)
Definition twoBookmarks : World :=
  put (P := Reference.platform) (profileFile Reference.fresh "bookmarks")
      (JArr (json_of_Bookmark <$> [mkBookmark "a" "A" 1; mkBookmark "b" "B" 2]))
      Reference.fresh.

(** ** Searching the history *)

(** The entry's url or title contains the query, letter case of ASCII
    letters aside. *)
Definition found (query : string) (h : HistoryEntry) : bool :=
  includes (toLowerCase query) (toLowerCase (he_url h))
  || includes (toLowerCase query) (toLowerCase (he_title h)).



Definition nullSession : World :=
  put (P := Reference.platform) (profileFile Reference.fresh "session") JNull Reference.fresh.


Section SettingsVocabulary.
Context {P : Platform}.

(** The settings in force: the stored ones over the defaults. *)
Definition settingsOf (w : World) : gmap string json :=
  spread ProfileStorage.defaultSettings (ownProps (stored w (profileFile w "settings") (JObj ∅))).

End SettingsVocabulary.


Definition onlyRestoreSession (b : bool) : ProfileStorage.PartialSettings :=
  ProfileStorage.mkPartialSettings None None (Some b).

(** ** Profiles and their directories *)

(** A name that [path.join] takes as one segment. *)
Definition plain_name (s : string) : bool :=
  negb (String.eqb s "") && negb (String.eqb s ".") && negb (String.eqb s "..")
  && all_chars (fun c => negb (Ascii.eqb c "/")) s.

Section ProfileDirVocabulary.
Context {P : Platform}.

(** The directory that [deleteProfile(id)] removes. *)
Definition profileDirOf (w : World) (id : string) : path :=
  path_join (ProfileStorage.baseDataDir w) ["profiles"; id].

End ProfileDirVocabulary.

(** A data root of the executable platform with a credentials document and
    a bookmark of the default profile. *)
Definition usedRoot : World :=
  set_disk {[ credentialsFile Reference.fresh := "0:0:0";
              profileFile Reference.fresh "bookmarks" := "" ]} Reference.fresh.

(** The index of the executable platform with the default profile and a
    profile "work", which is active. *)
Definition workProfile : Profile := mkProfile "work" "Work" "briefcase" 5 false.

Definition atWork : World :=
  set_activeProfileId "work"
    (put (P := Reference.platform) (globalFile Reference.fresh "profiles")
         (JArr (json_of_Profile <$>
                  [mkProfile "default" "Default" "person" 0 true; workProfile]))
         (set_disk {[ path_join (profileDirOf Reference.fresh "work") ["bookmarks.json"] := "" ]}
                   Reference.fresh)).

(** ** Sealed documents *)

Section SealedVocabulary.
Context {P : Platform}.

(** The file at [p] holds the value [v], encrypted under the key of the
    key file. *)
Definition sealed (w : World) (p : path) (v : json) : Prop :=
  exists key iv,
    has_key w key /\ length iv = 16 /\
    disk w !! p = Some (envelope key iv (JSON_stringify v)).

End SealedVocabulary.

(** An auth document of the executable platform that is not an envelope. *)
Definition tornAuth : World :=
  set_disk {[ authFile Reference.fresh := "not an envelope" ]} Reference.fresh.

(** ** Accounts *)

(** The interface [AuthCredentials] (part_002, lines 260-265). *)
Record AuthCredentials := mkAuthCredentials {
  ac_email : string;
  ac_passwordHash : string;
  ac_salt : string;
  ac_createdAt : Z
}.

Section AccountVocabulary.
Context {P : Platform}.

Definition json_of_AuthCredentials (c : AuthCredentials) : json :=
  credential (ac_email c) (ac_passwordHash c) (ac_salt c) (ac_createdAt c).

(** The record that [registerUser(email, password)] makes in the state [w]. *)
Definition newAccount (w : World) (email password : string) : AuthCredentials :=
  mkAuthCredentials email
    (passwordHash password (hex_encode (nextBytes w 16)))
    (hex_encode (nextBytes w 16))
    (clock w (ticks w)).

End AccountVocabulary.

(** ** The document of each store operation *)



Section FootprintVocabulary.
Context {P : Platform}.

(** From [w] to [w'] no file but [doc] changed, and the active profile and
    the data root are the same. *)
Definition footprint (doc : path) (w w' : World) : Prop :=
  activeProfileId w' = activeProfileId w /\ userData w' = userData w /\
  forall p, p <> doc -> disk w' !! p = disk w !! p.


End FootprintVocabulary.


Definition onlySearchEngine (e : ProfileStorage.SearchEngine) : ProfileStorage.PartialSettings :=
  ProfileStorage.mkPartialSettings (Some e) None None.

(** A character that can stand in a query without ending it. *)
Definition querySafe (c : ascii) : bool := unreserved c || Ascii.eqb c "%".

(** An ASCII character: one byte of UTF-8 below 128. *)
Definition ascii7 (c : ascii) : bool := (N_of_ascii c <? 128)%N.

(** The string starts, or its reversal ends, with a white space character. *)
Definition startsWithSpace (s : string) : bool :=
  match s with
  | String a r =>
      is_space a
      || match r with
         | String b r2 =>
             space2 a b
             || match r2 with
                | String c _ => space3 a b c
                | EmptyString => false
                end
         | EmptyString => false
         end
  | EmptyString => false
  end.

Definition startsWithSpace_reversed (s : string) : bool :=
  match s with
  | String a r =>
      is_space a
      || match r with
         | String b r2 =>
             space2 b a
             || match r2 with
                | String c _ => space3 c b a
                | EmptyString => false
                end
         | EmptyString => false
         end
  | EmptyString => false
  end.

(** What Electron reports of a download of 1000 bytes of which [received]
    have arrived. *)
Definition electronItem (received : Z) : ElectronDownloadItem :=
  mkElectronDownloadItem "file.bin" "https://example.org/file.bin" "/tmp/file.bin"
                         1000 received.

(** * Proofs *)


(** ** The executable platform satisfies the laws *)

Lemma jsize_elem (x : json) xs :
  x ∈ xs -> jsize x < S (foldr (fun x acc => jsize x + acc) 0 xs).
Proof.
  induction 1 as [x xs|x y xs _ IH]; simpl; lia.
Qed.

Lemma jsize_field (fs : gmap string json) k v :
  fs !! k = Some v -> jsize v < jsize (JObj fs).
Proof.
  intros Hk. simpl. rewrite map_fold_foldr.
  apply elem_of_map_to_list in Hk.
  induction (map_to_list fs) as [|[k' v'] l IH]; [by apply elem_of_nil in Hk|].
  apply elem_of_cons in Hk as [[= <- <-]|Hk]; simpl.
  - lia.
  - specialize (IH Hk). lia.
Qed.

Lemma json_of_tree_of_json v : Reference.json_of_tree (Reference.tree_of_json v) = v.
Proof.
  remember (jsize v) as n eqn:Hn. revert v Hn.
  induction n as [n IH] using lt_wf_ind. intros v ->.
  destruct v as [| | | |xs|fs]; try done.
  - simpl. f_equal. rewrite map_map.
    assert (Forall (fun x => jsize x < jsize (JArr xs)) xs) as Hall.
    { apply Forall_forall. intros x Hx. by apply jsize_elem. }
    induction Hall as [|x l Hx _ IHl]; [done|]. simpl. f_equal.
    + by eapply IH.
    + apply IHl.
  - simpl. f_equal. rewrite map_fold_foldr.
    rewrite <- (list_to_map_to_list fs) at 2. f_equal.
    assert (Forall (fun kv => jsize kv.2 < jsize (JObj fs)) (map_to_list fs)) as Hall.
    { apply Forall_forall. intros [k v] Hkv.
      apply elem_of_map_to_list in Hkv. by eapply jsize_field. }
    induction Hall as [|[k v] l Hx _ IHl]; [done|]. simpl. f_equal.
    + f_equal. by eapply IH.
    + apply IHl.
Qed.

Lemma pos_of_string_of_pos p : Reference.pos_of_string (Reference.string_of_pos p) = Some p.
Proof. induction p as [p IH|p IH|]; simpl; [by rewrite IH..|done]. Qed.

Lemma parse_stringify_reference v : Reference.parse (Reference.stringify v) = Some v.
Proof.
  unfold Reference.parse, Reference.stringify.
  rewrite pos_of_string_of_pos. simpl. rewrite decode_encode. simpl.
  by rewrite json_of_tree_of_json.
Qed.

Lemma of_N_small n : (n < 256)%N -> exists b, Byte.of_N n = Some b /\ Byte.to_N b = n.
Proof.
  intros Hn. destruct (Byte.of_N n) as [b|] eqn:Hb.
  - exists b. split; [done|]. by apply Byte.to_of_N.
  - apply Byte.of_N_None_iff in Hb. lia.
Qed.

Lemma to_N_shift k b :
  Byte.to_N (Reference.shift k b) = ((Byte.to_N b + Byte.to_N k) mod 256)%N.
Proof.
  unfold Reference.shift.
  destruct (of_N_small ((Byte.to_N b + Byte.to_N k) mod 256)) as (c & -> & Hc); [|done].
  by apply N.mod_lt.
Qed.

Lemma unshift_shift k b : Reference.unshift k (Reference.shift k b) = b.
Proof.
  unfold Reference.unshift. rewrite to_N_shift.
  pose proof (Byte.to_N_bounded b). pose proof (Byte.to_N_bounded k).
  assert ((((Byte.to_N b + Byte.to_N k) mod 256 + 256 - Byte.to_N k) mod 256 = Byte.to_N b)%N) as ->.
  { destruct (decide (Byte.to_N b + Byte.to_N k < 256)%N).
    - rewrite (N.mod_small (_ + _)) by done.
      replace (Byte.to_N b + Byte.to_N k + 256 - Byte.to_N k)%N
        with (Byte.to_N b + 1 * 256)%N by lia.
      rewrite N.Div0.mod_add. apply N.mod_small. lia.
    - replace ((Byte.to_N b + Byte.to_N k) mod 256)%N
        with (Byte.to_N b + Byte.to_N k - 256)%N.
      + replace (Byte.to_N b + Byte.to_N k - 256 + 256 - Byte.to_N k)%N
          with (Byte.to_N b) by lia.
        apply N.mod_small. lia.
      + apply (N.mod_unique _ _ 1); lia. }
  by rewrite Byte.of_to_N.
Qed.

Lemma decrypt_encrypt_reference key iv pt :
  length key = 32 -> length iv = 16 ->
  Reference.decrypt key iv (Reference.encrypt key iv pt).2 (Reference.encrypt key iv pt).1
  = Some pt.
Proof.
  intros Hkey Hiv. unfold Reference.decrypt, Reference.encrypt. simpl.
  rewrite (bool_decide_eq_true_2 (length key = 32)) by done.
  rewrite (bool_decide_eq_false_2 (iv = [])) by (by destruct iv).
  rewrite bool_decide_eq_true_2 by done. simpl. f_equal.
  rewrite map_map. induction pt as [|b pt IH]; [done|].
  simpl. by rewrite unshift_shift, IH.
Qed.

#[export] Instance reference_laws : PlatformLaws Reference.platform.
Proof.
  split.
  - apply parse_stringify_reference.
  - apply parse_stringify_reference.
  - apply decrypt_encrypt_reference.
Qed.



(** ** Running computations *)

Lemma run_bind_returned {A B} (m : M A) (k : A -> M B) w w' a :
  m w = (w', Returned a) -> bind m k w = k a w'.
Proof. intros H. unfold bind. by rewrite H. Qed.

Lemma run_bind_thrown {A B} (m : M A) (k : A -> M B) w w' e :
  m w = (w', Thrown e) -> bind m k w = (w', Thrown e).
Proof. intros H. unfold bind. by rewrite H. Qed.

(** ** Text *)

Lemma hex_encode_chars bs : all_chars is_hex_char (hex_encode bs) = true.
Proof. induction bs as [|b bs IH]; [done|]. destruct b; exact IH. Qed.

Lemma hex_decode_encode bs : hex_decode (hex_encode bs) = bs.
Proof. induction bs as [|b bs IH]; [done|]. destruct b; simpl; by rewrite IH. Qed.

Lemma hex_char_not_colon c : is_hex_char c = true -> Ascii.eqb c ":" = false.
Proof. destruct c as [[] [] [] [] [] [] [] []]; done. Qed.

Lemma hex_char_not_space c : is_hex_char c = true -> is_space c = false.
Proof. destruct c as [[] [] [] [] [] [] [] []]; done. Qed.

Lemma split_on_no_sep sep s :
  all_chars (fun c => negb (Ascii.eqb c sep)) s = true -> split_on sep s = [s].
Proof.
  induction s as [|c s IH]; [done|]. simpl. intros [Hc Hs]%andb_true_iff.
  apply negb_true_iff in Hc. by rewrite Hc, IH.
Qed.

Lemma split_on_app sep a rest :
  all_chars (fun c => negb (Ascii.eqb c sep)) a = true ->
  split_on sep (a +:+ String sep EmptyString +:+ rest) = a :: split_on sep rest.
Proof.
  induction a as [|c a IH]; simpl.
  - intros _. by rewrite Ascii.eqb_refl.
  - intros [Hc Hs]%andb_true_iff. apply negb_true_iff in Hc. by rewrite Hc, IH.
Qed.

Lemma all_chars_impl (p q : ascii -> bool) s :
  (forall c, p c = true -> q c = true) -> all_chars p s = true -> all_chars q s = true.
Proof.
  intros Hpq. induction s as [|c s IH]; [done|]. simpl.
  intros [Hc Hs]%andb_true_iff. by rewrite (Hpq _ Hc), IH.
Qed.

Lemma trimStart_no_space s :
  all_chars (fun c => negb (is_space c)) s = true -> trimStart s = s.
Proof.
  destruct s as [|c s]; [done|]. simpl. intros [Hc _]%andb_true_iff.
  apply negb_true_iff in Hc. by rewrite Hc.
Qed.

Lemma trimEnd_no_space s :
  all_chars (fun c => negb (is_space c)) s = true -> trimEnd s = s.
Proof.
  induction s as [|c s IH]; [done|]. simpl. intros [Hc Hs]%andb_true_iff.
  apply negb_true_iff in Hc. rewrite (IH Hs), Hc. by destruct s.
Qed.

Lemma trim_hex bs : trim (hex_encode bs) = hex_encode bs.
Proof.
  assert (all_chars (fun c => negb (is_space c)) (hex_encode bs) = true) as H.
  { eapply all_chars_impl, hex_encode_chars.
    intros c Hc. by rewrite (hex_char_not_space _ Hc). }
  unfold trim. by rewrite (trimStart_no_space _ H), (trimEnd_no_space _ H).
Qed.

Lemma hex_no_colon bs :
  all_chars (fun c => negb (Ascii.eqb c ":")) (hex_encode bs) = true.
Proof.
  eapply all_chars_impl, hex_encode_chars.
  intros c Hc. by rewrite (hex_char_not_colon _ Hc).
Qed.

(** The envelope splits back into its three fields. *)
Lemma split_envelope iv tag ct :
  split_on ":" (hex_encode iv +:+ ":" +:+ hex_encode tag +:+ ":" +:+ hex_encode ct)
  = [hex_encode iv; hex_encode tag; hex_encode ct].
Proof.
  rewrite (split_on_app _ _ _ (hex_no_colon iv)).
  rewrite (split_on_app _ _ _ (hex_no_colon tag)).
  by rewrite (split_on_no_sep _ _ (hex_no_colon ct)).
Qed.

(** ** The application key *)

Section Encryption.
Context {P : Platform} {L : PlatformLaws P}.

Lemma existsSync_file p w txt :
  disk w !! p = Some txt -> existsSync p w = (w, Returned true).
Proof.
  intros Hp. unfold existsSync. rewrite bool_decide_eq_true_2; [done|].
  exists p, txt. done.
Qed.

Lemma existsSync_none p w :
  (forall q, p `prefix_of` q -> disk w !! q = None) -> existsSync p w = (w, Returned false).
Proof.
  intros Hp. unfold existsSync. rewrite bool_decide_eq_false_2; [done|].
  intros (q & txt & Hq & Hpre). rewrite (Hp q Hpre) in Hq. done.
Qed.

Lemma getAppKey_has_key w key :
  has_key w key -> ProfileStorage.getAppKey w = (w, Returned key).
Proof.
  intros (txt & Htxt & Hkey & _). unfold ProfileStorage.getAppKey.
  unfold bind at 1. unfold get_world.
  erewrite (run_bind_returned (existsSync _)); [|by eapply existsSync_file].
  unfold bind, readFileSync. rewrite Htxt. unfold ret. by rewrite Hkey.
Qed.

Lemma getAppKey_first w :
  (forall q, ProfileStorage.keyPath w `prefix_of` q -> disk w !! q = None) ->
  ProfileStorage.getAppKey w = (with_new_key w, Returned (map (entropy w) (seq (drawn w) 32))).
Proof.
  intros Hnone. unfold ProfileStorage.getAppKey.
  unfold bind at 1. unfold get_world.
  erewrite (run_bind_returned (existsSync _)); [|by eapply existsSync_none].
  reflexivity.
Qed.

Lemma has_key_with_new_key w :
  has_key (with_new_key w) (map (entropy w) (seq (drawn w) 32)).
Proof.
  eexists. split; [apply lookup_insert_eq|].
  rewrite trim_hex, hex_decode_encode. split; [done|].
  by rewrite length_map, length_seq.
Qed.

Lemma has_key_set_drawn w key n : has_key w key -> has_key (set_drawn n w) key.
Proof. done. Qed.

Lemma encryptData_has_key data w key :
  has_key w key ->
  ProfileStorage.encryptData data w =
    (set_drawn (drawn w + 16) w,
     Returned (let iv := map (entropy w) (seq (drawn w) 16) in
               let sealed := gcm_encrypt key iv (list_byte_of_string data) in
               hex_encode iv +:+ ":" +:+ hex_encode sealed.2 +:+ ":" +:+ hex_encode sealed.1)).
Proof.
  intros Hk. unfold ProfileStorage.encryptData.
  rewrite (run_bind_returned _ _ _ _ _ (getAppKey_has_key _ _ Hk)).
  unfold bind at 1. unfold randomBytes at 1.
  unfold ProfileStorage.createCipheriv. destruct Hk as (_ & _ & _ & Hlen).
  rewrite bool_decide_eq_true_2 by done. reflexivity.
Qed.

Lemma decryptData_envelope key iv pt w :
  has_key w key -> length iv = 16 ->
  ProfileStorage.decryptData (hex_encode iv +:+ ":" +:+ hex_encode (gcm_encrypt key iv pt).2
               +:+ ":" +:+ hex_encode (gcm_encrypt key iv pt).1) w
  = (w, Returned (string_of_list_byte pt)).
Proof.
  intros Hk Hiv. unfold ProfileStorage.decryptData.
  rewrite (run_bind_returned _ _ _ _ _ (getAppKey_has_key _ _ Hk)).
  rewrite split_envelope, !hex_decode_encode.
  destruct Hk as (_ & _ & _ & Hlen).
  by rewrite (gcm_decrypt_encrypt key iv pt Hlen Hiv).
Qed.

Lemma entropy_length w n : length (map (entropy w) (seq (drawn w) n)) = n.
Proof. by rewrite length_map, length_seq. Qed.



End Encryption.

(** ** Reading and writing documents *)

Section Stores.
Context {P : Platform} {L : PlatformLaws P}.

Lemma profilePath_run name w :
  ProfileStorage.profilePath name None w = (w, Returned (profileFile w name)).
Proof. reflexivity. Qed.

Lemma globalPath_run name w :
  ProfileStorage.globalPath name w = (w, Returned (globalFile w name)).
Proof. reflexivity. Qed.

Lemma readJSON_run p fallback w :
  ProfileStorage.readJSON p fallback w = (w, Returned (stored w p fallback)).
Proof.
  unfold ProfileStorage.readJSON, try_catch, bind, readFileSync, stored.
  destruct (disk w !! p) as [raw|]; [|done].
  unfold ProfileStorage.parseJSON. by destruct (JSON_parse raw).
Qed.

Lemma writeJSON_run p v w :
  ProfileStorage.writeJSON p v w = (put p v w, Returned tt).
Proof. reflexivity. Qed.

Lemma plain_readJSON_run name fallback w :
  Storage.readJSON name fallback w = (w, Returned (stored w (plainFile w name) fallback)).
Proof.
  unfold Storage.readJSON, try_catch, bind, Storage.filePath, Storage.ensureDir, bind, ret,
    get_world, readFileSync, stored. simpl.
  fold (plainFile w name).
  destruct (disk w !! plainFile w name) as [raw|]; [|done].
  unfold Storage.parseJSON. by destruct (JSON_parse raw).
Qed.

Lemma plain_writeJSON_run name v w :
  Storage.writeJSON name v w = (put (plainFile w name) v w, Returned tt).
Proof. reflexivity. Qed.

Lemma stored_put p v w fallback : stored (put p v w) p fallback = v.
Proof.
  unfold stored, put. simpl. rewrite lookup_insert_eq.
  by rewrite parse_stringify_pretty.
Qed.

Lemma stored_put_ne p q v w fallback :
  p <> q -> stored (put p v w) q fallback = stored w q fallback.
Proof. intros Hne. unfold stored, put. simpl. by rewrite lookup_insert_ne. Qed.

Lemma stored_tick w p fallback : stored (tick w) p fallback = stored w p fallback.
Proof. done. Qed.

(** The array methods on an array without [null], with a test that reads
    one property. *)
Lemma getProp_run v k w : v <> JNull -> getProp v k w = (w, Returned (prop k v)).
Proof. by destruct v. Qed.

Lemma someM_run f g xs w :
  pure_on f g xs -> someM f xs w = (w, Returned (existsb g xs)).
Proof.
  induction 1 as [|x l Hx _ IH]; [done|]. simpl.
  rewrite (run_bind_returned _ _ _ _ _ (Hx w)). by destruct (g x).
Qed.

Lemma filterM_run f g xs w :
  pure_on f g xs -> filterM f xs w = (w, Returned (List.filter g xs)).
Proof.
  induction 1 as [|x l Hx _ IH]; [done|]. simpl.
  rewrite (run_bind_returned _ _ _ _ _ (Hx w)).
  rewrite (run_bind_returned _ _ _ _ _ IH). by destruct (g x).
Qed.

Lemma findM_run f g xs w :
  pure_on f g xs -> findM f xs w = (w, Returned (List.find g xs)).
Proof.
  induction 1 as [|x l Hx _ IH]; [done|]. simpl.
  rewrite (run_bind_returned _ _ _ _ _ (Hx w)). by destruct (g x).
Qed.

Lemma findIndexM_run f g xs i w :
  pure_on f g xs ->
  findIndexM f xs i w = (w, Returned ((fun r => i + r.1) <$> list_find (fun x => g x) xs)).
Proof.
  intros H. revert i. induction H as [|x l Hx _ IH]; intros i; [done|]. simpl.
  rewrite (run_bind_returned _ _ _ _ _ (Hx w)).
  destruct (g x) eqn:Hg.
  - rewrite decide_True by exact I. simpl. unfold ret. do 3 f_equal. lia.
  - rewrite decide_False by (intros []). rewrite IH.
    destruct (list_find _ l) as [[j y]|]; simpl; [|done]. do 3 f_equal. lia.
Qed.

Lemma reads_prop k (test : option json -> bool) xs :
  Forall (fun x => x <> JNull) xs ->
  pure_on (fun x => let* u := getProp x k in ret (test u)) (fun x => test (prop k x)) xs.
Proof.
  intros H. eapply Forall_impl; [exact H|]. intros x Hx w.
  by rewrite (run_bind_returned _ _ _ _ _ (getProp_run _ _ _ Hx)).
Qed.

End Stores.

(** ** Bookmarks *)

Section Bookmarks.
Context {P : Platform} {L : PlatformLaws P}.

Lemma hasUrl_Bookmark url b : hasUrl url (json_of_Bookmark b) = String.eqb (bm_url b) url.
Proof. reflexivity. Qed.

Lemma Bookmark_not_null (l : list Bookmark) :
  Forall (fun x => x <> JNull) (json_of_Bookmark <$> l).
Proof. apply Forall_fmap, Forall_true. done. Qed.

Lemma urlIs_pure url xs :
  Forall (fun x => x <> JNull) xs -> pure_on (ProfileStorage.urlIs url) (hasUrl url) xs.
Proof. apply (reads_prop "url" (fun u => strictEqStr u url)). Qed.

Lemma addBookmark_run url title w xs :
  stored w (profileFile w "bookmarks") (JArr []) = JArr xs ->
  Forall (fun x => x <> JNull) xs ->
  ProfileStorage.addBookmark url title w =
    if existsb (hasUrl url) xs then (w, Returned (JArr xs))
    else
      let xs' := xs ++ [bookmarkEntry url title (clock w (ticks w))] in
      (put (profileFile w "bookmarks") (JArr xs') (tick w), Returned (JArr xs')).
Proof.
  intros Hdoc Hxs. unfold ProfileStorage.addBookmark, ProfileStorage.getBookmarks.
  unfold bind at 1. unfold bind at 1. rewrite profilePath_run, readJSON_run, Hdoc.
  unfold Array_some. unfold bind at 1. unfold bind at 1. simpl asArray. cbv beta iota.
  unfold ret at 1. rewrite (someM_run _ _ _ _ (urlIs_pure url xs Hxs)).
  destruct (existsb (hasUrl url) xs); reflexivity.
Qed.

Lemma existsb_filter {A} (g : A -> bool) (l : list A) :
  existsb g l = negb (Nat.eqb (length (List.filter g l)) 0).
Proof. induction l as [|x l IH]; [done|]. simpl. by destruct (g x). Qed.

Lemma filter_fmap {A B} (f : A -> B) (g : B -> bool) (l : list A) :
  List.filter g (f <$> l) = f <$> List.filter (fun x => g (f x)) l.
Proof.
  induction l as [|x l IH]; [done|]. csimpl. destruct (g (f x)); csimpl; by rewrite IH.
Qed.

Lemma entriesWith_Bookmarks url (l : list Bookmark) :
  entriesWith (hasUrl url) (JArr (json_of_Bookmark <$> l))
  = length (List.filter (fun b => String.eqb (bm_url b) url) l).
Proof. unfold entriesWith. by rewrite filter_fmap, length_fmap. Qed.

(** C7, as the code has it.  For every url and title and every starting
    bookmark list in which the url occurs at most once: after two calls of
    [addBookmark] with that url the stored list holds exactly one entry for
    it, the second call changes nothing on disk, and the stored list is the
    starting list, with the new entry after all the others when the url was
    not there. *)
Theorem addBookmark_twice url title (w : World) (l : list Bookmark) :
  stored w (profileFile w "bookmarks") (JArr []) = JArr (json_of_Bookmark <$> l) ->
  entriesWith (hasUrl url) (JArr (json_of_Bookmark <$> l)) <= 1 ->
  let w1 := after (ProfileStorage.addBookmark url title) w in
  let w2 := after (ProfileStorage.addBookmark url title) w1 in
  exists l',
    stored w2 (profileFile w2 "bookmarks") (JArr []) = JArr (json_of_Bookmark <$> l') /\
    entriesWith (hasUrl url) (JArr (json_of_Bookmark <$> l')) = 1 /\
    disk w2 = disk w1 /\
    result (ProfileStorage.addBookmark url title) w1 = Returned (JArr (json_of_Bookmark <$> l')) /\
    (l' = l \/ l' = l ++ [mkBookmark url title (clock w (ticks w))]).
Proof.
  intros Hdoc Hcount w1.
  pose proof (addBookmark_run url title w _ Hdoc (Bookmark_not_null l)) as Hrun.
  rewrite entriesWith_Bookmarks in Hcount.
  destruct (existsb (hasUrl url) (json_of_Bookmark <$> l)) eqn:Hex.
  - assert (w1 = w) as Hw1 by (subst w1; unfold after; by rewrite Hrun).
    rewrite Hw1. intros w2.
    assert (w2 = w) as -> by (subst w2; unfold after; by rewrite Hrun).
    exists l. rewrite entriesWith_Bookmarks. unfold result. rewrite Hrun.
    repeat split; try done; [|by left].
    rewrite existsb_filter in Hex. simpl in Hex.
    rewrite <- entriesWith_Bookmarks in *. simpl in *.
    destruct (length _) as [|[|n]]; [done|done|lia].
  - set (l' := l ++ [mkBookmark url title (clock w (ticks w))]).
    set (file := profileFile w "bookmarks") in *.
    assert (w1 = put file (JArr (json_of_Bookmark <$> l')) (tick w)) as Hw1.
    { subst w1 l'. unfold after. rewrite Hrun. simpl. by rewrite fmap_app. }
    assert (stored w1 (profileFile w1 "bookmarks") (JArr []) = JArr (json_of_Bookmark <$> l'))
      as Hdoc1 by (rewrite Hw1; apply stored_put).
    pose proof (addBookmark_run url title w1 _ Hdoc1 (Bookmark_not_null l')) as Hrun1.
    assert (existsb (hasUrl url) (json_of_Bookmark <$> l') = true) as Hex1.
    { subst l'. rewrite fmap_app, existsb_app. simpl.
      rewrite hasUrl_Bookmark. simpl. rewrite String.eqb_refl. by rewrite orb_true_r. }
    rewrite Hex1 in Hrun1. intros w2.
    assert (w2 = w1) as -> by (subst w2; unfold after; by rewrite Hrun1).
    exists l'. unfold result. rewrite Hrun1. repeat split; try done; [|by right].
    rewrite entriesWith_Bookmarks. subst l'.
    rewrite List.filter_app, length_app. simpl. rewrite String.eqb_refl. simpl.
    rewrite existsb_filter in Hex. rewrite <- entriesWith_Bookmarks. simpl.
    destruct (length (List.filter (hasUrl url) (json_of_Bookmark <$> l))); [done|].
    simpl in Hex. done.
Qed.

End Bookmarks.

Section BookmarksOnReference.
Local Existing Instance Reference.platform.

(** C7, as stated, fails on a starting list that already holds the url
    twice: two more calls leave both entries. *)
Lemma addBookmark_twice_keeps_duplicates :
  let w := twiceBookmarked in
  let w2 := after (ProfileStorage.addBookmark "u" "t")
                  (after (ProfileStorage.addBookmark "u" "t") w) in
  stored w (profileFile w "bookmarks") (JArr [])
    = JArr (json_of_Bookmark <$> [mkBookmark "u" "first" 1; mkBookmark "u" "second" 2]) /\
  entriesWith (hasUrl "u") (stored w2 (profileFile w2 "bookmarks") (JArr [])) = 2.
Proof. vm_compute. done. Qed.

(** The theorem at a store that holds the url once. *)
Lemma addBookmark_twice_witness :
  exists l',
    stored (after (ProfileStorage.addBookmark "u" "t")
                  (after (ProfileStorage.addBookmark "u" "t") Reference.fresh))
           (profileFile Reference.fresh "bookmarks") (JArr [])
      = JArr (json_of_Bookmark <$> l') /\
    entriesWith (hasUrl "u") (JArr (json_of_Bookmark <$> l')) = 1.
Proof.
  destruct (addBookmark_twice "u" "t" Reference.fresh [])
    as (l' & H1 & H2 & _); [reflexivity|simpl; lia|].
  exists l'. split; [exact H1|exact H2].
Defined.

End BookmarksOnReference.

(** ** History *)

Section History.
Context {P : Platform} {L : PlatformLaws P}.

Lemma capLength_arr n xs : capLength n (JArr xs) = JArr (take n xs).
Proof.
  unfold capLength. case_bool_decide; [done|].
  rewrite take_ge; [done|lia].
Qed.

Lemma take_app_take {A} n (a b : list A) : take n (a ++ take n b) = take n (a ++ b).
Proof.
  rewrite !take_app. f_equal. rewrite take_take. f_equal. lia.
Qed.

Lemma Array_unshift_run xs (arg : M json) w w' x :
  arg w = (w', Returned x) -> Array_unshift (JArr xs) arg w = (w', Returned (JArr (x :: xs))).
Proof. intros H. unfold Array_unshift. by rewrite (run_bind_returned _ _ _ _ _ H). Qed.

Lemma getHistory_run w :
  ProfileStorage.getHistory w = (w, Returned (stored w (profileFile w "history") (JArr []))).
Proof.
  unfold ProfileStorage.getHistory, bind. by rewrite profilePath_run, readJSON_run.
Qed.

Lemma addHistoryEntry_run url title w xs :
  stored w (profileFile w "history") (JArr []) = JArr xs ->
  ProfileStorage.addHistoryEntry url title w =
    (put (profileFile w "history")
         (JArr (take 1000 (historyEntry url title (clock w (ticks w)) :: xs))) (tick w),
     Returned tt).
Proof.
  intros Hdoc. unfold ProfileStorage.addHistoryEntry.
  rewrite (run_bind_returned _ _ _ _ _ (getHistory_run w)), Hdoc.
  erewrite run_bind_returned; [|by apply Array_unshift_run; reflexivity].
  rewrite capLength_arr.
  rewrite (run_bind_returned _ _ _ _ _ (profilePath_run _ _)).
  by rewrite writeJSON_run.
Qed.

Lemma newEntries_cons w e es :
  newEntries w (e :: es) = historyEntry e.1 e.2 (clock w (ticks w)) :: newEntries (tick w) es.
Proof.
  unfold newEntries. simpl. rewrite Nat.add_0_r. f_equal.
  apply imap_ext. intros i x _. simpl. do 2 f_equal. lia.
Qed.

Lemma addHistoryEntries_run es : forall w xs,
  stored w (profileFile w "history") (JArr []) = JArr xs ->
  es <> [] ->
  exists w',
    addHistoryEntries es w = (w', Returned tt) /\
    stored w' (profileFile w' "history") (JArr [])
      = JArr (take 1000 (rev (newEntries w es) ++ xs)).
Proof.
  induction es as [|[url title] r IH]; intros w xs Hdoc Hne; [done|].
  simpl addHistoryEntries.
  rewrite (run_bind_returned _ _ _ _ _ (addHistoryEntry_run url title w xs Hdoc)).
  set (h := historyEntry url title (clock w (ticks w))).
  set (w1 := put _ _ _).
  assert (stored w1 (profileFile w1 "history") (JArr []) = JArr (take 1000 (h :: xs))) as Hdoc1
    by apply stored_put.
  rewrite newEntries_cons. fold h. change (tick w) with (tick w).
  destruct r as [|e r].
  - exists w1. split; [done|]. rewrite Hdoc1. reflexivity.
  - destruct (IH w1 _ Hdoc1) as (w' & Hrun & Hdoc'); [done|].
    exists w'. split; [done|]. rewrite Hdoc'. f_equal.
    rewrite take_app_take. change (newEntries w1 (e :: r)) with (newEntries (tick w) (e :: r)).
    cbn [rev fst snd]. by rewrite <- app_assoc.
Qed.

(** C5. From every history list, after 1001 calls of [addHistoryEntry]
    (whatever the entries are, distinct or not) [getHistory] returns exactly
    1000 entries, the first of them is the entry added last, and the list
    is the first 1000 of the newest-first log: the entries that go are
    those at its tail, the oldest ones. *)
Theorem getHistory_after_1001 (w : World) (xs : list json) (es : list (string * string)) :
  stored w (profileFile w "history") (JArr []) = JArr xs ->
  length es = 1001 ->
  let w' := after (addHistoryEntries es) w in
  exists ys url title,
    result ProfileStorage.getHistory w' = Returned (JArr ys) /\
    length ys = 1000 /\
    last es = Some (url, title) /\
    head ys = Some (historyEntry url title (clock w (ticks w + 1000))) /\
    ys = take 1000 (rev (newEntries w es) ++ xs).
Proof.
  intros Hdoc Hlen w'.
  destruct (addHistoryEntries_run es w xs Hdoc) as (w1 & Hrun & Hdoc1).
  { intros ->. discriminate Hlen. }
  assert (w' = w1) as -> by (subst w'; unfold after; by rewrite Hrun).
  destruct (exists_last (l := es)) as (es' & [url title] & Hes).
  { intros ->. discriminate Hlen. }
  exists (take 1000 (rev (newEntries w es) ++ xs)), url, title.
  unfold result. rewrite getHistory_run, Hdoc1.
  assert (length es' = 1000) as Hlen'.
  { rewrite Hes, length_app in Hlen. simpl in Hlen. lia. }
  repeat split.
  - rewrite length_take, length_app, length_rev. unfold newEntries.
    rewrite length_imap. lia.
  - rewrite Hes. apply last_snoc.
  - rewrite Hes. unfold newEntries. rewrite imap_app, rev_app_distr.
    simpl imap. rewrite Hlen', Nat.add_0_r. reflexivity.
Qed.

End History.

Section HistoryOnReference.
Local Existing Instance Reference.platform.

(** The theorem at a new installation and the 1001 urls "0", ..., "1000". *)
Lemma getHistory_after_1001_witness :
  let es := map (fun i : nat => (pretty i, "page")) (seq 0 1001) in
  exists ys,
    result ProfileStorage.getHistory (after (addHistoryEntries es) Reference.fresh)
      = Returned (JArr ys) /\
    length ys = 1000.
Proof.
  intros es.
  destruct (getHistory_after_1001 Reference.fresh [] es) as (ys & _ & _ & H1 & H2 & _).
  - reflexivity.
  - vm_compute. reflexivity.
  - exists ys. split; [exact H1|exact H2].
Defined.

End HistoryOnReference.

(** ** Downloads *)

Section Downloads.
Context {P : Platform} {L : PlatformLaws P}.

Lemma hasId_DownloadItem id d : hasId id (json_of_DownloadItem d) = String.eqb (dl_id d) id.
Proof. reflexivity. Qed.

Lemma DownloadItem_not_null (l : list DownloadItem) :
  Forall (fun x => x <> JNull) (json_of_DownloadItem <$> l).
Proof. apply Forall_fmap, Forall_true. done. Qed.

Lemma idIs_pure id xs :
  Forall (fun x => x <> JNull) xs -> pure_on (ProfileStorage.idIs id) (hasId id) xs.
Proof. apply (reads_prop "id" (fun u => strictEqStr u id)). Qed.

Lemma list_find_DownloadItem id (l : list DownloadItem) :
  list_find (fun x => hasId id x) (json_of_DownloadItem <$> l)
  = prod_map Datatypes.id json_of_DownloadItem <$> list_find (fun d => dl_id d = id) l.
Proof.
  rewrite list_find_fmap. f_equal. apply list_find_ext. intros d. simpl.
  rewrite hasId_DownloadItem. split.
  - intros H. by apply String.eqb_eq, Is_true_eq_true.
  - intros ->. by rewrite String.eqb_refl.
Qed.

Lemma getDownloads_run w :
  ProfileStorage.getDownloads w = (w, Returned (stored w (profileFile w "downloads") (JArr []))).
Proof.
  unfold ProfileStorage.getDownloads, bind. by rewrite profilePath_run, readJSON_run.
Qed.

Lemma saveDownload_run item w (l : list DownloadItem) :
  stored w (profileFile w "downloads") (JArr []) = JArr (json_of_DownloadItem <$> l) ->
  ProfileStorage.saveDownload item w =
    (put (profileFile w "downloads")
         (JArr (json_of_DownloadItem <$> take 100 (upsert item l))) w,
     Returned tt).
Proof.
  intros Hdoc. unfold ProfileStorage.saveDownload.
  rewrite (run_bind_returned _ _ _ _ _ (getDownloads_run w)), Hdoc.
  unfold Array_findIndex. unfold bind at 1. unfold bind at 1. simpl asArray.
  unfold ret at 1. cbv beta iota.
  rewrite (findIndexM_run _ _ _ _ _ (idIs_pure _ _ (DownloadItem_not_null l))).
  rewrite list_find_DownloadItem. unfold upsert.
  destruct (list_find _ l) as [[i d]|]; cbn [fmap option_fmap option_map prod_map fst].
  - unfold bind at 1. unfold ret at 1. cbn [Array_set Nat.add].
    rewrite capLength_arr.
    rewrite (run_bind_returned _ _ _ _ _ (profilePath_run _ _)), writeJSON_run.
    by rewrite fmap_take, list_fmap_insert.
  - erewrite run_bind_returned; [|by apply Array_unshift_run; reflexivity].
    rewrite capLength_arr.
    rewrite (run_bind_returned _ _ _ _ _ (profilePath_run _ _)), writeJSON_run.
    by rewrite fmap_take.
Qed.

Lemma stored_downloads_after item w (l : list DownloadItem) :
  stored w (profileFile w "downloads") (JArr []) = JArr (json_of_DownloadItem <$> l) ->
  stored (after (ProfileStorage.saveDownload item) w)
         (profileFile (after (ProfileStorage.saveDownload item) w) "downloads") (JArr [])
  = JArr (json_of_DownloadItem <$> take 100 (upsert item l)).
Proof.
  intros Hdoc. unfold after. rewrite (saveDownload_run _ _ _ Hdoc).
  apply stored_put.
Qed.

(** C6, as the code has it.  For every download list in which the id occurs
    at most once, and then among the first 100 entries: after two calls of
    [saveDownload] with that id the list holds exactly one entry with the
    id, the item of the second call; it is at the index [k] where the first
    call put its item, which is 0 for an id that was not in the list and
    the index of the old entry otherwise; every other index is as after the
    first call; and the list is the first 100 entries of what the first
    call made, so no longer than 100. *)
Theorem saveDownload_twice (w : World) (l : list DownloadItem) (it1 it2 : DownloadItem) :
  stored w (profileFile w "downloads") (JArr []) = JArr (json_of_DownloadItem <$> l) ->
  dl_id it1 = dl_id it2 ->
  (forall i j d d', l !! i = Some d -> l !! j = Some d' ->
                    dl_id d = dl_id it1 -> dl_id d' = dl_id it1 -> i = j) ->
  (forall i d, l !! i = Some d -> dl_id d = dl_id it1 -> i < 100) ->
  let w1 := after (ProfileStorage.saveDownload it1) w in
  let w2 := after (ProfileStorage.saveDownload it2) w1 in
  exists l1 l2 k,
    stored w1 (profileFile w1 "downloads") (JArr []) = JArr (json_of_DownloadItem <$> l1) /\
    stored w2 (profileFile w2 "downloads") (JArr []) = JArr (json_of_DownloadItem <$> l2) /\
    l1 !! k = Some it1 /\
    l2 !! k = Some it2 /\
    (forall j d, l2 !! j = Some d -> dl_id d = dl_id it2 -> j = k) /\
    (forall j, j <> k -> l2 !! j = l1 !! j) /\
    ((forall d, d ∈ l -> dl_id d <> dl_id it1) -> k = 0 /\ l1 = take 100 (it1 :: l)) /\
    (forall i d, l !! i = Some d -> dl_id d = dl_id it1 ->
                 k = i /\ l1 = take 100 (<[i := it1]> l)) /\
    length l2 <= 100.
Proof.
  intros Hdoc Hid Honce Hlow w1 w2.
  pose proof (stored_downloads_after it1 w l Hdoc) as Hdoc1. fold w1 in Hdoc1.
  pose proof (stored_downloads_after it2 w1 _ Hdoc1) as Hdoc2. fold w2 in Hdoc2.
  clearbody w1 w2.
  unfold upsert at 2 in Hdoc2. unfold upsert in Hdoc1, Hdoc2.
  destruct (list_find (fun d => dl_id d = dl_id it1) l) as [[i d]|] eqn:Hfind.
  - apply list_find_Some in Hfind as (Hi & Hd & Hbefore).
    pose proof (Hlow _ _ Hi Hd) as Hi100.
    pose proof (lookup_lt_Some _ _ _ Hi) as Hilen.
    rewrite take_insert_lt in Hdoc1, Hdoc2 by done.
    set (l1 := <[i := it1]> (take 100 l)) in *.
    assert (l1 !! i = Some it1) as Hl1i.
    { apply list_lookup_insert_eq. rewrite length_take. lia. }
    assert (length l1 <= 100) as Hlen1.
    { unfold l1. rewrite length_insert, length_take. lia. }
    assert (list_find (fun d0 => dl_id d0 = dl_id it2) l1 = Some (i, it1)) as Hfind1.
    { apply list_find_Some. split_and!; [done|done|].
      intros j y Hj Hji Hy. unfold l1 in Hj.
      rewrite list_lookup_insert_ne in Hj by lia.
      apply lookup_take_Some in Hj as [Hj _].
      apply (Hbefore j y Hj Hji). congruence. }
    rewrite Hfind1 in Hdoc2.
    rewrite (take_ge (<[i := it2]> l1)) in Hdoc2 by (rewrite length_insert; lia).
    exists l1, (<[i := it2]> l1), i. split_and!; try done.
    + apply list_lookup_insert_eq. by eapply lookup_lt_Some.
    + intros j d' Hj Hd'. destruct (decide (j = i)) as [|Hne]; [done|].
      rewrite list_lookup_insert_ne in Hj by done. unfold l1 in Hj.
      rewrite list_lookup_insert_ne in Hj by done.
      apply lookup_take_Some in Hj as [Hj _].
      apply (Honce j i d' d Hj Hi); congruence.
    + intros j Hne. by rewrite list_lookup_insert_ne.
    + intros Hfresh. exfalso. apply (Hfresh d); [|done]. by eapply list_elem_of_lookup_2.
    + intros i' d' Hi' Hd'. assert (i = i') as <- by (by eapply Honce).
      split; [done|]. unfold l1. by rewrite take_insert_lt.
    + rewrite length_insert. done.
  - apply list_find_None in Hfind.
    cbn [take] in Hdoc1, Hdoc2.
    assert (list_find (fun d0 => dl_id d0 = dl_id it2) (it1 :: take 99 l) = Some (0, it1)) as Hf.
    { apply list_find_Some. split_and!; [done|done|]. intros; lia. }
    rewrite Hf in Hdoc2. cbn [take list_insert insert] in Hdoc2.
    rewrite take_take in Hdoc2. rewrite (Nat.min_id 99) in Hdoc2.
    exists (it1 :: take 99 l), (it2 :: take 99 l), 0. split_and!; try done.
    + intros [|j] d' Hj Hd'; [done|]. exfalso. simpl in Hj.
      apply lookup_take_Some in Hj as [Hj _].
      rewrite Forall_forall in Hfind. apply (Hfind d'); [|congruence].
      by eapply list_elem_of_lookup_2.
    + by intros [|j] Hne.
    + intros i d' Hi Hd'. exfalso.
      rewrite Forall_forall in Hfind. apply (Hfind d'); [|congruence].
      by eapply list_elem_of_lookup_2.
    + simpl. rewrite length_take. lia.
Qed.

End Downloads.

Section DownloadsOnReference.
Local Existing Instance Reference.platform.

(** C6, as stated, fails on a list that already holds the id twice: the two
    calls rewrite the first entry and leave the second, so two entries
    carry the id.  It also fails on a list of 101 entries whose last one
    carries the id: the first call cuts that entry off and the second call
    puts the item in front, away from index 100. *)
Lemma saveDownload_twice_counterexamples :
  (let w := twiceDownloaded in
   let w2 := after (ProfileStorage.saveDownload (download "a" 20))
                   (after (ProfileStorage.saveDownload (download "a" 10)) w) in
   entriesWith (hasId "a") (stored w2 (profileFile w2 "downloads") (JArr [])) = 2) /\
  (let w := longDownloads in
   let w1 := after (ProfileStorage.saveDownload (download "a" 10)) w in
   let w2 := after (ProfileStorage.saveDownload (download "a" 20)) w1 in
   indexWhere (hasId "a") (stored w (profileFile w "downloads") (JArr [])) = Some 100 /\
   indexWhere (hasId "a") (stored w1 (profileFile w1 "downloads") (JArr [])) = None /\
   indexWhere (hasId "a") (stored w2 (profileFile w2 "downloads") (JArr [])) = Some 0).
Proof.
  split.
  - vm_compute. reflexivity.
  - cbv zeta.
    assert (stored longDownloads (profileFile longDownloads "downloads") (JArr [])
            = JArr (json_of_DownloadItem <$>
                      (map (fun i : nat => download (pretty i) 0) (seq 0 100)
                       ++ [download "a" 1]))) as Hdoc by apply stored_put.
    pose proof (stored_downloads_after (download "a" 10) _ _ Hdoc) as Hdoc1.
    pose proof (stored_downloads_after (download "a" 20) _ _ Hdoc1) as Hdoc2.
    rewrite Hdoc, Hdoc1, Hdoc2. clear Hdoc Hdoc1 Hdoc2.
    vm_compute. repeat split.
Qed.

(** The theorem at a new installation: the id is not in the (empty) list. *)
Lemma saveDownload_twice_witness :
  let w1 := after (ProfileStorage.saveDownload (download "a" 10)) Reference.fresh in
  let w2 := after (ProfileStorage.saveDownload (download "a" 20)) w1 in
  exists l2,
    stored w2 (profileFile w2 "downloads") (JArr []) = JArr (json_of_DownloadItem <$> l2) /\
    l2 !! 0 = Some (download "a" 20) /\
    length l2 <= 100.
Proof.
  pose proof (saveDownload_twice Reference.fresh [] (download "a" 10) (download "a" 20)) as H.
  cbv zeta in *.
  destruct H as (l1 & l2 & k & _ & H2 & _ & H4 & _ & _ & H7 & _ & H9).
  - reflexivity.
  - reflexivity.
  - intros i j d d' Hi. by rewrite lookup_nil in Hi.
  - intros i d Hi. by rewrite lookup_nil in Hi.
  - exists l2. destruct H7 as [-> _].
    + intros d Hd. apply elem_of_nil in Hd. destruct Hd.
    + split; [exact H2|]. split; [exact H4|exact H9].
Defined.

End DownloadsOnReference.

(** ** Settings *)

Section Settings.
Context {P : Platform} {L : PlatformLaws P}.

Lemma getSettings_run w :
  ProfileStorage.getSettings w =
    (w, Returned (JObj (spread ProfileStorage.defaultSettings
                               (ownProps (stored w (profileFile w "settings") (JObj ∅)))))).
Proof.
  unfold ProfileStorage.getSettings.
  rewrite (run_bind_returned _ _ _ _ _ (profilePath_run _ _)).
  by rewrite (run_bind_returned _ _ _ _ _ (readJSON_run _ _ _)).
Qed.


End Settings.

Section SettingsOnReference.
Local Existing Instance Reference.platform.


End SettingsOnReference.

Section EncryptionOnReference.
Local Existing Instance Reference.platform.


End EncryptionOnReference.

(** ** Symbolic execution *)

Section Execution.
Context {P : Platform} {L : PlatformLaws P}.

Lemma bind_ret {A B} (a : A) (k : A -> M B) w : bind (ret a) k w = k a w.
Proof. reflexivity. Qed.

Lemma bind_throw {A B} e (k : A -> M B) w : bind (throw e) k w = (w, Thrown e).
Proof. reflexivity. Qed.

Lemma bind_bind {A B C} (m : M A) (k1 : A -> M B) (k2 : B -> M C) w :
  bind (bind m k1) k2 w = bind m (fun a => bind (k1 a) k2) w.
Proof. unfold bind. destruct (m w) as [w' [a|e]]; reflexivity. Qed.

Lemma bind_get_world {B} (k : World -> M B) w : bind get_world k w = k w w.
Proof. reflexivity. Qed.

Lemma bind_modify {B} f (k : unit -> M B) w : bind (modify f) k w = k tt (f w).
Proof. reflexivity. Qed.

Lemma bind_Date_now {B} (k : Z -> M B) w : bind Date_now k w = k (clock w (ticks w)) (tick w).
Proof. reflexivity. Qed.

Lemma bind_profilePath {B} name (k : path -> M B) w :
  bind (ProfileStorage.profilePath name None) k w = k (profileFile w name) w.
Proof. reflexivity. Qed.

Lemma bind_globalPath {B} name (k : path -> M B) w :
  bind (ProfileStorage.globalPath name) k w = k (globalFile w name) w.
Proof. reflexivity. Qed.

Lemma bind_readJSON {B} p fallback (k : json -> M B) w :
  bind (ProfileStorage.readJSON p fallback) k w = k (stored w p fallback) w.
Proof. unfold bind. by rewrite readJSON_run. Qed.

Lemma bind_writeJSON {B} p v (k : unit -> M B) w :
  bind (ProfileStorage.writeJSON p v) k w = k tt (put p v w).
Proof. reflexivity. Qed.

Lemma bind_plain_readJSON {B} name fallback (k : json -> M B) w :
  bind (Storage.readJSON name fallback) k w = k (stored w (plainFile w name) fallback) w.
Proof. unfold bind. by rewrite plain_readJSON_run. Qed.

Lemma bind_plain_writeJSON {B} name v (k : unit -> M B) w :
  bind (Storage.writeJSON name v) k w = k tt (put (plainFile w name) v w).
Proof. reflexivity. Qed.

Lemma bind_Math_random_suffix {B} (k : string -> M B) w :
  bind Math_random_suffix k w = k (mathRandom w (rolls w)) (roll w).
Proof. reflexivity. Qed.

Lemma bind_existsSync {B} p (k : bool -> M B) w :
  bind (existsSync p) k w
  = k (bool_decide (map_Exists (fun q _ => p `prefix_of` q) (disk w))) w.
Proof. reflexivity. Qed.

Lemma bind_rmSync {B} dir (k : unit -> M B) w : bind (rmSync dir) k w = k tt (removed dir w).
Proof. reflexivity. Qed.

Lemma bind_stateless {A B} (m : M A) (k : A -> M B) r w :
  (forall w, m w = (w, r)) ->
  bind m k w = match r with Returned a => k a w | Thrown e => (w, Thrown e) end.
Proof. intros H. unfold bind. rewrite H. by destruct r. Qed.

Lemma ret_run {A} (a : A) w : ret a w = (w, Returned a).
Proof. reflexivity. Qed.

Lemma throw_run {A} e w : @throw A e w = (w, Thrown e).
Proof. reflexivity. Qed.

(** Computations that leave the state alone. *)
Lemma stateless_ret {A} (a : A) : stateless (ret a).
Proof. by exists (Returned a). Qed.

Lemma stateless_throw {A} e : stateless (@throw A e).
Proof. by exists (Thrown e). Qed.

Lemma stateless_bind {A B} (m : M A) (k : A -> M B) :
  stateless m -> (forall a, stateless (k a)) -> stateless (bind m k).
Proof.
  intros [r Hr] Hk. destruct r as [a|e].
  - destruct (Hk a) as [r' Hr']. exists r'. intros w. unfold bind. by rewrite Hr, Hr'.
  - exists (Thrown e). intros w. unfold bind. by rewrite Hr.
Qed.

Lemma stateless_getProp v k : stateless (getProp v k).
Proof. destruct v; apply stateless_ret || apply stateless_throw. Qed.

Lemma stateless_asArray v : stateless (asArray v).
Proof. destruct v; apply stateless_ret || apply stateless_throw. Qed.


Lemma stateless_if {A} (b : bool) (m1 m2 : M A) :
  stateless m1 -> stateless m2 -> stateless (if b then m1 else m2).
Proof. by destruct b. Qed.

Lemma stateless_someM f xs : (forall x, stateless (f x)) -> stateless (someM f xs).
Proof.
  intros Hf. induction xs as [|x xs IH]; [apply stateless_ret|].
  apply stateless_bind; [apply Hf|]. intros b. apply stateless_if; [apply stateless_ret|done].
Qed.


Lemma stateless_findM f xs : (forall x, stateless (f x)) -> stateless (findM f xs).
Proof.
  intros Hf. induction xs as [|x xs IH]; [apply stateless_ret|].
  apply stateless_bind; [apply Hf|]. intros b. apply stateless_if; [apply stateless_ret|done].
Qed.


Lemma stateless_reads_prop k (test : option json -> bool) x :
  stateless (let* u := getProp x k in ret (test u)).
Proof. apply stateless_bind; [apply stateless_getProp|]. intros u. apply stateless_ret. Qed.


Lemma stateless_Array_some f v : (forall x, stateless (f x)) -> stateless (Array_some f v).
Proof.
  intros Hf. apply stateless_bind; [apply stateless_asArray|]. intros xs.
  by apply stateless_someM.
Qed.


Lemma stateless_Array_find f v : (forall x, stateless (f x)) -> stateless (Array_find f v).
Proof.
  intros Hf. apply stateless_bind; [apply stateless_asArray|]. intros xs.
  by apply stateless_findM.
Qed.


Lemma stateless_Array_push v x : stateless (Array_push v x).
Proof.
  apply stateless_bind; [apply stateless_asArray|]. intros xs. apply stateless_ret.
Qed.

End Execution.

(** One step of execution at the head of a computation. *)
Ltac exec_step :=
  first
    [ rewrite bind_bind
    | rewrite bind_ret
    | rewrite bind_throw
    | rewrite bind_get_world
    | rewrite bind_modify
    | rewrite bind_Date_now
    | rewrite bind_Math_random_suffix
    | rewrite bind_existsSync
    | rewrite bind_rmSync
    | rewrite bind_profilePath
    | rewrite bind_globalPath
    | rewrite bind_readJSON
    | rewrite bind_writeJSON
    | rewrite bind_plain_readJSON
    | rewrite bind_plain_writeJSON
    | rewrite readJSON_run
    | rewrite writeJSON_run
    | rewrite plain_readJSON_run
    | rewrite plain_writeJSON_run
    | rewrite ret_run
    | rewrite throw_run ].

Ltac exec := repeat (exec_step; cbv beta).

(** Execute a stateless computation at the head and name its outcome. *)
Ltac exec_stateless H :=
  let r := fresh "r" in
  let Hr := fresh "Hr" in
  destruct H as [r Hr];
  rewrite !(bind_stateless _ _ _ _ Hr).

(** ** The two storage modules *)

Section Variants.
Context {P : Platform} {L : PlatformLaws P}.



























End Variants.

Section VariantsOnReference.
Local Existing Instance Reference.platform.


End VariantsOnReference.

(** ** Profiles *)

Section Profiles.
Context {P : Platform} {L : PlatformLaws P}.

Lemma hasId_Profile id p : hasId id (json_of_Profile p) = String.eqb (pr_id p) id.
Proof. reflexivity. Qed.

Lemma Profile_not_null (ps : list Profile) :
  Forall (fun x => x <> JNull) (json_of_Profile <$> ps).
Proof. apply Forall_fmap, Forall_true. done. Qed.

Lemma stored_removed dir w p fallback :
  stored (removed dir w) p fallback = if below dir p then fallback else stored w p fallback.
Proof.
  unfold stored, removed. cbn [disk set_disk].
  destruct (below dir p) eqn:Hb.
  - rewrite (proj2 (map_lookup_filter_None _ _ _)); [done|].
    right. intros x _. simpl. congruence.
  - destruct (disk w !! p) as [raw|] eqn:Hp.
    + by rewrite (map_lookup_filter_Some_2 _ _ _ _ Hp Hb).
    + rewrite (proj2 (map_lookup_filter_None _ _ _)); [done|]. by left.
Qed.

Lemma getProfiles_run w xs :
  stored w (globalFile w "profiles") (JArr []) = JArr xs ->
  ProfileStorage.getProfiles w =
    match xs with
    | [] => (put (globalFile w "profiles") (JArr [ProfileStorage.defaultProfile (clock w (ticks w))])
                 (tick w),
             Returned (JArr [ProfileStorage.defaultProfile (clock w (ticks w))]))
    | _ => (w, Returned (JArr xs))
    end.
Proof.
  intros Hdoc. unfold ProfileStorage.getProfiles. exec. rewrite Hdoc.
  unfold lengthIsZero. exec. by destruct xs.
Qed.

Lemma one_default_singleton now :
  one_default [mkProfile "default" "Default" "person" now true].
Proof. reflexivity. Qed.

(** [getProfiles] on a state that satisfies the invariant. *)
Lemma getProfiles_typed w ps :
  stored w (globalFile w "profiles") (JArr []) = JArr (json_of_Profile <$> ps) ->
  ps = [] \/ one_default ps ->
  exists ps' w',
    ProfileStorage.getProfiles w = (w', Returned (JArr (json_of_Profile <$> ps'))) /\
    one_default ps' /\
    stored w' (globalFile w' "profiles") (JArr []) = JArr (json_of_Profile <$> ps') /\
    activeProfileId w' = activeProfileId w /\
    userData w' = userData w /\
    (ps <> [] -> ps' = ps /\ w' = w).
Proof.
  intros Hdoc Hps. rewrite (getProfiles_run _ _ Hdoc).
  destruct ps as [|p ps].
  - exists [mkProfile "default" "Default" "person" (clock w (ticks w)) true]. eexists.
    split; [reflexivity|]. split_and!; try done. apply stored_put.
  - destruct Hps as [|Hone]; [done|].
    exists (p :: ps), w. split_and!; done.
Qed.

Lemma profiles_inv_getProfiles w :
  profiles_inv w -> profiles_inv (after ProfileStorage.getProfiles w).
Proof.
  intros (ps & Hdoc & Hps).
  destruct (getProfiles_typed w ps Hdoc Hps) as (ps' & w' & Hrun & Hone & Hdoc' & _).
  unfold after. rewrite Hrun. exists ps'. split; [done|by right].
Qed.

Lemma idIs_inline_pure id xs :
  Forall (fun x => x <> JNull) xs ->
  pure_on (fun p => let* i := getProp p "id" in ret (strictEqStr i id)) (hasId id) xs.
Proof. apply (reads_prop "id" (fun u => strictEqStr u id)). Qed.

Lemma idIsNot_inline_pure id xs :
  Forall (fun x => x <> JNull) xs ->
  pure_on (fun p => let* i := getProp p "id" in ret (negb (strictEqStr i id)))
          (fun x => negb (hasId id x)) xs.
Proof. apply (reads_prop "id" (fun u => negb (strictEqStr u id))). Qed.

Lemma switchProfile_run id w w' xs :
  ProfileStorage.getProfiles w = (w', Returned (JArr xs)) ->
  Forall (fun x => x <> JNull) xs ->
  ProfileStorage.switchProfile id w =
    match List.find (hasId id) xs with
    | None => (w', Returned JNull)
    | Some p => (set_activeProfileId id w', Returned p)
    end.
Proof.
  intros Hrun Hxs. unfold ProfileStorage.switchProfile.
  rewrite (run_bind_returned _ _ _ _ _ Hrun).
  unfold Array_find, asArray. exec.
  rewrite (run_bind_returned _ _ _ _ _ (findM_run _ _ _ _ (idIs_inline_pure id xs Hxs))).
  destruct (List.find (hasId id) xs); exec; reflexivity.
Qed.

Lemma getActiveProfile_run w w' xs :
  ProfileStorage.getProfiles w = (w', Returned (JArr xs)) ->
  Forall (fun x => x <> JNull) xs ->
  ProfileStorage.getActiveProfile w =
    (w', Returned (match List.find (hasId (activeProfileId w')) xs with
                   | Some p => Some p
                   | None => head xs
                   end)).
Proof.
  intros Hrun Hxs. unfold ProfileStorage.getActiveProfile.
  rewrite (run_bind_returned _ _ _ _ _ Hrun).
  unfold Array_find, asArray. exec.
  rewrite (run_bind_returned _ _ _ _ _
             (findM_run _ _ _ _ (idIs_inline_pure (activeProfileId w') xs Hxs))).
  destruct (List.find _ xs); exec; reflexivity.
Qed.

Lemma createProfile_run name avatar w w' xs :
  ProfileStorage.getProfiles w = (w', Returned (JArr xs)) ->
  let w'' := tick (roll (tick w')) in
  let profile :=
    JObj {[ "id" := JStr ("profile-" +:+ pretty (clock w' (ticks w')) +:+ "-"
                          +:+ mathRandom w' (rolls w'));
            "name" := JStr name; "avatar" := JStr avatar;
            "createdAt" := JNum (clock w' (S (ticks w'))); "isDefault" := JBool false ]} in
  ProfileStorage.createProfile name avatar w =
    (put (globalFile w' "profiles") (JArr (xs ++ [profile])) w'', Returned profile).
Proof.
  intros Hrun. unfold ProfileStorage.createProfile.
  rewrite (run_bind_returned _ _ _ _ _ Hrun).
  unfold Array_push, asArray. exec. reflexivity.
Qed.

Lemma deleteProfile_run id w w' xs :
  id <> "default" ->
  ProfileStorage.getProfiles w = (w', Returned (JArr xs)) ->
  Forall (fun x => x <> JNull) xs ->
  let w1 := put (globalFile w' "profiles")
                (JArr (List.filter (fun x => negb (hasId id x)) xs)) w' in
  let dir := path_join (ProfileStorage.baseDataDir w') ["profiles"; id] in
  let w2 := if bool_decide (map_Exists (fun q _ => dir `prefix_of` q) (disk w1))
            then removed dir w1 else w1 in
  let w3 := if String.eqb (activeProfileId w2) id
            then set_activeProfileId "default" w2 else w2 in
  ProfileStorage.deleteProfile id w = ProfileStorage.getProfiles w3.
Proof.
  intros Hid Hrun Hxs. unfold ProfileStorage.deleteProfile.
  rewrite (proj2 (String.eqb_neq _ _) Hid).
  rewrite (run_bind_returned _ _ _ _ _ Hrun).
  unfold Array_filter, asArray. exec.
  rewrite (run_bind_returned _ _ _ _ _ (filterM_run _ _ _ _ (idIsNot_inline_pure id xs Hxs))).
  exec. cbv zeta.
  set (w1 := put _ _ w').
  change (ProfileStorage.baseDataDir w1) with (ProfileStorage.baseDataDir w').
  destruct (bool_decide _); exec.
  - destruct (String.eqb _ id); exec; reflexivity.
  - destruct (String.eqb _ id); exec; reflexivity.
Qed.

Lemma after_returning (m : M json) w : after (returning m) w = after m w.
Proof. unfold after, returning, bind. by destruct (m w) as [w' [v|e]]. Qed.

Lemma result_after {A} (m : M A) w : m w = (after m w, result m w).
Proof. unfold after, result. by destruct (m w). Qed.

Lemma one_default_not_nil ps : one_default ps -> ps <> [].
Proof. by intros H ->. Qed.

Lemma one_default_snoc ps p : one_default ps -> isDefault p = false -> one_default (ps ++ [p]).
Proof.
  unfold one_default. intros Hps Hp. rewrite List.filter_app, length_app. simpl.
  rewrite Hp. simpl. lia.
Qed.

Lemma one_default_filter id ps :
  id <> "default" -> one_default ps ->
  one_default (List.filter (fun p => negb (String.eqb (pr_id p) id)) ps).
Proof.
  unfold one_default. intros Hid Hps. rewrite <- Hps. clear Hps. f_equal.
  induction ps as [|p ps IH]; [done|]. simpl.
  destruct (String.eqb (pr_id p) id) eqn:Hp; simpl.
  - apply String.eqb_eq in Hp. unfold isDefault at 2. rewrite Hp.
    by rewrite (proj2 (String.eqb_neq _ _) Hid).
  - destruct (isDefault p); by rewrite IH.
Qed.

Lemma filter_Profiles id (ps : list Profile) :
  List.filter (fun x => negb (hasId id x)) (json_of_Profile <$> ps)
  = json_of_Profile <$> List.filter (fun p => negb (String.eqb (pr_id p) id)) ps.
Proof. by rewrite filter_fmap. Qed.

Lemma profiles_inv_createProfile name avatar w :
  profiles_inv w -> profiles_inv (after (ProfileStorage.createProfile name avatar) w).
Proof.
  intros (ps & Hdoc & Hps).
  destruct (getProfiles_typed w ps Hdoc Hps) as (ps' & w' & Hrun & Hone & Hdoc' & _).
  unfold after. rewrite (createProfile_run _ _ _ _ _ Hrun). cbv zeta. cbn [fst].
  exists (ps' ++ [mkProfile ("profile-" +:+ pretty (clock w' (ticks w')) +:+ "-"
                              +:+ mathRandom w' (rolls w'))
                            name avatar (clock w' (S (ticks w'))) false]).
  split.
  - rewrite fmap_app. apply stored_put.
  - right. by apply one_default_snoc.
Qed.

Lemma profiles_inv_deleteProfile id w :
  profiles_inv w -> profiles_inv (after (ProfileStorage.deleteProfile id) w).
Proof.
  intros Hinv. destruct (decide (id = "default")) as [->|Hid].
  { by apply profiles_inv_getProfiles. }
  destruct Hinv as (ps & Hdoc & Hps).
  destruct (getProfiles_typed w ps Hdoc Hps) as (ps' & w' & Hrun & Hone & Hdoc' & _).
  unfold after at 1.
  rewrite (deleteProfile_run _ _ _ _ Hid Hrun (Profile_not_null ps')). cbv zeta.
  apply profiles_inv_getProfiles.
  set (w1 := put _ _ w').
  assert (profiles_inv w1) as Hinv1.
  { exists (List.filter (fun p => negb (String.eqb (pr_id p) id)) ps'). split.
    - rewrite <- filter_Profiles. apply stored_put.
    - right. by apply one_default_filter. }
  set (dir := path_join _ _).
  assert (profiles_inv (if bool_decide (map_Exists (fun q _ => dir `prefix_of` q) (disk w1))
                        then removed dir w1 else w1)) as Hinv2.
  { destruct (bool_decide _); [|done].
    destruct Hinv1 as (ps1 & Hdoc1 & Hps1).
    change (globalFile w1 "profiles") with (globalFile (removed dir w1) "profiles") in Hdoc1.
    unfold profiles_inv. rewrite stored_removed.
    destruct (below dir _).
    - exists []. split; [done|by left].
    - exists ps1. split; [|done]. exact Hdoc1. }
  destruct (String.eqb _ id); exact Hinv2.
Qed.

Lemma profiles_inv_switchProfile id w :
  profiles_inv w -> profiles_inv (after (ProfileStorage.switchProfile id) w).
Proof.
  intros (ps & Hdoc & Hps).
  destruct (getProfiles_typed w ps Hdoc Hps) as (ps' & w' & Hrun & Hone & Hdoc' & _).
  unfold after. rewrite (switchProfile_run _ _ _ _ Hrun (Profile_not_null ps')).
  destruct (List.find _ _); exists ps'; (split; [exact Hdoc'|by right]).
Qed.

Lemma profiles_inv_getActiveProfile w :
  profiles_inv w -> profiles_inv (after ProfileStorage.getActiveProfile w).
Proof.
  intros (ps & Hdoc & Hps).
  destruct (getProfiles_typed w ps Hdoc Hps) as (ps' & w' & Hrun & Hone & Hdoc' & _).
  unfold after. rewrite (getActiveProfile_run _ _ _ Hrun (Profile_not_null ps')).
  exists ps'. split; [exact Hdoc'|by right].
Qed.

Lemma profiles_inv_fresh w : fresh_root w -> profiles_inv w.
Proof.
  intros [Hnone _]. exists []. split; [|by left].
  unfold stored. rewrite Hnone; [done|].
  change (globalFile w "profiles")
    with ((userData w ++ ["browser-data"]) ++ ["profiles.json"]).
  by do 2 apply prefix_app_r.
Qed.

Lemma reachable_profiles_inv w : reachable w -> profiles_inv w.
Proof.
  induction 1 as [w Hfresh|w c _ IH]; [by apply profiles_inv_fresh|].
  destruct c; simpl; rewrite ?after_returning.
  - by apply profiles_inv_getProfiles.
  - by apply profiles_inv_createProfile.
  - by apply profiles_inv_deleteProfile.
  - by apply profiles_inv_switchProfile.
  - by apply profiles_inv_getActiveProfile.
Qed.

(** C4. In every state that profile operations reach from a fresh data
    root, the profile list (what [getProfiles] returns) holds exactly one
    profile with the id "default"; and [deleteProfile("default")] returns
    that same list, leaves the active profile as it is, and leaves
    [getProfiles] returning that same list. *)
Theorem default_profile_stays (w : World) :
  reachable w ->
  exists ps,
    result ProfileStorage.getProfiles w = Returned (JArr (json_of_Profile <$> ps)) /\
    one_default ps /\
    let w' := after (ProfileStorage.deleteProfile "default") w in
    result (ProfileStorage.deleteProfile "default") w
      = Returned (JArr (json_of_Profile <$> ps)) /\
    activeProfileId w' = activeProfileId w /\
    result ProfileStorage.getProfiles w' = Returned (JArr (json_of_Profile <$> ps)).
Proof.
  intros (ps & Hdoc & Hps)%reachable_profiles_inv.
  destruct (getProfiles_typed w ps Hdoc Hps) as (ps' & w' & Hrun & Hone & Hdoc' & Hact & _).
  exists ps'. unfold result at 1. rewrite Hrun. split; [done|]. split; [done|].
  change (ProfileStorage.deleteProfile "default") with ProfileStorage.getProfiles.
  unfold after, result. rewrite Hrun. cbn [fst snd]. split; [done|]. split; [done|].
  destruct (getProfiles_typed w' ps' Hdoc' (or_intror Hone))
    as (ps'' & w'' & Hrun' & _ & _ & _ & _ & Hsame).
  destruct (Hsame (one_default_not_nil _ Hone)) as [-> ->]. by rewrite Hrun'.
Qed.

(** What [getProfiles] may change: the profile index, and the clock's cursor. *)
Lemma getProfiles_frame w :
  let w' := after ProfileStorage.getProfiles w in
  activeProfileId w' = activeProfileId w /\
  userData w' = userData w /\
  forall p, p <> globalFile w "profiles" -> disk w' !! p = disk w !! p.
Proof.
  unfold after, ProfileStorage.getProfiles. exec.
  destruct (stored w _ _) as [| | | |xs|fs]; unfold lengthIsZero; exec;
    try (by split_and!).
  - destruct (String.eqb _ _); exec; [|by split_and!].
    split_and!; [done..|]. intros p Hp. cbn [fst put set_disk disk].
    by rewrite lookup_insert_ne.
  - destruct (bool_decide _); exec; [|by split_and!].
    split_and!; [done..|]. intros p Hp. cbn [fst put set_disk disk].
    by rewrite lookup_insert_ne.
  - destruct (fs !! "length") as [[| |[]| | |]|]; exec; try (by split_and!).
    split_and!; [done..|]. intros p Hp. cbn [fst put set_disk disk].
    by rewrite lookup_insert_ne.
Qed.

Lemma profileDocuments_files name d :
  name ∈ profileDocuments -> path_join d [name +:+ ".json"] = d ++ [name +:+ ".json"].
Proof.
  intros Hn. repeat (apply elem_of_cons in Hn as [->|Hn]; [reflexivity|]).
  by apply elem_of_nil in Hn.
Qed.

Lemma profileFile_not_index w name :
  name ∈ profileDocuments -> profileFile w name <> globalFile w "profiles".
Proof.
  intros Hn. unfold profileFile. rewrite (profileDocuments_files _ _ Hn).
  change (globalFile w "profiles") with (ProfileStorage.baseDataDir w ++ ["profiles.json"]).
  intros [_ H]%app_inj_tail. revert H.
  repeat (apply elem_of_cons in Hn as [->|Hn]; [done|]).
  by apply elem_of_nil in Hn.
Qed.

Lemma find_absent id (ps : list Profile) :
  id ∉ (pr_id <$> ps) -> List.find (hasId id) (json_of_Profile <$> ps) = None.
Proof.
  induction ps as [|p ps IH]; [done|]. csimpl. intros Hid.
  apply not_elem_of_cons in Hid as [Hne Hid].
  rewrite hasId_Profile. rewrite (proj2 (String.eqb_neq _ _)) by done. by apply IH.
Qed.

(** C9. For every profile list and every id that no profile of the list
    has, [switchProfile id] returns [null] and leaves the active profile
    id as it was; so the path of every profile-scoped document is the same
    afterwards, and the documents of that profile are untouched. *)
Theorem switchProfile_unknown_id (w : World) (ps : list Profile) (id : string) :
  result ProfileStorage.getProfiles w = Returned (JArr (json_of_Profile <$> ps)) ->
  id ∉ (pr_id <$> ps) ->
  let w' := after (ProfileStorage.switchProfile id) w in
  result (ProfileStorage.switchProfile id) w = Returned JNull /\
  activeProfileId w' = activeProfileId w /\
  (forall name, ProfileStorage.profilePath name None w'
                = (w', Returned (profileFile w name))) /\
  (forall name, name ∈ profileDocuments ->
                disk w' !! profileFile w name = disk w !! profileFile w name).
Proof.
  intros Hres Hid.
  pose proof (result_after ProfileStorage.getProfiles w) as Hrun. rewrite Hres in Hrun.
  destruct (getProfiles_frame w) as (Hact & Hud & Hdisk).
  unfold after, result at 1.
  rewrite (switchProfile_run _ _ _ _ Hrun (Profile_not_null ps)), (find_absent _ _ Hid).
  cbn [fst snd]. split; [done|]. split; [done|]. split.
  - intros name. rewrite profilePath_run. unfold profileFile, ProfileStorage.baseDataDir.
    by rewrite Hact, Hud.
  - intros name Hn. apply Hdisk. by apply profileFile_not_index.
Qed.

End Profiles.

Section ProfilesOnReference.
Local Existing Instance Reference.platform.

Lemma fresh_root_fresh : fresh_root Reference.fresh.
Proof. split; [|reflexivity]. intros p _. reflexivity. Qed.

(** The theorem at the state reached by creating a profile and then asking
    to delete the default one. *)
Lemma default_profile_stays_witness :
  let w := after (callProfiles (DeleteProfile "default"))
                 (after (callProfiles (CreateProfile "Work" "briefcase")) Reference.fresh) in
  exists ps,
    result ProfileStorage.getProfiles w = Returned (JArr (json_of_Profile <$> ps)) /\
    one_default ps.
Proof.
  intros w.
  destruct (default_profile_stays w) as (ps & H1 & H2 & _).
  - apply reachable_call, reachable_call, reachable_fresh, fresh_root_fresh.
  - exists ps. split; [exact H1|exact H2].
Defined.

(** The theorem at a new installation and an id nobody has. *)
Lemma switchProfile_unknown_id_witness :
  result (ProfileStorage.switchProfile "nobody") Reference.fresh = Returned JNull /\
  activeProfileId (after (ProfileStorage.switchProfile "nobody") Reference.fresh)
  = activeProfileId Reference.fresh.
Proof.
  destruct (switchProfile_unknown_id Reference.fresh
              [mkProfile "default" "Default" "person" 0 true] "nobody")
    as (H1 & H2 & _).
  - vm_compute. reflexivity.
  - vm_compute. intros H. inversion H as [|? ? ? H']. inversion H'.
  - split; [exact H1|exact H2].
Defined.

End ProfilesOnReference.

(** ** The credential store *)

Section Auth.
Context {P : Platform} {L : PlatformLaws P}.

Lemma bind_randomBytes {B} n (k : list byte -> M B) w :
  bind (randomBytes n) k w = k (nextBytes w n) (set_drawn (drawn w + n) w).
Proof. reflexivity. Qed.

Lemma getAppKey_usable w :
  key_usable w ->
  ProfileStorage.getAppKey w = (keyed w, Returned (current_key w)) /\
  has_key (keyed w) (current_key w).
Proof.
  unfold keyed, current_key. intros [Hnone|[key Hk]].
  - rewrite (Hnone (ProfileStorage.keyPath w)) by done.
    split; [by apply getAppKey_first|apply has_key_with_new_key].
  - pose proof Hk as (txt & Htxt & Hkey & Hlen). rewrite Htxt, Hkey.
    split; [by apply getAppKey_has_key|done].
Qed.

Lemma has_key_current w key : has_key w key -> current_key w = key /\ keyed w = w.
Proof. intros (txt & Htxt & Hkey & _). unfold current_key, keyed. by rewrite Htxt. Qed.

Lemma writeEncrypted_has_key p v w key :
  has_key w key ->
  ProfileStorage.writeEncrypted p v w = (sealed_write p v key w, Returned tt).
Proof.
  intros Hk. unfold ProfileStorage.writeEncrypted, ProfileStorage.ensureDir. exec.
  by rewrite (run_bind_returned _ _ _ _ _ (encryptData_has_key _ _ _ Hk)).
Qed.

Lemma has_key_sealed_write p v w key :
  has_key w key -> p <> ProfileStorage.keyPath w -> has_key (sealed_write p v key w) key.
Proof.
  intros (txt & Htxt & Hkey & Hlen) Hp. exists txt. split; [|done].
  unfold sealed_write. cbn [disk set_disk].
  change (ProfileStorage.keyPath (set_disk ?d ?w')) with (ProfileStorage.keyPath w).
  by rewrite lookup_insert_ne.
Qed.

Lemma encryptData_usable data w :
  key_usable w ->
  ProfileStorage.encryptData data w =
    (set_drawn (drawn (keyed w) + 16) (keyed w),
     Returned (envelope (current_key w) (nextBytes (keyed w) 16) data)).
Proof.
  intros Hu. destruct (getAppKey_usable w Hu) as [Hrun Hk].
  pose proof (encryptData_has_key data _ _ Hk) as Henc.
  unfold ProfileStorage.encryptData in *.
  rewrite (run_bind_returned _ _ _ _ _ Hrun).
  by rewrite (run_bind_returned _ _ _ _ _ (getAppKey_has_key _ _ Hk)) in Henc.
Qed.

Lemma writeEncrypted_usable p v w :
  key_usable w ->
  ProfileStorage.writeEncrypted p v w
  = (sealed_write p v (current_key w) (keyed w), Returned tt).
Proof.
  intros Hu. unfold ProfileStorage.writeEncrypted, ProfileStorage.ensureDir. exec.
  by rewrite (run_bind_returned _ _ _ _ _ (encryptData_usable _ _ Hu)).
Qed.

Lemma readEncrypted_absent p fallback w :
  disk w !! p = None -> ProfileStorage.readEncrypted p fallback w = (w, Returned fallback).
Proof.
  intros Hp. unfold ProfileStorage.readEncrypted, try_catch, bind, readFileSync.
  by rewrite Hp.
Qed.

Lemma readEncrypted_sealed p fallback w key iv v :
  has_key w key -> length iv = 16 ->
  disk w !! p = Some (envelope key iv (JSON_stringify v)) ->
  ProfileStorage.readEncrypted p fallback w = (w, Returned v).
Proof.
  intros Hk Hiv Hp. unfold ProfileStorage.readEncrypted, try_catch.
  unfold bind at 1. unfold readFileSync. rewrite Hp.
  unfold envelope.
  rewrite (run_bind_returned _ _ _ _ _ (decryptData_envelope _ _ _ _ Hk Hiv)).
  rewrite string_of_list_byte_of_string. unfold ProfileStorage.parseJSON.
  by rewrite parse_stringify.
Qed.

Lemma nextBytes_length w n : length (nextBytes w n) = n.
Proof. apply entropy_length. Qed.

Lemma keyPath_not_credentialsFile w : credentialsFile w <> ProfileStorage.keyPath w.
Proof.
  change (credentialsFile w) with ((userData w ++ ["browser-data"]) ++ ["credentials.enc"]).
  change (ProfileStorage.keyPath w) with (userData w ++ [".browser-key"]).
  rewrite <- app_assoc. by intros [=]%app_inv_head.
Qed.

Lemma keyPath_not_authFile w : authFile w <> ProfileStorage.keyPath w.
Proof.
  change (authFile w) with ((userData w ++ ["browser-data"]) ++ ["auth.enc"]).
  change (ProfileStorage.keyPath w) with (userData w ++ [".browser-key"]).
  rewrite <- app_assoc. by intros [=]%app_inv_head.
Qed.

Lemma authFile_not_credentialsFile w : authFile w <> credentialsFile w.
Proof.
  change (authFile w) with ((userData w ++ ["browser-data"]) ++ ["auth.enc"]).
  change (credentialsFile w) with ((userData w ++ ["browser-data"]) ++ ["credentials.enc"]).
  by intros [=]%app_inv_head.
Qed.

Lemma hasEmail_credential email e h s t :
  hasEmail email (credential e h s t) = String.eqb e email.
Proof. reflexivity. Qed.

Lemma emailIs_pure email xs :
  Forall (fun x => x <> JNull) xs ->
  pure_on (fun c => let* e := getProp c "email" in ret (strictEqStr e email))
          (hasEmail email) xs.
Proof. apply (reads_prop "email" (fun u => strictEqStr u email)). Qed.

(** The state after a successful [registerUser], from a state [w0] in which
    the salt has been drawn and the clock read. *)
Lemma keyed_frame w :
  userData (keyed w) = userData w /\ activeProfileId (keyed w) = activeProfileId w /\
  clock (keyed w) = clock w /\ ticks (keyed w) = ticks w /\
  forall p, p <> ProfileStorage.keyPath w -> disk (keyed w) !! p = disk w !! p.
Proof.
  unfold keyed. destruct (disk w !! _); [done|]. split_and!; try done.
  intros p Hp. unfold with_new_key. cbn [disk set_disk]. by rewrite lookup_insert_ne.
Qed.

(** A successful [registerUser], from a state without credentials. *)
Lemma registerUser_run email password w :
  key_usable w ->
  disk w !! credentialsFile w = None ->
  let salt := hex_encode (nextBytes w 16) in
  let cred := credential email (passwordHash password salt) salt (clock w (ticks w)) in
  exists w2 key iv,
    ProfileStorage.registerUser email password w = (w2, Returned ProfileStorage.success) /\
    has_key w2 key /\ length iv = 16 /\
    disk w2 !! credentialsFile w2 = Some (envelope key iv (JSON_stringify (JArr [cred]))) /\
    activeProfileId w2 = activeProfileId w.
Proof.
  intros Hu Hnone. cbv zeta.
  set (w0 := tick (set_drawn (drawn w + 16) w)).
  assert (key_usable w0) as Hu0 by exact Hu.
  destruct (getAppKey_usable w0 Hu0) as [_ Hk0].
  pose proof (writeEncrypted_usable (credentialsFile w)
    (JArr [credential email (passwordHash password (hex_encode (nextBytes w 16)))
                      (hex_encode (nextBytes w 16)) (clock w (ticks w))]) w0 Hu0) as Hwrite.
  destruct (keyed_frame w0) as (Hud & Hact & _).
  set (key := current_key w0) in *.
  set (wk := keyed w0) in *.
  set (cred := credential _ _ _ _) in *.
  set (w1 := sealed_write (credentialsFile w) (JArr [cred]) key wk) in *.
  assert (ProfileStorage.keyPath wk = ProfileStorage.keyPath w) as Hkp.
  { unfold ProfileStorage.keyPath. by rewrite Hud. }
  assert (has_key w1 key) as Hk1.
  { apply has_key_sealed_write; [done|]. rewrite Hkp. apply keyPath_not_credentialsFile. }
  assert (authFile w1 = authFile w) as Hauth.
  { unfold authFile, ProfileStorage.baseDataDir. cbn [w1 sealed_write userData set_disk set_drawn].
    by rewrite Hud. }
  assert (activeProfileId w1 = activeProfileId w) as Hact1 by exact Hact.
  set (w2 := sealed_write (authFile w)
               (ProfileStorage.loggedIn email (hex_encode (nextBytes w1 32)) (activeProfileId w))
               key (set_drawn (drawn w1 + 32) w1)).
  exists w2, key, (nextBytes wk 16). split_and!.
  - unfold ProfileStorage.registerUser, ProfileStorage.credentialsPath. exec.
    fold (credentialsFile w).
    rewrite (run_bind_returned _ _ _ _ _ (readEncrypted_absent _ _ _ Hnone)).
    unfold Array_some, asArray. exec. cbn [someM negb]. exec.
    rewrite bind_randomBytes. unfold ProfileStorage.pbkdf2Sync. exec.
    unfold Array_push, asArray. exec.
    fold w0. change (credentialsFile w0) with (credentialsFile w).
    fold (passwordHash password (hex_encode (nextBytes w 16))).
    change ([] ++ [?c]) with [cred].
    rewrite (run_bind_returned _ _ _ _ _ Hwrite).
    rewrite bind_randomBytes. exec.
    unfold ProfileStorage.saveAuthState, ProfileStorage.authStatePath. exec.
    fold (authFile (set_drawn (drawn w1 + 32) w1)).
    change (authFile (set_drawn (drawn w1 + 32) w1)) with (authFile w1).
    change (activeProfileId (set_drawn (drawn w1 + 32) w1)) with (activeProfileId w1).
    rewrite Hauth, Hact1.
    rewrite (run_bind_returned _ _ _ _ _
               (writeEncrypted_has_key _ _ (set_drawn (drawn w1 + 32) w1) key Hk1)).
    exec. reflexivity.
  - apply has_key_sealed_write; [exact Hk1|].
    change (ProfileStorage.keyPath (set_drawn (drawn w1 + 32) w1))
      with (ProfileStorage.keyPath wk).
    rewrite Hkp. apply keyPath_not_authFile.
  - apply nextBytes_length.
  - change (credentialsFile w2) with (credentialsFile wk).
    assert (credentialsFile wk = credentialsFile w) as ->.
    { unfold credentialsFile, ProfileStorage.baseDataDir. by rewrite Hud. }
    unfold w2, sealed_write at 1. cbn [disk set_disk set_drawn].
    rewrite lookup_insert_ne by apply (authFile_not_credentialsFile w).
    unfold w1, sealed_write. cbn [disk set_disk]. by rewrite lookup_insert_eq.
  - exact Hact.
Qed.

Lemma loginUser_run email password w key iv h salt t :
  has_key w key -> length iv = 16 ->
  disk w !! credentialsFile w
    = Some (envelope key iv (JSON_stringify (JArr [credential email h salt t]))) ->
  ProfileStorage.loginUser email password w =
    if String.eqb h (passwordHash password salt)
    then (sealed_write (authFile w)
            (ProfileStorage.loggedIn email (hex_encode (nextBytes w 32)) (activeProfileId w))
            key (set_drawn (drawn w + 32) w),
          Returned ProfileStorage.success)
    else (w, Returned (ProfileStorage.failure "Invalid email or password")).
Proof.
  intros Hk Hiv Hcreds.
  unfold ProfileStorage.loginUser, ProfileStorage.credentialsPath. exec.
  fold (credentialsFile w).
  rewrite (run_bind_returned _ _ _ _ _ (readEncrypted_sealed _ _ _ _ _ _ Hk Hiv Hcreds)).
  assert (credential email h salt t <> JNull) as Hnn by done.
  assert (Forall (fun x => x <> JNull) [credential email h salt t]) as Hall
    by (by constructor).
  unfold Array_find, asArray. exec.
  rewrite (run_bind_returned _ _ _ _ _ (findM_run _ _ _ _ (emailIs_pure email _ Hall))).
  cbn [List.find]. rewrite hasEmail_credential, String.eqb_refl.
  rewrite (run_bind_returned _ _ _ _ _ (getProp_run _ "salt" _ Hnn)).
  change (prop "salt" (credential email h salt t)) with (Some (JStr salt)).
  unfold ProfileStorage.pbkdf2Sync. exec.
  rewrite (run_bind_returned _ _ _ _ _ (getProp_run _ "passwordHash" _ Hnn)).
  change (prop "passwordHash" (credential email h salt t)) with (Some (JStr h)).
  fold (passwordHash password salt). cbn [strictEqStr].
  destruct (String.eqb h (passwordHash password salt)); cbn [negb]; exec; [|reflexivity].
  rewrite bind_randomBytes. exec.
  unfold ProfileStorage.saveAuthState, ProfileStorage.authStatePath. exec.
  fold (authFile (set_drawn (drawn w + 32) w)).
  rewrite (run_bind_returned _ _ _ _ _
             (writeEncrypted_has_key _ _ (set_drawn (drawn w + 32) w) key Hk)).
  exec. reflexivity.
Qed.

Lemma getAuthState_run w key iv v :
  has_key w key -> length iv = 16 ->
  disk w !! authFile w = Some (envelope key iv (JSON_stringify v)) ->
  ProfileStorage.getAuthState w = (w, Returned v).
Proof.
  intros Hk Hiv Hauth. unfold ProfileStorage.getAuthState, ProfileStorage.authStatePath. exec.
  fold (authFile w). by apply (readEncrypted_sealed _ _ _ key iv).
Qed.

(** C2. From a state with no credentials document (and no key yet, or a
    usable one), [registerUser("a@b.com", "secret1")] succeeds; then
    [loginUser("a@b.com", "secret1")] succeeds and leaves an AuthState with
    [isLoggedIn = true] and [email = "a@b.com"]; and
    [loginUser("a@b.com", "wrong")] returns the failure "Invalid email or
    password" and leaves the whole state, the stored AuthState included, as
    it was.  The two passwords are assumed not to collide under PBKDF2 with
    the salt drawn at registration. *)
Theorem register_then_login (w : World) :
  key_usable w ->
  disk w !! credentialsFile w = None ->
  passwordHash "wrong" (hex_encode (nextBytes w 16))
    <> passwordHash "secret1" (hex_encode (nextBytes w 16)) ->
  let w1 := after (ProfileStorage.registerUser "a@b.com" "secret1") w in
  let w2 := after (ProfileStorage.loginUser "a@b.com" "secret1") w1 in
  result (ProfileStorage.registerUser "a@b.com" "secret1") w = Returned ProfileStorage.success /\
  result (ProfileStorage.loginUser "a@b.com" "secret1") w1 = Returned ProfileStorage.success /\
  (exists token,
     result ProfileStorage.getAuthState w2
     = Returned (ProfileStorage.loggedIn "a@b.com" token (activeProfileId w))) /\
  result (ProfileStorage.loginUser "a@b.com" "wrong") w2
    = Returned (ProfileStorage.failure "Invalid email or password") /\
  after (ProfileStorage.loginUser "a@b.com" "wrong") w2 = w2 /\
  result ProfileStorage.getAuthState (after (ProfileStorage.loginUser "a@b.com" "wrong") w2)
    = result ProfileStorage.getAuthState w2.
Proof.
  intros Hu Hnone Hkdf w1' w2'.
  destruct (registerUser_run "a@b.com" "secret1" w Hu Hnone)
    as (w1 & key & iv & Hreg & Hk1 & Hiv & Hcreds1 & Hact1).
  assert (w1' = w1) as Hw1 by (unfold w1', after; by rewrite Hreg).
  pose proof (loginUser_run "a@b.com" "secret1" w1 key iv _ _ _ Hk1 Hiv Hcreds1) as Hlogin.
  rewrite String.eqb_refl in Hlogin.
  set (token := hex_encode (nextBytes w1 32)) in *.
  set (w2 := sealed_write _ _ key _) in *.
  assert (w2' = w2) as Hw2 by (unfold w2', after; by rewrite Hw1, Hlogin).
  clearbody w1' w2'. subst w1' w2'.
  assert (has_key w2 key) as Hk2.
  { apply has_key_sealed_write; [exact Hk1|]. apply (keyPath_not_authFile w1). }
  assert (disk w2 !! credentialsFile w2
          = Some (envelope key iv
                    (JSON_stringify
                       (JArr [credential "a@b.com"
                                (passwordHash "secret1" (hex_encode (nextBytes w 16)))
                                (hex_encode (nextBytes w 16)) (clock w (ticks w))]))))
    as Hcreds2.
  { change (credentialsFile w2) with (credentialsFile w1).
    unfold w2, sealed_write. cbn [disk set_disk set_drawn].
    rewrite lookup_insert_ne by apply (authFile_not_credentialsFile w1). exact Hcreds1. }
  assert (disk w2 !! authFile w2
          = Some (envelope key (nextBytes (set_drawn (drawn w1 + 32) w1) 16)
                    (JSON_stringify
                       (ProfileStorage.loggedIn "a@b.com" token (activeProfileId w1)))))
    as Hauth2.
  { change (authFile w2) with (authFile w1).
    unfold w2, sealed_write. cbn [disk set_disk set_drawn]. by rewrite lookup_insert_eq. }
  pose proof (getAuthState_run w2 key _ _ Hk2 (nextBytes_length _ _) Hauth2) as Hstate.
  pose proof (loginUser_run "a@b.com" "wrong" w2 key iv _ _ _ Hk2 Hiv Hcreds2) as Hwrong.
  rewrite (proj2 (String.eqb_neq _ _)) in Hwrong by (intros H; by apply Hkdf).
  clearbody w2.
  unfold after, result. rewrite Hreg, Hlogin, Hwrong. cbn [fst snd]. rewrite Hstate.
  cbn [snd]. rewrite Hact1. split_and!; try reflexivity. by exists token.
Qed.

End Auth.

Section AuthOnReference.
Local Existing Instance Reference.platform.

(** The theorem at a new installation. *)
Lemma register_then_login_witness :
  result (ProfileStorage.registerUser "a@b.com" "secret1") Reference.fresh
    = Returned ProfileStorage.success /\
  result (ProfileStorage.loginUser "a@b.com" "secret1")
         (after (ProfileStorage.registerUser "a@b.com" "secret1") Reference.fresh)
    = Returned ProfileStorage.success.
Proof.
  destruct (register_then_login Reference.fresh) as (H1 & H2 & _).
  - left. intros q _. reflexivity.
  - reflexivity.
  - apply String.eqb_neq. vm_compute. reflexivity.
  - split; [exact H1|exact H2].
Defined.

End AuthOnReference.

(** ** No public operation throws on well-formed documents *)

Section Returns.
Context {P : Platform} {L : PlatformLaws P}.









(** *** Bookmarks *)






(** *** History *)






(** *** Settings and session *)





(** *** Downloads *)




(** *** Profiles *)





(** *** The credential store *)




Lemma readEncrypted_returns p fallback w : returns (ProfileStorage.readEncrypted p fallback) w.
Proof.
  unfold returns, ProfileStorage.readEncrypted, try_catch.
  destruct (bind _ _ w) as [w' [v|e]]; by eexists _, _.
Qed.











End Returns.

Section ReturnsOnReference.
Local Existing Instance Reference.platform.




End ReturnsOnReference.

(** ** Bookmarks: adding, removing and asking *)

Section BookmarkOperations.
Context {P : Platform} {L : PlatformLaws P}.

Lemma removeBookmark_run url w xs :
  stored w (profileFile w "bookmarks") (JArr []) = JArr xs ->
  Forall (fun x => x <> JNull) xs ->
  ProfileStorage.removeBookmark url w =
    (put (profileFile w "bookmarks") (JArr (List.filter (fun x => negb (hasUrl url x)) xs)) w,
     Returned (JArr (List.filter (fun x => negb (hasUrl url x)) xs))).
Proof.
  intros Hdoc Hxs. unfold ProfileStorage.removeBookmark, ProfileStorage.getBookmarks.
  exec. rewrite Hdoc. unfold Array_filter, asArray. exec.
  rewrite (run_bind_returned _ _ _ _ _
             (filterM_run _ (fun x => negb (hasUrl url x)) xs w
                (reads_prop "url" (fun u => negb (strictEqStr u url)) xs Hxs))).
  by exec.
Qed.

Lemma isBookmarked_run url w xs :
  stored w (profileFile w "bookmarks") (JArr []) = JArr xs ->
  Forall (fun x => x <> JNull) xs ->
  ProfileStorage.isBookmarked url w = (w, Returned (existsb (hasUrl url) xs)).
Proof.
  intros Hdoc Hxs. unfold ProfileStorage.isBookmarked, ProfileStorage.getBookmarks.
  exec. rewrite Hdoc. unfold Array_some, asArray. exec.
  by rewrite (someM_run _ _ _ _ (urlIs_pure url xs Hxs)).
Qed.

Lemma existsb_hasUrl url (l : list Bookmark) :
  existsb (hasUrl url) (json_of_Bookmark <$> l) = existsb (fun b => String.eqb (bm_url b) url) l.
Proof.
  induction l as [|b l IH]; [done|]. csimpl. by rewrite hasUrl_Bookmark, IH.
Qed.

Lemma filter_hasUrl url (l : list Bookmark) :
  List.filter (fun x => negb (hasUrl url x)) (json_of_Bookmark <$> l)
  = json_of_Bookmark <$> List.filter (fun b => negb (String.eqb (bm_url b) url)) l.
Proof.
  induction l as [|b l IH]; [done|]. csimpl. rewrite hasUrl_Bookmark, IH.
  by destruct (String.eqb _ _).
Qed.

Lemma existsb_filter_other {A} (f g : A -> bool) (l : list A) :
  (forall x, f x = true -> g x = true) ->
  existsb f (List.filter g l) = existsb f l.
Proof.
  intros Hfg. induction l as [|x l IH]; [done|]. simpl.
  destruct (g x) eqn:Hg; simpl; rewrite IH; [done|].
  destruct (f x) eqn:Hf; [|done]. by rewrite (Hfg x Hf) in Hg.
Qed.

Lemma existsb_filter_self {A} (f : A -> bool) (l : list A) :
  existsb f (List.filter (fun x => negb (f x)) l) = false.
Proof.
  induction l as [|x l IH]; [done|]. simpl.
  destruct (f x) eqn:Hf; simpl; [done|]. by rewrite Hf.
Qed.

(** X1. After [removeBookmark(url)] the url is not bookmarked, whatever number
    of entries had it; the entries of other urls stay, in their order, and
    every other url is bookmarked exactly if it was before. *)
Theorem removeBookmark_forgets_url (url url' : string) (w : World) (l : list Bookmark) :
  stored w (profileFile w "bookmarks") (JArr []) = JArr (json_of_Bookmark <$> l) ->
  let w' := after (ProfileStorage.removeBookmark url) w in
  result (ProfileStorage.removeBookmark url) w
    = Returned (JArr (json_of_Bookmark <$>
                        List.filter (fun b => negb (String.eqb (bm_url b) url)) l)) /\
  result ProfileStorage.getBookmarks w' = result (ProfileStorage.removeBookmark url) w /\
  result (ProfileStorage.isBookmarked url) w' = Returned false /\
  (url' <> url ->
   result (ProfileStorage.isBookmarked url') w' = result (ProfileStorage.isBookmarked url') w).
Proof.
  intros Hdoc w'.
  pose proof (removeBookmark_run url w _ Hdoc (Bookmark_not_null l)) as Hrun.
  rewrite filter_hasUrl in Hrun.
  set (l' := List.filter (fun b => negb (String.eqb (bm_url b) url)) l) in *.
  assert (w' = put (profileFile w "bookmarks") (JArr (json_of_Bookmark <$> l')) w) as Hw'
    by (unfold w', after; by rewrite Hrun).
  assert (stored w' (profileFile w' "bookmarks") (JArr []) = JArr (json_of_Bookmark <$> l'))
    as Hdoc' by (rewrite Hw'; apply stored_put).
  clearbody w'. clear Hw'.
  unfold result. rewrite Hrun. cbn [snd]. split; [done|]. split.
  { unfold ProfileStorage.getBookmarks. exec. cbn [snd]. by rewrite Hdoc'. }
  rewrite !(isBookmarked_run _ _ _ Hdoc' (Bookmark_not_null l')).
  rewrite (isBookmarked_run _ _ _ Hdoc (Bookmark_not_null l)).
  cbn [snd]. rewrite !existsb_hasUrl. subst l'. split.
  - f_equal. apply (existsb_filter_self (fun b => String.eqb (bm_url b) url)).
  - intros Hne. f_equal. apply existsb_filter_other.
    intros b Hb. apply String.eqb_eq in Hb. apply negb_true_iff, String.eqb_neq. congruence.
Qed.

(** X2. After [addBookmark(url, title)] the url is bookmarked; every other url
    is bookmarked exactly if it was before; and asking changes nothing. *)
Theorem addBookmark_then_isBookmarked (url title url' : string) (w : World) (l : list Bookmark) :
  stored w (profileFile w "bookmarks") (JArr []) = JArr (json_of_Bookmark <$> l) ->
  let w' := after (ProfileStorage.addBookmark url title) w in
  result (ProfileStorage.isBookmarked url) w' = Returned true /\
  after (ProfileStorage.isBookmarked url) w' = w' /\
  (url' <> url ->
   result (ProfileStorage.isBookmarked url') w' = result (ProfileStorage.isBookmarked url') w).
Proof.
  intros Hdoc w'.
  pose proof (addBookmark_run url title w _ Hdoc (Bookmark_not_null l)) as Hrun.
  rewrite existsb_hasUrl in Hrun. unfold result.
  rewrite (isBookmarked_run url' _ _ Hdoc (Bookmark_not_null l)), existsb_hasUrl.
  destruct (existsb (fun b => String.eqb (bm_url b) url) l) eqn:Hin.
  - assert (w' = w) as -> by (unfold w', after; by rewrite Hrun).
    unfold result, after.
    rewrite !(isBookmarked_run _ _ _ Hdoc (Bookmark_not_null l)), !existsb_hasUrl, Hin.
    done.
  - set (b := mkBookmark url title (clock w (ticks w))).
    change (bookmarkEntry url title (clock w (ticks w))) with (json_of_Bookmark b) in Hrun.
    assert (json_of_Bookmark <$> l ++ [b]
            = (json_of_Bookmark <$> l) ++ [json_of_Bookmark b]) as Hsnoc
      by (by rewrite fmap_app).
    cbv zeta in Hrun. rewrite <- Hsnoc in Hrun.
    assert (w' = put (profileFile w "bookmarks") (JArr (json_of_Bookmark <$> l ++ [b])) (tick w))
      as Hw' by (unfold w', after; by rewrite Hrun).
    assert (stored w' (profileFile w' "bookmarks") (JArr [])
            = JArr (json_of_Bookmark <$> l ++ [b])) as Hdoc'
      by (rewrite Hw'; apply stored_put).
    clearbody w'. clear Hw'.
    unfold result, after.
    rewrite !(isBookmarked_run _ _ _ Hdoc' (Bookmark_not_null (l ++ [b]))), !existsb_hasUrl.
    cbn [fst snd]. rewrite !existsb_app. cbn [existsb bm_url b].
    rewrite String.eqb_refl, !orb_false_r, orb_true_r. split; [done|]. split; [done|].
    intros Hne. rewrite (proj2 (String.eqb_neq url url')) by congruence.
    by rewrite orb_false_r.
Qed.

(** X3. Adding a url that is not bookmarked and removing it again restores the
    stored list. *)
Theorem removeBookmark_undoes_addBookmark (url title : string) (w : World) (l : list Bookmark) :
  stored w (profileFile w "bookmarks") (JArr []) = JArr (json_of_Bookmark <$> l) ->
  url ∉ (bm_url <$> l) ->
  let w1 := after (ProfileStorage.addBookmark url title) w in
  let w2 := after (ProfileStorage.removeBookmark url) w1 in
  result ProfileStorage.getBookmarks w2 = Returned (JArr (json_of_Bookmark <$> l)).
Proof.
  intros Hdoc Hnew w1 w2.
  assert (existsb (fun b => String.eqb (bm_url b) url) l = false) as Hin.
  { clear -Hnew. induction l as [|b l IH]; [done|]. csimpl in *.
    apply not_elem_of_cons in Hnew as [Hne Hnew].
    rewrite (proj2 (String.eqb_neq _ _)) by congruence. by apply IH. }
  assert (List.filter (fun b => negb (String.eqb (bm_url b) url)) l = l) as Hkeep.
  { clear -Hnew. induction l as [|b l IH]; [done|]. csimpl in *.
    apply not_elem_of_cons in Hnew as [Hne Hnew].
    rewrite (proj2 (String.eqb_neq _ _)) by congruence. simpl. by rewrite IH. }
  pose proof (addBookmark_run url title w _ Hdoc (Bookmark_not_null l)) as Hrun.
  rewrite existsb_hasUrl, Hin in Hrun. cbv zeta in Hrun.
  set (b := mkBookmark url title (clock w (ticks w))).
  change (bookmarkEntry url title (clock w (ticks w))) with (json_of_Bookmark b) in Hrun.
  assert (json_of_Bookmark <$> l ++ [b]
          = (json_of_Bookmark <$> l) ++ [json_of_Bookmark b]) as Hsnoc
    by (by rewrite fmap_app).
  rewrite <- Hsnoc in Hrun.
  assert (w1 = put (profileFile w "bookmarks") (JArr (json_of_Bookmark <$> l ++ [b])) (tick w))
    as Hw1 by (unfold w1, after; by rewrite Hrun).
  assert (stored w1 (profileFile w1 "bookmarks") (JArr [])
          = JArr (json_of_Bookmark <$> l ++ [b])) as Hdoc'
    by (rewrite Hw1; apply stored_put).
  clearbody w1. clear Hw1.
  pose proof (removeBookmark_run url _ _ Hdoc' (Bookmark_not_null (l ++ [b]))) as Hrem.
  rewrite filter_hasUrl, List.filter_app, Hkeep in Hrem. cbn [List.filter bm_url b] in Hrem.
  rewrite String.eqb_refl in Hrem. cbn [negb] in Hrem. rewrite app_nil_r in Hrem.
  assert (w2 = put (profileFile w1 "bookmarks") (JArr (json_of_Bookmark <$> l)) w1)
    as Hw2 by (unfold w2, after; by rewrite Hrem).
  clearbody w2. subst w2.
  unfold result, ProfileStorage.getBookmarks. exec. cbn [snd]. f_equal. apply stored_put.
Qed.

End BookmarkOperations.

Section BookmarkOperationsOnReference.
Local Existing Instance Reference.platform.

Lemma stored_twoBookmarks :
  stored twoBookmarks (profileFile twoBookmarks "bookmarks") (JArr [])
  = JArr (json_of_Bookmark <$> [mkBookmark "a" "A" 1; mkBookmark "b" "B" 2]).
Proof. apply (stored_put (P := Reference.platform)). Qed.

(** The theorem at a list of two bookmarks, of which it removes one. *)
Lemma removeBookmark_forgets_url_witness :
  result (ProfileStorage.isBookmarked "a")
         (after (ProfileStorage.removeBookmark "a") twoBookmarks) = Returned false.
Proof.
  destruct (removeBookmark_forgets_url "a" "b" twoBookmarks
              [mkBookmark "a" "A" 1; mkBookmark "b" "B" 2] stored_twoBookmarks)
    as (_ & _ & H & _).
  exact H.
Defined.

(** The theorem at a list of two bookmarks and a third url. *)
Lemma addBookmark_then_isBookmarked_witness :
  result (ProfileStorage.isBookmarked "c")
         (after (ProfileStorage.addBookmark "c" "C") twoBookmarks) = Returned true.
Proof.
  destruct (addBookmark_then_isBookmarked "c" "C" "a" twoBookmarks
              [mkBookmark "a" "A" 1; mkBookmark "b" "B" 2] stored_twoBookmarks)
    as (H & _).
  exact H.
Defined.

(** The theorem at a list of two bookmarks and a third url. *)
Lemma removeBookmark_undoes_addBookmark_witness :
  result ProfileStorage.getBookmarks
    (after (ProfileStorage.removeBookmark "c")
           (after (ProfileStorage.addBookmark "c" "C") twoBookmarks))
  = Returned (JArr (json_of_Bookmark <$> [mkBookmark "a" "A" 1; mkBookmark "b" "B" 2])).
Proof.
  apply (removeBookmark_undoes_addBookmark "c" "C" twoBookmarks
           [mkBookmark "a" "A" 1; mkBookmark "b" "B" 2] stored_twoBookmarks).
  vm_compute. intros H. repeat (inversion H as [|? ? ? H']; clear H; rename H' into H).
Defined.

End BookmarkOperationsOnReference.

(** ** History: clearing and searching *)

Section HistoryOperations.
Context {P : Platform} {L : PlatformLaws P}.


Lemma filterM_nil f w : filterM f [] w = (w, Returned []).
Proof. reflexivity. Qed.


Lemma HistoryEntry_not_null (l : list HistoryEntry) :
  Forall (fun x => x <> JNull) (json_of_HistoryEntry <$> l).
Proof. apply Forall_fmap, Forall_forall. intros h _. done. Qed.






End HistoryOperations.

Section HistoryOperationsOnReference.
Local Existing Instance Reference.platform.



End HistoryOperationsOnReference.

(** ** Settings: updating *)

Section SettingsOperations.
Context {P : Platform} {L : PlatformLaws P}.

Lemma getSettings_settingsOf w :
  ProfileStorage.getSettings w = (w, Returned (JObj (settingsOf w))).
Proof. apply getSettings_run. Qed.

Lemma updateSettings_run partial w :
  let s := spread (settingsOf w) (ProfileStorage.props_of_PartialSettings partial) in
  ProfileStorage.updateSettings partial w
  = (put (profileFile w "settings") (JObj s) w, Returned (JObj s)).
Proof.
  unfold ProfileStorage.updateSettings.
  rewrite (run_bind_returned _ _ _ _ _ (getSettings_settingsOf w)). by exec.
Qed.

Lemma defaultSettings_fields k :
  k <> "searchEngine" -> k <> "adBlockEnabled" -> k <> "restoreSession" ->
  ProfileStorage.defaultSettings !! k = None.
Proof.
  intros. unfold ProfileStorage.defaultSettings. rewrite !lookup_insert_ne by done.
  by apply lookup_singleton_ne.
Qed.

Lemma settingsOf_put s w :
  s ∪ ProfileStorage.defaultSettings = s ->
  settingsOf (put (profileFile w "settings") (JObj s) w) = s.
Proof.
  intros Hs. unfold settingsOf.
  change (profileFile (put (profileFile w "settings") (JObj s) w) "settings")
    with (profileFile w "settings").
  by rewrite stored_put.
Qed.

Lemma settingsOf_defaults w :
  settingsOf w ∪ ProfileStorage.defaultSettings = settingsOf w.
Proof.
  apply map_eq. intros k. unfold settingsOf, spread. rewrite !lookup_union.
  destruct (ownProps _ !! k), (ProfileStorage.defaultSettings !! k); reflexivity.
Qed.

Lemma spread_defaults s props :
  s ∪ ProfileStorage.defaultSettings = s ->
  spread s props ∪ ProfileStorage.defaultSettings = spread s props.
Proof. intros Hs. unfold spread. by rewrite <- (assoc_L (∪)), Hs. Qed.

Lemma props_of_PartialSettings_lookup partial :
  let props := ProfileStorage.props_of_PartialSettings partial in
  props !! "searchEngine"
    = (fun e => JStr (ProfileStorage.string_of_SearchEngine e))
        <$> ProfileStorage.searchEngine partial /\
  props !! "adBlockEnabled" = JBool <$> ProfileStorage.adBlockEnabled partial /\
  props !! "restoreSession" = JBool <$> ProfileStorage.restoreSession partial /\
  (forall k, k <> "searchEngine" -> k <> "adBlockEnabled" -> k <> "restoreSession" ->
             props !! k = None).
Proof.
  destruct partial as [[e|] [a|] [r|]]; cbv zeta; split_and!; try reflexivity;
    intros k H1 H2 H3; unfold ProfileStorage.props_of_PartialSettings; csimpl;
    rewrite ?lookup_insert_ne by done; apply lookup_empty.
Qed.


End SettingsOperations.

(** ** The session and its handler *)

Section SessionOperations.
Context {P : Platform} {L : PlatformLaws P}.

Lemma saveSession_run tabs w :
  ProfileStorage.saveSession tabs w
  = (put (profileFile w "session") (JArr (json_of_SessionTab <$> tabs)) w, Returned tt).
Proof. unfold ProfileStorage.saveSession. by exec. Qed.

Lemma getSession_run w :
  ProfileStorage.getSession w = (w, Returned (stored w (profileFile w "session") (JArr []))).
Proof. unfold ProfileStorage.getSession. by exec. Qed.

Lemma session_get_run w :
  Main.session_get w =
    (w, Returned (if Main.truthy (settingsOf w !! "restoreSession")
                  then stored w (profileFile w "session") (JArr [])
                  else JArr [])).
Proof.
  unfold Main.session_get.
  rewrite (run_bind_returned _ _ _ _ _ (getSettings_settingsOf w)).
  cbn [getProp]. exec. destruct (Main.truthy _); cbn [negb]; [apply getSession_run|by exec].
Qed.

Lemma settings_not_session w : profileFile w "settings" <> profileFile w "session".
Proof.
  unfold profileFile.
  rewrite !(profileDocuments_files _ _) by (unfold profileDocuments; set_solver).
  intros [_ H]%app_inj_tail. done.
Qed.

(** X7. [saveSession(tabs)] replaces the session, whatever the session document
    held: [getSession] returns the tabs from then on. *)
Theorem getSession_after_saveSession (tabs : list SessionTab) (w : World) :
  result ProfileStorage.getSession (after (ProfileStorage.saveSession tabs) w)
  = Returned (JArr (json_of_SessionTab <$> tabs)).
Proof.
  unfold result, after. rewrite saveSession_run, getSession_run. cbn [fst snd].
  f_equal. apply stored_put.
Qed.

(** X8. The session handler hands out the saved tabs only while the setting
    [restoreSession] is on: once it is turned off the handler returns no
    tab, although the session document still holds them, and turning it on
    again brings them back. *)
Theorem session_get_obeys_restoreSession (tabs : list SessionTab) (w : World) :
  let w1 := after (Main.session_save tabs) w in
  let w2 := after (ProfileStorage.updateSettings (onlyRestoreSession false)) w1 in
  let w3 := after (ProfileStorage.updateSettings (onlyRestoreSession true)) w2 in
  result Main.session_get w2 = Returned (JArr []) /\
  result ProfileStorage.getSession w2 = Returned (JArr (json_of_SessionTab <$> tabs)) /\
  result Main.session_get w3 = Returned (JArr (json_of_SessionTab <$> tabs)).
Proof.
  intros w1 w2 w3.
  assert (w1 = put (profileFile w "session") (JArr (json_of_SessionTab <$> tabs)) w) as Hw1
    by (unfold w1, after, Main.session_save; by rewrite saveSession_run).
  assert (stored w1 (profileFile w1 "session") (JArr []) = JArr (json_of_SessionTab <$> tabs))
    as Hdoc1 by (rewrite Hw1; apply stored_put).
  clearbody w1. clear Hw1.
  pose proof (updateSettings_run (onlyRestoreSession false) w1) as Hrun2. cbv zeta in Hrun2.
  set (s2 := spread (settingsOf w1) _) in Hrun2.
  assert (w2 = put (profileFile w1 "settings") (JObj s2) w1) as Hw2
    by (unfold w2, after; by rewrite Hrun2).
  assert (s2 ∪ ProfileStorage.defaultSettings = s2) as Hs2
    by apply spread_defaults, settingsOf_defaults.
  assert (s2 !! "restoreSession" = Some (JBool false)) as Hoff.
  { unfold s2, spread. rewrite lookup_union.
    change (ProfileStorage.props_of_PartialSettings (onlyRestoreSession false)
              !! "restoreSession") with (Some (JBool false)).
    destruct (settingsOf w1 !! "restoreSession"); reflexivity. }
  assert (settingsOf w2 = s2) as Hset2 by (rewrite Hw2; by apply settingsOf_put).
  assert (stored w2 (profileFile w2 "session") (JArr []) = JArr (json_of_SessionTab <$> tabs))
    as Hdoc2.
  { rewrite Hw2.
    change (profileFile (put (profileFile w1 "settings") (JObj s2) w1) "session")
      with (profileFile w1 "session").
    rewrite stored_put_ne; [done|]. apply settings_not_session. }
  clearbody w2. clear Hw2 Hrun2.
  pose proof (updateSettings_run (onlyRestoreSession true) w2) as Hrun3. cbv zeta in Hrun3.
  set (s3 := spread (settingsOf w2) _) in Hrun3.
  assert (w3 = put (profileFile w2 "settings") (JObj s3) w2) as Hw3
    by (unfold w3, after; by rewrite Hrun3).
  assert (s3 ∪ ProfileStorage.defaultSettings = s3) as Hs3
    by apply spread_defaults, settingsOf_defaults.
  assert (s3 !! "restoreSession" = Some (JBool true)) as Hon.
  { unfold s3, spread. rewrite lookup_union.
    change (ProfileStorage.props_of_PartialSettings (onlyRestoreSession true)
              !! "restoreSession") with (Some (JBool true)).
    destruct (settingsOf w2 !! "restoreSession"); reflexivity. }
  assert (settingsOf w3 = s3) as Hset3 by (rewrite Hw3; by apply settingsOf_put).
  assert (stored w3 (profileFile w3 "session") (JArr []) = JArr (json_of_SessionTab <$> tabs))
    as Hdoc3.
  { rewrite Hw3.
    change (profileFile (put (profileFile w2 "settings") (JObj s3) w2) "session")
      with (profileFile w2 "session").
    rewrite stored_put_ne; [done|]. apply settings_not_session. }
  clearbody w3. clear Hw3 Hrun3.
  unfold result. rewrite !session_get_run, getSession_run. cbn [snd].
  rewrite Hset2, Hset3, Hoff, Hon, Hdoc2, Hdoc3. done.
Qed.

End SessionOperations.

(** ** Downloads: clearing *)

Section DownloadOperations.
Context {P : Platform} {L : PlatformLaws P}.



End DownloadOperations.

Section StoreOperationsOnReference.
Local Existing Instance Reference.platform.


(** The theorem at a session document that holds [null]. *)
Lemma getSession_after_saveSession_witness :
  result ProfileStorage.getSession nullSession = Returned JNull /\
  result ProfileStorage.getSession
         (after (ProfileStorage.saveSession [mkSessionTab "u" "t"]) nullSession)
  = Returned (JArr [json_of_SessionTab (mkSessionTab "u" "t")]).
Proof.
  split; [vm_compute; reflexivity|].
  apply (getSession_after_saveSession [mkSessionTab "u" "t"] nullSession).
Defined.

(** The theorem at a new installation. *)
Lemma session_get_obeys_restoreSession_witness :
  let w1 := after (Main.session_save [mkSessionTab "u" "t"]) Reference.fresh in
  let w2 := after (ProfileStorage.updateSettings (onlyRestoreSession false)) w1 in
  result Main.session_get w2 = Returned (JArr []).
Proof.
  intros w1 w2.
  destruct (session_get_obeys_restoreSession [mkSessionTab "u" "t"] Reference.fresh)
    as (H & _).
  exact H.
Defined.


End StoreOperationsOnReference.

(** ** Profiles: creating, deleting, switching *)

Section ProfileOperations.
Context {P : Platform} {L : PlatformLaws P}.

Lemma getProfiles_settles w xs :
  result ProfileStorage.getProfiles w = Returned (JArr xs) ->
  xs <> [] /\
  stored (after ProfileStorage.getProfiles w) (globalFile w "profiles") (JArr []) = JArr xs.
Proof.
  unfold result, after, ProfileStorage.getProfiles. exec.
  destruct (stored w _ _) as [| |n|s|ys|fs] eqn:Hdoc; unfold lengthIsZero; exec;
    cbn [fst snd]; try done.
  - destruct (String.eqb s ""); exec; cbn [fst snd]; [|done].
    intros [= <-]. split; [done|]. apply stored_put.
  - case_bool_decide as Hys; exec; cbn [fst snd].
    + intros [= <-]. split; [done|]. apply stored_put.
    + intros [= <-]. done.
  - destruct (fs !! "length") as [[| |[]| | |]|]; exec; cbn [fst snd]; try done.
    intros [= <-]. split; [done|]. apply stored_put.
Qed.

Lemma getProfiles_again w xs :
  xs <> [] -> stored w (globalFile w "profiles") (JArr []) = JArr xs ->
  ProfileStorage.getProfiles w = (w, Returned (JArr xs)).
Proof. intros Hne Hdoc. rewrite (getProfiles_run w xs Hdoc). by destruct xs. Qed.

Lemma find_Profiles id (ps : list Profile) :
  List.find (hasId id) (json_of_Profile <$> ps)
  = json_of_Profile <$> List.find (fun p => String.eqb (pr_id p) id) ps.
Proof.
  induction ps as [|p ps IH]; [done|]. rewrite fmap_cons. cbn [List.find].
  rewrite hasId_Profile. by destruct (String.eqb _ _).
Qed.

Lemma disk_removed dir w p :
  disk (removed dir w) !! p = if below dir p then None else disk w !! p.
Proof.
  unfold removed. cbn [disk set_disk]. destruct (below dir p) eqn:Hb.
  - apply map_lookup_filter_None. right. intros x _. simpl. congruence.
  - destruct (disk w !! p) as [raw|] eqn:Hp.
    + by apply map_lookup_filter_Some_2.
    + apply map_lookup_filter_None. by left.
Qed.

Lemma path_join_plain base id :
  plain_name id = true -> path_join base ["profiles"; id] = base ++ ["profiles"; id].
Proof.
  unfold plain_name. intros [[[H1 H2]%andb_true_iff H3]%andb_true_iff H4]%andb_true_iff.
  unfold path_join. cbn [flat_map]. rewrite (split_on_no_sep "/" id H4).
  change (split_on "/" "profiles") with ["profiles"]. cbn [app fold_left].
  unfold step_segment at 1.
  apply negb_true_iff in H1, H2, H3. rewrite H1, H2, H3.
  change (step_segment base "profiles") with (base ++ ["profiles"]).
  by rewrite <- app_assoc.
Qed.

(** X10. [createProfile(name, avatar)] returns a profile with that name and
    avatar that is not a default profile and whose id is not "default";
    the profile list is the former list with the new profile at its end,
    and the active profile stays. *)
Theorem createProfile_appends (name avatar : string) (w : World) (ps : list Profile) :
  result ProfileStorage.getProfiles w = Returned (JArr (json_of_Profile <$> ps)) ->
  let w' := after (ProfileStorage.createProfile name avatar) w in
  exists p,
    result (ProfileStorage.createProfile name avatar) w = Returned (json_of_Profile p) /\
    pr_name p = name /\ pr_avatar p = avatar /\ pr_isDefault p = false /\
    pr_id p <> "default" /\
    result ProfileStorage.getProfiles w' = Returned (JArr (json_of_Profile <$> ps ++ [p])) /\
    activeProfileId w' = activeProfileId w.
Proof.
  intros Hres w'.
  pose proof (result_after ProfileStorage.getProfiles w) as Hrun. rewrite Hres in Hrun.
  destruct (getProfiles_frame w) as (Hact & _ & _).
  set (w0 := after ProfileStorage.getProfiles w) in *.
  pose proof (createProfile_run name avatar w w0 _ Hrun) as Hcreate. cbv zeta in Hcreate.
  set (p := mkProfile ("profile-" +:+ pretty (clock w0 (ticks w0)) +:+ "-"
                       +:+ mathRandom w0 (rolls w0))
                      name avatar (clock w0 (S (ticks w0))) false).
  exists p.
  assert (json_of_Profile <$> ps ++ [p] = (json_of_Profile <$> ps) ++ [json_of_Profile p])
    as Hsnoc by (by rewrite fmap_app).
  assert (w' = put (globalFile w0 "profiles") (JArr (json_of_Profile <$> ps ++ [p]))
                   (tick (roll (tick w0)))) as Hw'
    by (unfold w', after; rewrite Hcreate, Hsnoc; reflexivity).
  assert (stored w' (globalFile w' "profiles") (JArr []) = JArr (json_of_Profile <$> ps ++ [p]))
    as Hdoc' by (rewrite Hw'; apply stored_put).
  assert (activeProfileId w' = activeProfileId w0) as Hact' by (by rewrite Hw').
  clearbody w'. clear Hw'.
  unfold result at 1. rewrite Hcreate. cbn [snd].
  split; [reflexivity|]. split; [reflexivity|]. split; [reflexivity|]. split; [reflexivity|].
  split; [intros Heq; simpl in Heq; discriminate Heq|]. split; [|congruence].
  assert (json_of_Profile <$> ps ++ [p] <> []) as Hne
    by (rewrite Hsnoc; by destruct (json_of_Profile <$> ps)).
  unfold result. by rewrite (getProfiles_again w' _ Hne Hdoc').
Qed.

(** X11. [deleteProfile(id)], for an id other than "default" that is a plain
    name, returns the list without the profiles of that id; no file is
    left in the directory of the profile; the active profile becomes
    "default" if it was the deleted one and stays otherwise; and every
    other file but the profile index is as before. *)
Theorem deleteProfile_removes (id : string) (w : World) (ps : list Profile) :
  result ProfileStorage.getProfiles w = Returned (JArr (json_of_Profile <$> ps)) ->
  "default" ∈ (pr_id <$> ps) ->
  id <> "default" -> plain_name id = true ->
  let w' := after (ProfileStorage.deleteProfile id) w in
  let dir := ProfileStorage.baseDataDir w ++ ["profiles"; id] in
  result (ProfileStorage.deleteProfile id) w
    = Returned (JArr (json_of_Profile <$>
                        List.filter (fun p => negb (String.eqb (pr_id p) id)) ps)) /\
  (forall p, dir `prefix_of` p -> disk w' !! p = None) /\
  activeProfileId w'
    = (if String.eqb (activeProfileId w) id then "default" else activeProfileId w) /\
  (forall p, ~ dir `prefix_of` p -> p <> globalFile w "profiles" ->
             disk w' !! p = disk w !! p).
Proof.
  intros Hres Hdef Hid Hplain w' dir.
  pose proof (result_after ProfileStorage.getProfiles w) as Hrun. rewrite Hres in Hrun.
  destruct (getProfiles_frame w) as (Hact & Hud & Hdisk).
  set (w0 := after ProfileStorage.getProfiles w) in *.
  pose proof (deleteProfile_run id w w0 _ Hid Hrun (Profile_not_null ps)) as Hdel.
  cbv zeta in Hdel. rewrite filter_Profiles in Hdel.
  set (ps' := List.filter (fun p => negb (String.eqb (pr_id p) id)) ps) in *.
  assert (path_join (ProfileStorage.baseDataDir w0) ["profiles"; id] = dir) as Hdir.
  { rewrite (path_join_plain _ _ Hplain). unfold dir, ProfileStorage.baseDataDir.
    by rewrite Hud. }
  rewrite Hdir in Hdel.
  assert (globalFile w0 "profiles" = globalFile w "profiles") as Hindex
    by (unfold globalFile, ProfileStorage.baseDataDir; by rewrite Hud).
  rewrite Hindex in Hdel.
  set (w1 := put (globalFile w "profiles") (JArr (json_of_Profile <$> ps')) w0) in *.
  set (w2 := if bool_decide (map_Exists (fun q _ => dir `prefix_of` q) (disk w1))
             then removed dir w1 else w1) in *.
  set (w3 := if String.eqb (activeProfileId w2) id
             then set_activeProfileId "default" w2 else w2) in *.
  assert (below dir (globalFile w "profiles") = false) as Hout.
  { apply bool_decide_eq_false. intros [k Hk].
    change (globalFile w "profiles") with (ProfileStorage.baseDataDir w ++ ["profiles.json"]) in Hk.
    unfold dir in Hk. rewrite <- app_assoc in Hk. apply app_inv_head in Hk. done. }
  assert (ps' <> []) as Hne.
  { apply list_elem_of_fmap in Hdef as (d & Hd & Hin). intros Hnil.
    assert (d ∈ ps') as Hd'.
    { apply list_elem_of_In, List.filter_In. split; [by apply list_elem_of_In|].
      apply negb_true_iff, String.eqb_neq. congruence. }
    rewrite Hnil in Hd'. by apply elem_of_nil in Hd'. }
  assert (forall p, disk w2 !! p = if below dir p then None else disk w1 !! p) as Hdisk2.
  { intros p. unfold w2. case_bool_decide as Hex; [apply disk_removed|].
    destruct (below dir p) eqn:Hb; [|done].
    apply bool_decide_eq_true in Hb.
    destruct (disk w1 !! p) as [txt|] eqn:Hp; [|done].
    exfalso. apply Hex. by exists p, txt. }
  assert (stored w2 (globalFile w "profiles") (JArr []) = JArr (json_of_Profile <$> ps'))
    as Hdoc2.
  { unfold stored. rewrite Hdisk2, Hout. apply stored_put. }
  assert (userData w3 = userData w /\ disk w3 = disk w2 /\
          activeProfileId w3
          = if String.eqb (activeProfileId w) id then "default" else activeProfileId w)
    as (Hud3 & Hdisk3 & Hact3).
  { assert (userData w2 = userData w /\ activeProfileId w2 = activeProfileId w) as [H1 H2].
    { unfold w2. destruct (bool_decide _); cbn; by rewrite ?Hud, ?Hact. }
    unfold w3. rewrite H2. by destruct (String.eqb (activeProfileId w) id). }
  assert (ProfileStorage.getProfiles w3 = (w3, Returned (JArr (json_of_Profile <$> ps'))))
    as Hrun3.
  { apply getProfiles_again; [by destruct ps'|].
    unfold stored, globalFile, ProfileStorage.baseDataDir. rewrite Hud3, Hdisk3.
    exact Hdoc2. }
  assert (w' = w3) as -> by (unfold w', after; by rewrite Hdel, Hrun3).
  unfold result. rewrite Hdel, Hrun3. cbn [snd].
  split; [done|]. split; [|split; [done|]].
  - intros p Hp. rewrite Hdisk3, Hdisk2.
    by rewrite (bool_decide_eq_true_2 _ Hp : below dir p = true).
  - intros p Hp Hne'. rewrite Hdisk3, Hdisk2.
    rewrite (bool_decide_eq_false_2 _ Hp : below dir p = false).
    unfold w1, put. cbn [disk set_disk]. rewrite lookup_insert_ne by done.
    by apply Hdisk.
Qed.

(** X12. [deleteProfile(id)] removes what [path.join] makes of the id, without
    asking whether the id is that of a profile or whether the result lies
    in the profiles directory: for every id other than "default", no file
    below that path is left, the profile index aside, which [getProfiles]
    may write anew.  (For the id ".." the path is the data root, with the
    credentials in it.) *)
Theorem deleteProfile_removes_joined_path (id : string) (w : World) (ps : list Profile) :
  result ProfileStorage.getProfiles w = Returned (JArr (json_of_Profile <$> ps)) ->
  id <> "default" ->
  let w' := after (ProfileStorage.deleteProfile id) w in
  forall p, profileDirOf w id `prefix_of` p -> p <> globalFile w "profiles" ->
            disk w' !! p = None.
Proof.
  intros Hres Hid w' p Hp Hne.
  pose proof (result_after ProfileStorage.getProfiles w) as Hrun. rewrite Hres in Hrun.
  destruct (getProfiles_frame w) as (Hact & Hud & Hdisk).
  set (w0 := after ProfileStorage.getProfiles w) in *.
  pose proof (deleteProfile_run id w w0 _ Hid Hrun (Profile_not_null ps)) as Hdel.
  cbv zeta in Hdel.
  assert (path_join (ProfileStorage.baseDataDir w0) ["profiles"; id] = profileDirOf w id)
    as Hdir by (unfold profileDirOf, ProfileStorage.baseDataDir; by rewrite Hud).
  rewrite Hdir in Hdel.
  set (w1 := put _ _ w0) in Hdel.
  set (w2 := if bool_decide (map_Exists (fun q _ => profileDirOf w id `prefix_of` q) (disk w1))
             then removed (profileDirOf w id) w1 else w1) in *.
  set (w3 := if String.eqb (activeProfileId w2) id
             then set_activeProfileId "default" w2 else w2) in *.
  assert (disk w2 !! p = None) as Hgone.
  { unfold w2. case_bool_decide as Hex.
    - rewrite disk_removed.
      by rewrite (bool_decide_eq_true_2 _ Hp : below (profileDirOf w id) p = true).
    - destruct (disk w1 !! p) as [txt|] eqn:Hp1; [|done].
      exfalso. apply Hex. by exists p, txt. }
  assert (userData w3 = userData w /\ disk w3 = disk w2) as [Hud3 Hdisk3].
  { assert (userData w2 = userData w) as H2
      by (unfold w2; destruct (bool_decide _); cbn; by rewrite ?Hud).
    unfold w3. by destruct (String.eqb _ id). }
  destruct (getProfiles_frame w3) as (_ & _ & Hframe).
  assert (w' = after ProfileStorage.getProfiles w3) as ->
    by (unfold w', after; by rewrite Hdel).
  rewrite Hframe, Hdisk3; [done|].
  unfold globalFile, ProfileStorage.baseDataDir. rewrite Hud3. exact Hne.
Qed.

(** X13. [switchProfile(id)], for the id of a profile of the list, returns the
    first profile with that id and makes it the active one: from then on
    [getActiveProfile] returns that profile, and the documents of the
    stores are those in the directory of that id. *)
Theorem switchProfile_then_getActiveProfile (id : string) (w : World)
    (ps : list Profile) (p : Profile) :
  result ProfileStorage.getProfiles w = Returned (JArr (json_of_Profile <$> ps)) ->
  List.find (fun p => String.eqb (pr_id p) id) ps = Some p ->
  let w' := after (ProfileStorage.switchProfile id) w in
  result (ProfileStorage.switchProfile id) w = Returned (json_of_Profile p) /\
  activeProfileId w' = id /\
  result ProfileStorage.getActiveProfile w' = Returned (Some (json_of_Profile p)) /\
  (forall name, ProfileStorage.profilePath name None w'
                = (w', Returned (path_join (profileDirOf w id) [name +:+ ".json"]))).
Proof.
  intros Hres Hfind w'.
  pose proof (result_after ProfileStorage.getProfiles w) as Hrun. rewrite Hres in Hrun.
  destruct (getProfiles_settles w _ Hres) as [Hne Hdoc].
  destruct (getProfiles_frame w) as (_ & Hud & _).
  set (w0 := after ProfileStorage.getProfiles w) in *.
  pose proof (switchProfile_run id w w0 _ Hrun (Profile_not_null ps)) as Hsw.
  rewrite find_Profiles, Hfind in Hsw. cbn [fmap option_fmap option_map] in Hsw.
  assert (w' = set_activeProfileId id w0) as Hw' by (unfold w', after; by rewrite Hsw).
  assert (ProfileStorage.getProfiles w' = (w', Returned (JArr (json_of_Profile <$> ps))))
    as Hrun'.
  { rewrite Hw'. apply getProfiles_again; [done|].
    unfold globalFile, ProfileStorage.baseDataDir in *. cbn [userData set_activeProfileId].
    rewrite Hud. exact Hdoc. }
  assert (activeProfileId w' = id) as Hact' by (by rewrite Hw').
  assert (userData w' = userData w) as Hud' by (by rewrite Hw').
  clearbody w'. clear Hw'.
  unfold result. rewrite Hsw. cbn [snd]. split; [done|]. split; [done|]. split.
  - rewrite (getActiveProfile_run w' w' _ Hrun' (Profile_not_null ps)). cbn [snd].
    by rewrite Hact', find_Profiles, Hfind.
  - intros name. rewrite profilePath_run.
    unfold profileFile, profileDirOf, ProfileStorage.baseDataDir. by rewrite Hact', Hud'.
Qed.

(** X14. [getActiveProfile] always returns a profile of the list: the first one
    with the active id, or, when no profile has that id, the first of the
    list. *)
Theorem getActiveProfile_returns_profile (w : World) (ps : list Profile) :
  result ProfileStorage.getProfiles w = Returned (JArr (json_of_Profile <$> ps)) ->
  exists p,
    result ProfileStorage.getActiveProfile w = Returned (Some (json_of_Profile p)) /\
    p ∈ ps /\
    (pr_id p = activeProfileId w \/
     ((activeProfileId w ∉ (pr_id <$> ps)) /\ head ps = Some p)).
Proof.
  intros Hres.
  pose proof (result_after ProfileStorage.getProfiles w) as Hrun. rewrite Hres in Hrun.
  destruct (getProfiles_settles w _ Hres) as [Hne _].
  destruct (getProfiles_frame w) as (Hact & _ & _).
  unfold result.
  rewrite (getActiveProfile_run w _ _ Hrun (Profile_not_null ps)), Hact, find_Profiles.
  cbn [snd].
  destruct (List.find _ ps) as [p|] eqn:Hfind.
  - exists p. apply List.find_some in Hfind as [Hin Heq].
    split; [done|]. split; [by apply list_elem_of_In|]. left. by apply String.eqb_eq.
  - destruct ps as [|p ps]; [done|]. exists p. split; [done|]. split; [by left|]. right.
    split; [|done]. intros (q & Hq & Hin)%list_elem_of_fmap.
    apply list_elem_of_In in Hin.
    pose proof (List.find_none _ _ Hfind q Hin) as Hno. cbv beta in Hno.
    apply String.eqb_neq in Hno. congruence.
Qed.

End ProfileOperations.

Section ProfileOperationsOnReference.
Local Existing Instance Reference.platform.

Lemma getProfiles_fresh :
  result ProfileStorage.getProfiles Reference.fresh
  = Returned (JArr (json_of_Profile <$> [mkProfile "default" "Default" "person" 0 true])).
Proof. vm_compute. reflexivity. Qed.

Lemma getProfiles_atWork :
  result ProfileStorage.getProfiles atWork
  = Returned (JArr (json_of_Profile <$>
                      [mkProfile "default" "Default" "person" 0 true; workProfile])).
Proof.
  unfold result.
  rewrite (getProfiles_again atWork
             (json_of_Profile <$> [mkProfile "default" "Default" "person" 0 true; workProfile]));
    [done|done|].
  apply (stored_put (P := Reference.platform)).
Qed.

(** The theorem at a new installation. *)
Lemma createProfile_appends_witness :
  exists p,
    result (ProfileStorage.createProfile "Work" "briefcase") Reference.fresh
      = Returned (json_of_Profile p) /\
    pr_id p <> "default".
Proof.
  destruct (createProfile_appends "Work" "briefcase" Reference.fresh _ getProfiles_fresh)
    as (p & H1 & _ & _ & _ & H2 & _).
  exists p. split; [exact H1|exact H2].
Defined.

(** The theorem at the deletion of the active profile "work". *)
Lemma deleteProfile_removes_witness :
  let w' := after (ProfileStorage.deleteProfile "work") atWork in
  activeProfileId w' = "default" /\
  disk w' !! path_join (profileDirOf Reference.fresh "work") ["bookmarks.json"] = None.
Proof.
  intros w'.
  destruct (deleteProfile_removes "work" atWork _ getProfiles_atWork) as (_ & H1 & H2 & _).
  - vm_compute. set_solver.
  - done.
  - reflexivity.
  - split; [exact H2|]. apply H1. by exists ["bookmarks.json"].
Defined.

(** The theorem at the id "..": the credentials and the bookmarks of the
    default profile are gone. *)
Lemma deleteProfile_removes_joined_path_witness :
  let w' := after (ProfileStorage.deleteProfile "..") usedRoot in
  disk usedRoot !! credentialsFile usedRoot = Some "0:0:0" /\
  disk w' !! credentialsFile usedRoot = None /\
  disk w' !! profileFile usedRoot "bookmarks" = None.
Proof.
  intros w'. split; [reflexivity|].
  pose proof (deleteProfile_removes_joined_path ".." usedRoot
                [mkProfile "default" "Default" "person" 0 true]) as H.
  split; apply H; try done.
  - by exists ["credentials.enc"].
  - by exists ["profiles"; "default"; "bookmarks.json"].
Defined.

(** The theorem at a switch from "work" to "default". *)
Lemma switchProfile_then_getActiveProfile_witness :
  result ProfileStorage.getActiveProfile (after (ProfileStorage.switchProfile "default") atWork)
  = Returned (Some (json_of_Profile (mkProfile "default" "Default" "person" 0 true))).
Proof.
  destruct (switchProfile_then_getActiveProfile "default" atWork _
              (mkProfile "default" "Default" "person" 0 true) getProfiles_atWork)
    as (_ & _ & H & _).
  - reflexivity.
  - exact H.
Defined.

(** The theorem at a new installation. *)
Lemma getActiveProfile_returns_profile_witness :
  exists p,
    result ProfileStorage.getActiveProfile Reference.fresh = Returned (Some (json_of_Profile p)).
Proof.
  destruct (getActiveProfile_returns_profile Reference.fresh _ getProfiles_fresh)
    as (p & H & _).
  by exists p.
Defined.

End ProfileOperationsOnReference.

(** ** The encryption layer and the encrypted documents *)

Section Sealing.
Context {P : Platform} {L : PlatformLaws P}.

Lemma readEncrypted_of_sealed p fallback w v :
  sealed w p v -> ProfileStorage.readEncrypted p fallback w = (w, Returned v).
Proof. intros (key & iv & Hk & Hiv & Hp). by apply (readEncrypted_sealed _ _ _ key iv). Qed.

Lemma sealed_sealed_write p v w key :
  has_key w key -> p <> ProfileStorage.keyPath w -> sealed (sealed_write p v key w) p v.
Proof.
  intros Hk Hp. exists key, (nextBytes w 16).
  split; [by apply has_key_sealed_write|]. split; [apply nextBytes_length|].
  unfold sealed_write. cbn [disk set_disk]. apply lookup_insert_eq.
Qed.

Lemma sealed_frame w w' p v :
  userData w' = userData w ->
  disk w' !! ProfileStorage.keyPath w = disk w !! ProfileStorage.keyPath w ->
  disk w' !! p = disk w !! p ->
  sealed w p v -> sealed w' p v.
Proof.
  intros Hud Hkey Hp (key & iv & (txt & Htxt & Hk) & Hiv & Hdoc).
  exists key, iv. split; [|split; [done|congruence]].
  exists txt. split; [|done]. unfold ProfileStorage.keyPath in *. rewrite Hud. congruence.
Qed.

(** X15. What [writeEncrypted] wrote, [readEncrypted] reads back, whatever the
    file held before: a round trip through [JSON.stringify], the cipher,
    the envelope and the file, and through a key that the first of the two
    makes if there is none yet. *)
Theorem readEncrypted_after_writeEncrypted (p : path) (v fallback : json) (w : World) :
  key_usable w -> p <> ProfileStorage.keyPath w ->
  result (ProfileStorage.writeEncrypted p v) w = Returned tt /\
  result (ProfileStorage.readEncrypted p fallback) (after (ProfileStorage.writeEncrypted p v) w)
  = Returned v.
Proof.
  intros Hu Hp. destruct (getAppKey_usable w Hu) as [_ Hk].
  destruct (keyed_frame w) as (Hud & _).
  unfold result, after. rewrite (writeEncrypted_usable p v w Hu). cbn [fst snd].
  split; [done|].
  rewrite (readEncrypted_of_sealed p fallback _ v); [done|].
  apply sealed_sealed_write; [done|]. unfold ProfileStorage.keyPath in *. by rewrite Hud.
Qed.

(** X16. The first call of [getAppKey] makes a key of 32 bytes and writes it to
    the key file in 64 hexadecimal digits; every later call returns that
    key and changes nothing. *)
Theorem getAppKey_keeps_key (w : World) :
  (forall q, ProfileStorage.keyPath w `prefix_of` q -> disk w !! q = None) ->
  let w1 := after ProfileStorage.getAppKey w in
  exists key,
    result ProfileStorage.getAppKey w = Returned key /\
    length key = 32 /\
    disk w1 !! ProfileStorage.keyPath w = Some (hex_encode key) /\
    String.length (hex_encode key) = 64 /\
    ProfileStorage.getAppKey w1 = (w1, Returned key).
Proof.
  intros Hnone w1. exists (map (entropy w) (seq (drawn w) 32)).
  pose proof (getAppKey_first w Hnone) as Hrun.
  assert (w1 = with_new_key w) as -> by (unfold w1, after; by rewrite Hrun).
  unfold result. rewrite Hrun. cbn [snd].
  assert (length (map (entropy w) (seq (drawn w) 32)) = 32) as Hlen
    by (by rewrite length_map, length_seq).
  split; [done|]. split; [done|]. split; [apply lookup_insert_eq|]. split.
  - generalize dependent (map (entropy w) (seq (drawn w) 32)). intros bs.
    do 33 (destruct bs as [|? bs]; [done|]); done.
  - apply getAppKey_has_key, has_key_with_new_key.
Qed.

(** X17. The envelope that [encryptData] returns consists of the nonce of
    16 bytes, the tag and the ciphertext, each in hexadecimal digits, with
    colons between them: three parts, also when the plaintext holds
    colons.  And [decryptData] refuses every text that does not consist of
    three parts between colons, with the error "Invalid encrypted data". *)
Theorem envelope_has_three_parts (x s : string) (w : World) :
  key_usable w ->
  (exists iv tag ct,
     result (ProfileStorage.encryptData x) w
       = Returned (hex_encode iv +:+ ":" +:+ hex_encode tag +:+ ":" +:+ hex_encode ct) /\
     length iv = 16 /\
     split_on ":" (hex_encode iv +:+ ":" +:+ hex_encode tag +:+ ":" +:+ hex_encode ct)
       = [hex_encode iv; hex_encode tag; hex_encode ct]) /\
  (length (split_on ":" s) <> 3 ->
   result (ProfileStorage.decryptData s) w = Thrown (Error "Invalid encrypted data")).
Proof.
  intros Hu. destruct (getAppKey_usable w Hu) as [Hrun _]. split.
  - eexists (nextBytes (keyed w) 16), _, _. unfold result.
    rewrite (encryptData_usable x w Hu). cbn [snd]. split; [reflexivity|].
    split; [apply nextBytes_length|apply split_envelope].
  - intros Hparts.
    unfold result, ProfileStorage.decryptData. rewrite (run_bind_returned _ _ _ _ _ Hrun).
    by destruct (split_on ":" s) as [|p0 [|p1 [|p2 [|p3 l]]]].
Qed.

Lemma getAuthState_readEncrypted w :
  ProfileStorage.getAuthState w
  = ProfileStorage.readEncrypted (authFile w) ProfileStorage.loggedOut w.
Proof. unfold ProfileStorage.getAuthState, ProfileStorage.authStatePath. by exec. Qed.

(** X18. [getAuthState] returns in every state, and it returns the logged-out
    state when the auth document is missing (then it changes nothing) and
    when the document is not made of three parts between colons, whatever
    the key file holds. *)
Theorem getAuthState_falls_back (w : World) :
  (exists v, result ProfileStorage.getAuthState w = Returned v) /\
  (disk w !! authFile w = None ->
   ProfileStorage.getAuthState w = (w, Returned ProfileStorage.loggedOut)) /\
  (forall raw, disk w !! authFile w = Some raw -> length (split_on ":" raw) <> 3 ->
               result ProfileStorage.getAuthState w = Returned ProfileStorage.loggedOut).
Proof.
  unfold result. rewrite !getAuthState_readEncrypted. split_and!.
  - destruct (readEncrypted_returns (authFile w) ProfileStorage.loggedOut w)
      as (w' & v & Hrun).
    exists v. by rewrite Hrun.
  - apply readEncrypted_absent.
  - intros raw Hraw Hparts.
    unfold ProfileStorage.readEncrypted, try_catch.
    unfold bind at 1. unfold readFileSync. rewrite Hraw.
    unfold bind at 1. unfold ProfileStorage.decryptData. unfold bind at 1.
    destruct (ProfileStorage.getAppKey w) as [w' [key|e]]; [|done].
    by destruct (split_on ":" raw) as [|p0 [|p1 [|p2 [|p3 l]]]].
Qed.

(** X19. After [logoutUser], [getAuthState] returns the logged-out state, and
    the credentials document is as it was. *)
Theorem logoutUser_logs_out (w : World) :
  key_usable w ->
  let w' := after ProfileStorage.logoutUser w in
  result ProfileStorage.logoutUser w = Returned tt /\
  result ProfileStorage.getAuthState w' = Returned ProfileStorage.loggedOut /\
  disk w' !! credentialsFile w = disk w !! credentialsFile w.
Proof.
  intros Hu w'. destruct (getAppKey_usable w Hu) as [_ Hk].
  destruct (keyed_frame w) as (Hud & _ & _ & _ & Hdisk).
  assert (ProfileStorage.logoutUser w
          = (sealed_write (authFile w) ProfileStorage.loggedOut (current_key w) (keyed w),
             Returned tt)) as Hrun.
  { unfold ProfileStorage.logoutUser, ProfileStorage.saveAuthState,
      ProfileStorage.authStatePath. exec. fold (authFile w).
    by apply writeEncrypted_usable. }
  assert (ProfileStorage.keyPath (keyed w) = ProfileStorage.keyPath w) as Hkp
    by (unfold ProfileStorage.keyPath; by rewrite Hud).
  assert (w' = sealed_write (authFile w) ProfileStorage.loggedOut (current_key w) (keyed w))
    as Hw' by (unfold w', after; by rewrite Hrun).
  assert (sealed w' (authFile w') ProfileStorage.loggedOut) as Hsealed.
  { rewrite Hw'.
    change (authFile (sealed_write ?p ?v ?k (keyed w))) with (authFile (keyed w)).
    assert (authFile (keyed w) = authFile w) as ->
      by (unfold authFile, ProfileStorage.baseDataDir; by rewrite Hud).
    apply sealed_sealed_write; [done|]. rewrite Hkp. apply keyPath_not_authFile. }
  assert (disk w' !! credentialsFile w = disk w !! credentialsFile w) as Hcreds.
  { rewrite Hw'. unfold sealed_write. cbn [disk set_disk set_drawn].
    rewrite lookup_insert_ne by apply authFile_not_credentialsFile.
    apply Hdisk, keyPath_not_credentialsFile. }
  clearbody w'. clear Hw'.
  unfold result. rewrite Hrun, getAuthState_readEncrypted. cbn [snd].
  split; [done|]. split; [|done].
  by rewrite (readEncrypted_of_sealed _ _ _ _ Hsealed).
Qed.

End Sealing.

Section SealingOnReference.
Local Existing Instance Reference.platform.

Lemma key_usable_fresh : key_usable Reference.fresh.
Proof. left. intros q _. reflexivity. Qed.

(** The theorem at a new installation and the auth document. *)
Lemma readEncrypted_after_writeEncrypted_witness :
  result (ProfileStorage.readEncrypted (authFile Reference.fresh) JNull)
         (after (ProfileStorage.writeEncrypted (authFile Reference.fresh) (JStr "x"))
                Reference.fresh)
  = Returned (JStr "x").
Proof.
  destruct (readEncrypted_after_writeEncrypted (authFile Reference.fresh) (JStr "x") JNull
              Reference.fresh key_usable_fresh) as [_ H].
  - apply keyPath_not_authFile.
  - exact H.
Defined.

(** The theorem at a new installation. *)
Lemma getAppKey_keeps_key_witness :
  exists key,
    result ProfileStorage.getAppKey Reference.fresh = Returned key /\ length key = 32.
Proof.
  destruct (getAppKey_keeps_key Reference.fresh) as (key & H1 & H2 & _).
  - intros q _. reflexivity.
  - exists key. split; [exact H1|exact H2].
Defined.

(** The theorem at a plaintext and a text with three colons each. *)
Lemma envelope_has_three_parts_witness :
  (exists env, result (ProfileStorage.encryptData "a:b:c:d") Reference.fresh = Returned env /\
               length (split_on ":" env) = 3) /\
  result (ProfileStorage.decryptData "a:b:c:d") Reference.fresh
  = Thrown (Error "Invalid encrypted data").
Proof.
  destruct (envelope_has_three_parts "a:b:c:d" "a:b:c:d" Reference.fresh key_usable_fresh)
    as [(iv & tag & ct & Henc & _ & Hsplit) Hdec].
  split.
  - eexists. split; [exact Henc|]. by rewrite Hsplit.
  - apply Hdec. vm_compute. lia.
Defined.

(** The theorem at an auth document without a colon. *)
Lemma getAuthState_falls_back_witness :
  result ProfileStorage.getAuthState tornAuth = Returned ProfileStorage.loggedOut.
Proof.
  destruct (getAuthState_falls_back tornAuth) as (_ & _ & H).
  apply (H "not an envelope"); [reflexivity|]. vm_compute. lia.
Defined.

(** The theorem at a new installation. *)
Lemma logoutUser_logs_out_witness :
  result ProfileStorage.getAuthState (after ProfileStorage.logoutUser Reference.fresh)
  = Returned ProfileStorage.loggedOut.
Proof.
  destruct (logoutUser_logs_out Reference.fresh key_usable_fresh) as (_ & H & _).
  exact H.
Defined.

End SealingOnReference.

(** ** Accounts: registering and logging in *)

Section Accounts.
Context {P : Platform} {L : PlatformLaws P}.

Lemma AuthCredentials_not_null (cs : list AuthCredentials) :
  Forall (fun x => x <> JNull) (json_of_AuthCredentials <$> cs).
Proof. apply Forall_fmap, Forall_true. done. Qed.

Lemma existsb_hasEmail email (cs : list AuthCredentials) :
  existsb (hasEmail email) (json_of_AuthCredentials <$> cs)
  = existsb (fun c => String.eqb (ac_email c) email) cs.
Proof. induction cs as [|c cs IH]; [done|]. rewrite fmap_cons. cbn [existsb]. by rewrite IH. Qed.

Lemma find_hasEmail email (cs : list AuthCredentials) :
  List.find (hasEmail email) (json_of_AuthCredentials <$> cs)
  = json_of_AuthCredentials <$> List.find (fun c => String.eqb (ac_email c) email) cs.
Proof.
  induction cs as [|c cs IH]; [done|]. rewrite fmap_cons. cbn [List.find].
  unfold json_of_AuthCredentials at 1. rewrite hasEmail_credential.
  by destruct (String.eqb _ _).
Qed.

Lemma hex_encode_length bs : String.length (hex_encode bs) = 2 * length bs.
Proof. induction bs as [|b bs IH]; [done|]. cbn [hex_encode String.length length]. lia. Qed.

Lemma sealed_key_usable w p v : sealed w p v -> key_usable w.
Proof. intros (key & iv & Hk & _). right. by exists key. Qed.

Lemma registerUser_taken email password w (cs : list AuthCredentials) :
  ProfileStorage.readEncrypted (credentialsFile w) (JArr []) w
    = (w, Returned (JArr (json_of_AuthCredentials <$> cs))) ->
  existsb (fun c => String.eqb (ac_email c) email) cs = true ->
  ProfileStorage.registerUser email password w
  = (w, Returned (ProfileStorage.failure "Email already registered")).
Proof.
  intros Hread Hin.
  unfold ProfileStorage.registerUser, ProfileStorage.credentialsPath. exec.
  fold (credentialsFile w). rewrite (run_bind_returned _ _ _ _ _ Hread).
  unfold Array_some, asArray. exec.
  rewrite (run_bind_returned _ _ _ _ _
             (someM_run _ _ _ _ (emailIs_pure email _ (AuthCredentials_not_null cs)))).
  rewrite existsb_hasEmail, Hin. by exec.
Qed.

Lemma registerUser_new email password w (cs : list AuthCredentials) :
  key_usable w ->
  ProfileStorage.readEncrypted (credentialsFile w) (JArr []) w
    = (w, Returned (JArr (json_of_AuthCredentials <$> cs))) ->
  existsb (fun c => String.eqb (ac_email c) email) cs = false ->
  exists w2 token,
    ProfileStorage.registerUser email password w = (w2, Returned ProfileStorage.success) /\
    sealed w2 (credentialsFile w2)
           (JArr (json_of_AuthCredentials <$> cs ++ [newAccount w email password])) /\
    sealed w2 (authFile w2) (ProfileStorage.loggedIn email token (activeProfileId w)) /\
    String.length token = 64 /\
    activeProfileId w2 = activeProfileId w /\
    userData w2 = userData w.
Proof.
  intros Hu Hread Hnew.
  set (c := newAccount w email password).
  set (w0 := tick (set_drawn (drawn w + 16) w)).
  assert (key_usable w0) as Hu0 by exact Hu.
  destruct (getAppKey_usable w0 Hu0) as [_ Hk0].
  pose proof (writeEncrypted_usable (credentialsFile w)
                (JArr (json_of_AuthCredentials <$> cs ++ [c])) w0 Hu0) as Hwrite.
  destruct (keyed_frame w0) as (Hud & Hact & _).
  set (key := current_key w0) in *.
  set (wk := keyed w0) in *.
  set (w1 := sealed_write (credentialsFile w)
               (JArr (json_of_AuthCredentials <$> cs ++ [c])) key wk) in *.
  assert (ProfileStorage.keyPath wk = ProfileStorage.keyPath w) as Hkp.
  { unfold ProfileStorage.keyPath. by rewrite Hud. }
  assert (has_key w1 key) as Hk1.
  { apply has_key_sealed_write; [done|]. rewrite Hkp. apply keyPath_not_credentialsFile. }
  assert (userData w1 = userData w) as Hud1 by exact Hud.
  assert (activeProfileId w1 = activeProfileId w) as Hact1 by exact Hact.
  set (token := hex_encode (nextBytes w1 32)).
  set (w1' := set_drawn (drawn w1 + 32) w1).
  assert (has_key w1' key) as Hk1' by exact Hk1.
  set (w2 := sealed_write (authFile w)
               (ProfileStorage.loggedIn email token (activeProfileId w)) key w1').
  assert (userData w2 = userData w) as Hud2 by exact Hud.
  assert (credentialsFile w2 = credentialsFile w) as Hcf
    by (unfold credentialsFile, ProfileStorage.baseDataDir; by rewrite Hud2).
  assert (authFile w2 = authFile w) as Haf
    by (unfold authFile, ProfileStorage.baseDataDir; by rewrite Hud2).
  assert (ProfileStorage.keyPath w1' = ProfileStorage.keyPath w) as Hkp1 by exact Hkp.
  exists w2, token. split_and!.
  - unfold ProfileStorage.registerUser, ProfileStorage.credentialsPath. exec.
    fold (credentialsFile w). rewrite (run_bind_returned _ _ _ _ _ Hread).
    unfold Array_some, asArray. exec.
    rewrite (run_bind_returned _ _ _ _ _
               (someM_run _ _ _ _ (emailIs_pure email _ (AuthCredentials_not_null cs)))).
    rewrite existsb_hasEmail, Hnew. exec.
    rewrite bind_randomBytes. unfold ProfileStorage.pbkdf2Sync. exec.
    unfold Array_push, asArray. exec.
    fold w0. change (credentialsFile w0) with (credentialsFile w).
    rewrite fmap_app in Hwrite.
    rewrite (run_bind_returned _ _ _ _ _ Hwrite).
    rewrite bind_randomBytes. exec.
    unfold ProfileStorage.saveAuthState, ProfileStorage.authStatePath. exec.
    fold (authFile (set_drawn (drawn w1 + 32) w1)).
    change (authFile (set_drawn (drawn w1 + 32) w1)) with (authFile w1).
    change (activeProfileId (set_drawn (drawn w1 + 32) w1)) with (activeProfileId w1).
    assert (authFile w1 = authFile w) as ->
      by (unfold authFile, ProfileStorage.baseDataDir; by rewrite Hud1).
    rewrite Hact1.
    rewrite (run_bind_returned _ _ _ _ _
               (writeEncrypted_has_key _ _ (set_drawn (drawn w1 + 32) w1) key Hk1)).
    exec. reflexivity.
  - rewrite Hcf.
    apply (sealed_frame w1); [done| | |].
    + change (ProfileStorage.keyPath w1) with (ProfileStorage.keyPath wk). rewrite Hkp.
      unfold w2, sealed_write. cbn [disk set_disk].
      rewrite lookup_insert_ne; [done|]. apply keyPath_not_authFile.
    + unfold w2, sealed_write. cbn [disk set_disk].
      rewrite lookup_insert_ne; [done|]. apply authFile_not_credentialsFile.
    + assert (credentialsFile w1 = credentialsFile w) as Hcf1
        by (unfold credentialsFile, ProfileStorage.baseDataDir; by rewrite Hud1).
      apply sealed_sealed_write; [done|]. rewrite Hkp. apply keyPath_not_credentialsFile.
  - rewrite Haf. apply sealed_sealed_write; [done|]. rewrite Hkp1. apply keyPath_not_authFile.
  - unfold token. by rewrite hex_encode_length, nextBytes_length.
  - exact Hact.
  - exact Hud2.
Qed.

Lemma loginUser_typed email password w (cs : list AuthCredentials) :
  sealed w (credentialsFile w) (JArr (json_of_AuthCredentials <$> cs)) ->
  match List.find (fun c => String.eqb (ac_email c) email) cs with
  | Some c =>
      if String.eqb (ac_passwordHash c) (passwordHash password (ac_salt c))
      then exists w2 token,
             ProfileStorage.loginUser email password w
               = (w2, Returned ProfileStorage.success) /\
             sealed w2 (authFile w2)
                    (ProfileStorage.loggedIn email token (activeProfileId w))
      else ProfileStorage.loginUser email password w
           = (w, Returned (ProfileStorage.failure "Invalid email or password"))
  | None => ProfileStorage.loginUser email password w
            = (w, Returned (ProfileStorage.failure "Invalid email or password"))
  end.
Proof.
  intros Hsealed. pose proof Hsealed as (key & iv & Hk & Hiv & Hdoc).
  unfold ProfileStorage.loginUser, ProfileStorage.credentialsPath. exec.
  fold (credentialsFile w).
  rewrite (run_bind_returned _ _ _ _ _ (readEncrypted_of_sealed _ (JArr []) _ _ Hsealed)).
  unfold Array_find, asArray. exec.
  rewrite (run_bind_returned _ _ _ _ _
             (findM_run _ _ _ _ (emailIs_pure email _ (AuthCredentials_not_null cs)))).
  rewrite find_hasEmail.
  destruct (List.find _ cs) as [c|]; cbn [fmap option_fmap option_map]; [|by exec].
  assert (json_of_AuthCredentials c <> JNull) as Hnn by done.
  rewrite (run_bind_returned _ _ _ _ _ (getProp_run _ "salt" _ Hnn)).
  change (prop "salt" (json_of_AuthCredentials c)) with (Some (JStr (ac_salt c))).
  unfold ProfileStorage.pbkdf2Sync. exec.
  rewrite (run_bind_returned _ _ _ _ _ (getProp_run _ "passwordHash" _ Hnn)).
  change (prop "passwordHash" (json_of_AuthCredentials c))
    with (Some (JStr (ac_passwordHash c))).
  fold (passwordHash password (ac_salt c)). cbn [strictEqStr].
  destruct (String.eqb (ac_passwordHash c) _); cbn [negb]; exec; [|reflexivity].
  rewrite bind_randomBytes. exec.
  unfold ProfileStorage.saveAuthState, ProfileStorage.authStatePath. exec.
  fold (authFile (set_drawn (drawn w + 32) w)).
  rewrite (run_bind_returned _ _ _ _ _
             (writeEncrypted_has_key _ _ (set_drawn (drawn w + 32) w) key Hk)).
  exec. eexists _, _. split; [reflexivity|].
  change (authFile (sealed_write ?p ?v ?k ?w')) with (authFile w).
  change (authFile (set_drawn (drawn w + 32) w)) with (authFile w).
  apply (sealed_sealed_write (authFile w) _ (set_drawn (drawn w + 32) w) key
           (has_key_set_drawn _ _ _ Hk)).
  exact (keyPath_not_authFile w).
Qed.

Lemma registerUser_first email password w :
  key_usable w ->
  disk w !! credentialsFile w = None ->
  exists w1 token,
    ProfileStorage.registerUser email password w = (w1, Returned ProfileStorage.success) /\
    sealed w1 (credentialsFile w1)
           (JArr (json_of_AuthCredentials <$> [newAccount w email password])) /\
    sealed w1 (authFile w1) (ProfileStorage.loggedIn email token (activeProfileId w)) /\
    String.length token = 64 /\
    activeProfileId w1 = activeProfileId w /\
    userData w1 = userData w.
Proof.
  intros Hu Hnone.
  apply (registerUser_new email password w [] Hu); [|done].
  by apply readEncrypted_absent.
Qed.

(** X20. A second [registerUser] with an email that is registered fails with
    "Email already registered", whatever the password, and changes nothing:
    the account, its password and the auth state stay as they are. *)
Theorem registerUser_rejects_known_email (email password1 password2 : string) (w : World) :
  key_usable w ->
  disk w !! credentialsFile w = None ->
  let w1 := after (ProfileStorage.registerUser email password1) w in
  result (ProfileStorage.registerUser email password2) w1
    = Returned (ProfileStorage.failure "Email already registered") /\
  after (ProfileStorage.registerUser email password2) w1 = w1.
Proof.
  intros Hu Hnone w1.
  destruct (registerUser_first email password1 w Hu Hnone)
    as (w1' & token & Hrun & Hcreds & _).
  assert (w1 = w1') as -> by (unfold w1, after; by rewrite Hrun).
  unfold result, after.
  rewrite (registerUser_taken email password2 w1' [newAccount w email password1]).
  - done.
  - by apply readEncrypted_of_sealed.
  - cbn [existsb newAccount ac_email]. by rewrite String.eqb_refl.
Qed.

(** X21. [loginUser] with an email that nobody registered fails with "Invalid
    email or password", the message of a wrong password, and changes
    nothing: on the empty credential store, and after another email was
    registered. *)
Theorem loginUser_unknown_email (email password email' password' : string) (w : World) :
  key_usable w ->
  disk w !! credentialsFile w = None ->
  email' <> email ->
  let w1 := after (ProfileStorage.registerUser email password) w in
  ProfileStorage.loginUser email' password' w
    = (w, Returned (ProfileStorage.failure "Invalid email or password")) /\
  ProfileStorage.loginUser email' password' w1
    = (w1, Returned (ProfileStorage.failure "Invalid email or password")).
Proof.
  intros Hu Hnone Hne w1. split.
  - unfold ProfileStorage.loginUser, ProfileStorage.credentialsPath. exec.
    fold (credentialsFile w).
    rewrite (run_bind_returned _ _ _ _ _ (readEncrypted_absent _ (JArr []) _ Hnone)).
    unfold Array_find, asArray. by exec.
  - destruct (registerUser_first email password w Hu Hnone)
      as (w1' & token & Hrun & Hcreds & _).
    assert (w1 = w1') as -> by (unfold w1, after; by rewrite Hrun).
    pose proof (loginUser_typed email' password' w1' _ Hcreds) as Hlogin.
    cbn [List.find newAccount ac_email] in Hlogin.
    by rewrite (proj2 (String.eqb_neq email email')) in Hlogin by congruence.
Qed.

(** X22. Registration adds to the accounts: after a second email was registered,
    both accounts log in with their own passwords. *)
Theorem registerUser_second_account (email1 password1 email2 password2 : string) (w : World) :
  key_usable w ->
  disk w !! credentialsFile w = None ->
  email1 <> email2 ->
  let w1 := after (ProfileStorage.registerUser email1 password1) w in
  let w2 := after (ProfileStorage.registerUser email2 password2) w1 in
  result (ProfileStorage.registerUser email2 password2) w1 = Returned ProfileStorage.success /\
  result (ProfileStorage.loginUser email1 password1) w2 = Returned ProfileStorage.success /\
  result (ProfileStorage.loginUser email2 password2) w2 = Returned ProfileStorage.success.
Proof.
  intros Hu Hnone Hne w1 w2.
  destruct (registerUser_first email1 password1 w Hu Hnone)
    as (w1' & token1 & Hrun1 & Hcreds1 & _).
  assert (w1 = w1') as Hw1 by (unfold w1, after; by rewrite Hrun1).
  clearbody w1. subst w1'.
  destruct (registerUser_new email2 password2 w1 [newAccount w email1 password1])
    as (w2' & token2 & Hrun2 & Hcreds2 & _).
  { by apply (sealed_key_usable _ _ _ Hcreds1). }
  { by apply readEncrypted_of_sealed. }
  { cbn [existsb newAccount ac_email].
    by rewrite (proj2 (String.eqb_neq email1 email2)). }
  assert (w2 = w2') as Hw2 by (unfold w2, after; by rewrite Hrun2).
  clearbody w2. subst w2'.
  unfold result. rewrite Hrun2. cbn [snd]. split; [done|].
  pose proof (loginUser_typed email1 password1 w2 _ Hcreds2) as Hlogin1.
  pose proof (loginUser_typed email2 password2 w2 _ Hcreds2) as Hlogin2.
  cbn [app List.find newAccount ac_email ac_passwordHash ac_salt] in Hlogin1, Hlogin2.
  rewrite !String.eqb_refl in Hlogin1.
  rewrite (proj2 (String.eqb_neq email1 email2)) in Hlogin2 by done.
  rewrite !String.eqb_refl in Hlogin2.
  destruct Hlogin1 as (? & ? & -> & _). destruct Hlogin2 as (? & ? & -> & _). done.
Qed.

(** X23. [registerUser] logs the new user in: afterwards [getAuthState] returns
    a logged-in state with the email, the profile that is active, and a
    token of 64 characters. *)
Theorem registerUser_logs_in (email password : string) (w : World) :
  key_usable w ->
  disk w !! credentialsFile w = None ->
  let w1 := after (ProfileStorage.registerUser email password) w in
  exists token,
    result ProfileStorage.getAuthState w1
      = Returned (ProfileStorage.loggedIn email token (activeProfileId w)) /\
    String.length token = 64 /\
    activeProfileId w1 = activeProfileId w.
Proof.
  intros Hu Hnone w1.
  destruct (registerUser_first email password w Hu Hnone)
    as (w1' & token & Hrun & _ & Hauth & Hlen & Hact & _).
  assert (w1 = w1') as -> by (unfold w1, after; by rewrite Hrun).
  exists token. unfold result. rewrite getAuthState_readEncrypted.
  by rewrite (readEncrypted_of_sealed _ _ _ _ Hauth).
Qed.

End Accounts.

Section AccountsOnReference.
Local Existing Instance Reference.platform.

(** The theorem at a new installation. *)
Lemma registerUser_rejects_known_email_witness :
  result (ProfileStorage.registerUser "a@b.com" "other")
         (after (ProfileStorage.registerUser "a@b.com" "secret1") Reference.fresh)
  = Returned (ProfileStorage.failure "Email already registered").
Proof.
  destruct (registerUser_rejects_known_email "a@b.com" "secret1" "other" Reference.fresh
              key_usable_fresh) as [H _].
  - reflexivity.
  - exact H.
Defined.

(** The theorem at a new installation. *)
Lemma loginUser_unknown_email_witness :
  result (ProfileStorage.loginUser "c@d.com" "secret1")
         (after (ProfileStorage.registerUser "a@b.com" "secret1") Reference.fresh)
  = Returned (ProfileStorage.failure "Invalid email or password").
Proof.
  destruct (loginUser_unknown_email "a@b.com" "secret1" "c@d.com" "secret1" Reference.fresh
              key_usable_fresh) as [_ H].
  - reflexivity.
  - intros [=].
  - unfold result. by rewrite H.
Defined.

(** The theorem at a new installation. *)
Lemma registerUser_second_account_witness :
  result (ProfileStorage.loginUser "a@b.com" "secret1")
         (after (ProfileStorage.registerUser "c@d.com" "secret2")
                (after (ProfileStorage.registerUser "a@b.com" "secret1") Reference.fresh))
  = Returned ProfileStorage.success.
Proof.
  destruct (registerUser_second_account "a@b.com" "secret1" "c@d.com" "secret2"
              Reference.fresh key_usable_fresh) as (_ & H & _).
  - reflexivity.
  - intros [=].
  - exact H.
Defined.

(** The theorem at a new installation. *)
Lemma registerUser_logs_in_witness :
  exists token,
    result ProfileStorage.getAuthState
           (after (ProfileStorage.registerUser "a@b.com" "secret1") Reference.fresh)
    = Returned (ProfileStorage.loggedIn "a@b.com" token "default").
Proof.
  destruct (registerUser_logs_in "a@b.com" "secret1" Reference.fresh key_usable_fresh)
    as (token & H & _).
  - reflexivity.
  - exists token. exact H.
Defined.

End AccountsOnReference.

(** ** What the store operations leave alone *)

Section Footprint.
Context {P : Platform} {L : PlatformLaws P}.

Lemma footprint_same doc w : footprint doc w w.
Proof. done. Qed.

Lemma footprint_tick doc w : footprint doc w (tick w).
Proof. done. Qed.


Lemma footprint_put_tick doc v w : footprint doc w (put doc v (tick w)).
Proof.
  split; [done|]. split; [done|]. intros p Hp. unfold put. cbn [disk set_disk].
  by rewrite lookup_insert_ne.
Qed.



Lemma addBookmark_footprint url title w :
  footprint (profileFile w "bookmarks") w (after (ProfileStorage.addBookmark url title) w).
Proof.
  unfold after, ProfileStorage.addBookmark, ProfileStorage.getBookmarks. exec.
  set (doc := stored w _ _).
  exec_stateless (stateless_Array_some (ProfileStorage.urlIs url) doc
                    (stateless_reads_prop "url" _)).
  destruct r as [[|]|e]; cbn [negb]; exec; [apply footprint_same| |apply footprint_same].
  pose proof (stateless_Array_push doc
    (JObj {[ "url" := JStr url; "title" := JStr title;
             "addedAt" := JNum (clock w (ticks w)) ]})) as Hpush.
  exec_stateless Hpush.
  destruct r as [v|e]; exec; [apply footprint_put_tick|apply footprint_tick].
Qed.











End Footprint.

Section FootprintOnReference.
Local Existing Instance Reference.platform.


End FootprintOnReference.

(** ** The URL bar *)

Section Navigation.
Context {P : Platform} {L : PlatformLaws P}.

Lemma upper_hex_digit_safe n : querySafe (upper_hex_digit n) = true.
Proof.
  destruct n as [|p]; [done|].
  do 4 (destruct p as [p|p|]; try done).
Qed.

Lemma encodeURIComponent_safe s : all_chars querySafe (encodeURIComponent s) = true.
Proof.
  induction s as [|c s IH]; [done|]. cbn [encodeURIComponent].
  destruct (unreserved c) eqn:Hc; cbn [all_chars].
  - unfold querySafe at 1. by rewrite Hc, IH.
  - by rewrite !upper_hex_digit_safe, IH.
Qed.

Lemma hasHttpScheme_https t : hasHttpScheme ("https://" +:+ t) = true.
Proof. unfold hasHttpScheme. simpl. by destruct (toLowerCase _). Qed.


Lemma resolveUrl_search input w :
  hasHttpScheme (String_trim input) = false ->
  looksLikeDomain (String_trim input) = false ->
  Main.resolveUrl input w
  = (w, Returned ((fun url => url +:+ encodeURIComponent (String_trim input))
                    <$> Main.searchUrlText (settingsOf w !! "searchEngine"))).
Proof.
  intros Hs Hd. unfold Main.resolveUrl.
  rewrite (run_bind_returned _ _ _ _ _ (getSettings_settingsOf w)). cbv zeta.
  rewrite Hs, Hd. cbn [getProp]. by exec.
Qed.

(** X26. A search goes to the engine of the settings: to DuckDuckGo while there
    is no settings document, and to the engine that [updateSettings] was
    given from then on. *)
Theorem resolveUrl_follows_searchEngine (input : string) (e : ProfileStorage.SearchEngine)
    (w : World) :
  hasHttpScheme (String_trim input) = false ->
  looksLikeDomain (String_trim input) = false ->
  let w' := after (ProfileStorage.updateSettings (onlySearchEngine e)) w in
  (disk w !! profileFile w "settings" = None ->
   result (Main.resolveUrl input) w
   = Returned (Some ("https://duckduckgo.com/?q=" +:+ encodeURIComponent (String_trim input)))) /\
  result (Main.resolveUrl input) w'
  = Returned (Some (match e with
                    | ProfileStorage.duckduckgo => "https://duckduckgo.com/?q="
                    | ProfileStorage.bing => "https://www.bing.com/search?q="
                    end +:+ encodeURIComponent (String_trim input))).
Proof.
  intros Hs Hd w'. unfold result. rewrite !(resolveUrl_search _ _ Hs Hd). cbn [snd]. split.
  - intros Hnone. unfold settingsOf, stored. rewrite Hnone. cbn [ownProps]. done.
  - pose proof (updateSettings_run (onlySearchEngine e) w) as Hrun. cbv zeta in Hrun.
    assert (w' = put (profileFile w "settings")
                     (JObj (spread (settingsOf w)
                              (ProfileStorage.props_of_PartialSettings (onlySearchEngine e)))) w)
      as -> by (unfold w', after; by rewrite Hrun).
    rewrite settingsOf_put by apply spread_defaults, settingsOf_defaults.
    unfold spread. rewrite lookup_union.
    destruct (props_of_PartialSettings_lookup (onlySearchEngine e)) as (-> & _).
    cbn [onlySearchEngine ProfileStorage.searchEngine fmap option_fmap option_map].
    destruct (settingsOf w !! "searchEngine"), e; reflexivity.
Qed.

Lemma append_assoc_string (a b c : string) : (a +:+ b) +:+ c = a +:+ (b +:+ c).
Proof.
  induction a as [|x a IH]; [done|].
  change (String x ((a +:+ b) +:+ c) = String x (a +:+ (b +:+ c))). by rewrite IH.
Qed.

Lemma append_cons c (a b : string) : String c a +:+ b = String c (a +:+ b).
Proof. reflexivity. Qed.

Lemma String_rev_append_app s acc : String_rev_append s acc = String_rev s +:+ acc.
Proof.
  unfold String_rev. revert acc.
  induction s as [|c s IH]; intros acc; [done|]. cbn [String_rev_append].
  rewrite IH, (IH (String c EmptyString)). by rewrite append_assoc_string.
Qed.

Lemma String_rev_cons c s : String_rev (String c s) = String_rev s +:+ String c EmptyString.
Proof. unfold String_rev at 1. cbn [String_rev_append]. apply String_rev_append_app. Qed.

Lemma append_empty_r s : s +:+ EmptyString = s.
Proof.
  induction s as [|c s IH]; [done|].
  change (String c (s +:+ EmptyString) = String c s). by rewrite IH.
Qed.

Lemma String_rev_app a b : String_rev (a +:+ b) = String_rev b +:+ String_rev a.
Proof.
  induction a as [|c a IH]; [by rewrite append_empty_r|].
  change (String c a +:+ b) with (String c (a +:+ b)).
  by rewrite !String_rev_cons, IH, append_assoc_string.
Qed.

Lemma String_rev_involutive s : String_rev (String_rev s) = s.
Proof.
  induction s as [|c s IH]; [done|]. by rewrite String_rev_cons, String_rev_app, IH.
Qed.

(** [String_trimStart] stops where no white space starts. *)
Lemma String_trimStart_fixed s : startsWithSpace s = false -> String_trimStart s = s.
Proof.
  destruct s as [|a r]; [done|]. cbn [startsWithSpace String_trimStart].
  destruct (is_space a); [discriminate|]. cbn [orb].
  destruct r as [|b r2]; [done|].
  destruct (space2 a b); [discriminate|]. cbn [orb].
  destruct r2 as [|c r3]; [done|].
  by destruct (space3 a b c).
Qed.

Lemma trimStart_reversed_fixed s :
  startsWithSpace_reversed s = false -> trimStart_reversed s = s.
Proof.
  destruct s as [|a r]; [done|]. cbn [startsWithSpace_reversed trimStart_reversed].
  destruct (is_space a); [discriminate|]. cbn [orb].
  destruct r as [|b r2]; [done|].
  destruct (space2 b a); [discriminate|]. cbn [orb].
  destruct r2 as [|c r3]; [done|].
  by destruct (space3 c b a).
Qed.

(** What the two trimming functions return is a suffix at which no white
    space starts. *)
Lemma String_trimStart_spec n : forall s, String.length s <= n ->
  startsWithSpace (String_trimStart s) = false /\
  exists p, s = p +:+ String_trimStart s.
Proof.
  induction n as [|n IH]; intros s Hn.
  { destruct s; [|simpl in Hn; lia]. split; [done|]. by exists EmptyString. }
  destruct s as [|a r]; [split; [done|by exists EmptyString]|].
  cbn [String.length] in Hn. cbn [String_trimStart].
  destruct (is_space a) eqn:Ha.
  { destruct (IH r ltac:(lia)) as [H1 [p H2]]. split; [done|].
    exists (String a p). rewrite !append_cons. by rewrite <- H2. }
  destruct r as [|b r2].
  { split; [|by exists EmptyString]. cbn [startsWithSpace]. by rewrite Ha. }
  cbn [String.length] in Hn.
  destruct (space2 a b) eqn:Hab.
  { destruct (IH r2 ltac:(lia)) as [H1 [p H2]]. split; [done|].
    exists (String a (String b p)). rewrite !append_cons. by rewrite <- H2. }
  destruct r2 as [|c r3].
  { split; [|by exists EmptyString]. cbn [startsWithSpace]. by rewrite Ha, Hab. }
  cbn [String.length] in Hn.
  destruct (space3 a b c) eqn:Habc.
  { destruct (IH r3 ltac:(lia)) as [H1 [p H2]]. split; [done|].
    exists (String a (String b (String c p))). rewrite !append_cons. by rewrite <- H2. }
  split; [|by exists EmptyString]. cbn [startsWithSpace]. by rewrite Ha, Hab, Habc.
Qed.

Lemma trimStart_reversed_spec n : forall s, String.length s <= n ->
  startsWithSpace_reversed (trimStart_reversed s) = false /\
  exists p, s = p +:+ trimStart_reversed s.
Proof.
  induction n as [|n IH]; intros s Hn.
  { destruct s; [|simpl in Hn; lia]. split; [done|]. by exists EmptyString. }
  destruct s as [|a r]; [split; [done|by exists EmptyString]|].
  cbn [String.length] in Hn. cbn [trimStart_reversed].
  destruct (is_space a) eqn:Ha.
  { destruct (IH r ltac:(lia)) as [H1 [p H2]]. split; [done|].
    exists (String a p). rewrite !append_cons. by rewrite <- H2. }
  destruct r as [|b r2].
  { split; [|by exists EmptyString]. cbn [startsWithSpace_reversed]. by rewrite Ha. }
  cbn [String.length] in Hn.
  destruct (space2 b a) eqn:Hab.
  { destruct (IH r2 ltac:(lia)) as [H1 [p H2]]. split; [done|].
    exists (String a (String b p)). rewrite !append_cons. by rewrite <- H2. }
  destruct r2 as [|c r3].
  { split; [|by exists EmptyString]. cbn [startsWithSpace_reversed]. by rewrite Ha, Hab. }
  cbn [String.length] in Hn.
  destruct (space3 c b a) eqn:Habc.
  { destruct (IH r3 ltac:(lia)) as [H1 [p H2]]. split; [done|].
    exists (String a (String b (String c p))). rewrite !append_cons. by rewrite <- H2. }
  split; [|by exists EmptyString]. cbn [startsWithSpace_reversed]. by rewrite Ha, Hab, Habc.
Qed.

(** A white space at the start of a prefix is one at the start of the whole. *)
Lemma startsWithSpace_prefix s t :
  startsWithSpace (s +:+ t) = false -> startsWithSpace s = false.
Proof.
  destruct s as [|a [|b [|c r]]]; [done|..]; rewrite ?append_cons;
    cbn [startsWithSpace]; change (EmptyString +:+ t) with t.
  - intros [H _]%orb_false_iff. by rewrite H.
  - intros [H1 H2]%orb_false_iff. rewrite H1. cbn [orb].
    destruct t as [|c t].
    + by rewrite orb_false_r in H2 |- *.
    + apply orb_false_iff in H2 as [H2 _]. by rewrite H2.
  - done.
Qed.

(** No white space ends before an ASCII character. *)
Lemma space_bytes a b c :
  (space2 a b = true -> (128 <= N_of_ascii a)%N /\ (128 <= N_of_ascii b)%N) /\
  (space3 a b c = true ->
   (128 <= N_of_ascii a)%N /\ (128 <= N_of_ascii b)%N /\ (128 <= N_of_ascii c)%N).
Proof.
  unfold space2, space3. cbv zeta. split; intros H.
  - apply andb_true_iff in H as [H1 H2]. apply N.eqb_eq in H1, H2. lia.
  - repeat (apply orb_true_iff in H as [H|H]);
      repeat (apply andb_true_iff in H as [H ?]);
      repeat match goal with
             | Hx : (_ =? _)%N = true |- _ => apply N.eqb_eq in Hx
             | Hx : (_ <=? _)%N = true |- _ => apply N.leb_le in Hx
             | Hx : (_ || _) = true |- _ => apply orb_true_iff in Hx as [Hx|Hx]
             | Hx : (_ && _) = true |- _ => apply andb_true_iff in Hx as [Hx ?]
             end; lia.
Qed.

Lemma space2_ascii a b : ascii7 a = true \/ ascii7 b = true -> space2 a b = false.
Proof.
  unfold ascii7. intros H. destruct (space2 a b) eqn:Hs; [|done].
  apply (proj1 (space_bytes a b a)) in Hs. destruct H as [H|H]; apply N.ltb_lt in H; lia.
Qed.

Lemma space3_ascii a b c :
  ascii7 a = true \/ ascii7 b = true \/ ascii7 c = true -> space3 a b c = false.
Proof.
  unfold ascii7. intros H. destruct (space3 a b c) eqn:Hs; [|done].
  apply (proj2 (space_bytes a b c)) in Hs.
  destruct H as [H|[H|H]]; apply N.ltb_lt in H; lia.
Qed.

(** Behind a string whose reversal ends with no white space, a text of
    ASCII characters adds none. *)
Lemma startsWithSpace_reversed_app u v :
  startsWithSpace_reversed u = false -> u <> EmptyString ->
  all_chars ascii7 v = true ->
  startsWithSpace_reversed (u +:+ v) = false.
Proof.
  intros Hu Hne Hv. destruct u as [|a [|b [|c r]]]; [done|..];
    rewrite ?append_cons; cbn [startsWithSpace_reversed] in *.
  - apply orb_false_iff in Hu as [Ha _]. rewrite Ha. cbn [orb].
    change (EmptyString +:+ v) with v.
    destruct v as [|x [|y v]]; [done|..]; cbn [all_chars] in Hv.
    + apply andb_true_iff in Hv as [Hx _]. by rewrite space2_ascii by (by left).
    + apply andb_true_iff in Hv as [Hx [Hy _]%andb_true_iff].
      rewrite space2_ascii by (by left). by rewrite space3_ascii by (by left).
  - apply orb_false_iff in Hu as [Ha [Hab _]%orb_false_iff]. rewrite Ha, Hab. cbn [orb].
    change (EmptyString +:+ v) with v.
    destruct v as [|x v]; [done|]. cbn [all_chars] in Hv. apply andb_true_iff in Hv as [Hx _].
    by rewrite space3_ascii by (by left).
  - done.
Qed.

Lemma startsWithSpace_reversed_ascii c s :
  ascii7 c = true -> is_space c = false -> startsWithSpace_reversed (String c s) = false.
Proof.
  intros Hc Hs. cbn [startsWithSpace_reversed]. rewrite Hs. cbn [orb].
  destruct s as [|b [|d s]]; [done|..].
  - by rewrite space2_ascii by (by right).
  - rewrite space2_ascii by (by right). by rewrite space3_ascii by (by right; right).
Qed.

(** A string with no white space at either end is what [trim] returns
    for it. *)
Lemma String_trim_fixed s :
  startsWithSpace s = false -> startsWithSpace_reversed (String_rev s) = false ->
  String_trim s = s.
Proof.
  intros H1 H2. unfold String_trim, String_trimEnd.
  by rewrite (String_trimStart_fixed _ H1), (trimStart_reversed_fixed _ H2),
    String_rev_involutive.
Qed.

Lemma String_trim_trimmed input :
  startsWithSpace (String_trim input) = false /\
  startsWithSpace_reversed (String_rev (String_trim input)) = false.
Proof.
  unfold String_trim, String_trimEnd.
  destruct (String_trimStart_spec _ input (le_n _)) as [Hy _].
  set (y := String_trimStart input) in *.
  destruct (trimStart_reversed_spec _ (String_rev y) (le_n _)) as [Hz [p Hp]].
  rewrite String_rev_involutive. split; [|done].
  apply (startsWithSpace_prefix _ (String_rev p)).
  rewrite <- String_rev_app, <- Hp. by rewrite String_rev_involutive.
Qed.

Lemma querySafe_ascii c : querySafe c = true -> ascii7 c = true /\ is_space c = false.
Proof.
  destruct c as [[] [] [] [] [] [] [] []]; vm_compute; intros H;
    by (discriminate H || split).
Qed.

Lemma all_chars_rev_head p s c r :
  all_chars p s = true -> String_rev s = String c r -> p c = true.
Proof.
  revert c r. induction s as [|a s IH]; intros c r Hs Hr; [done|].
  cbn [all_chars] in Hs. apply andb_true_iff in Hs as [Ha Hs].
  rewrite String_rev_cons in Hr. destruct (String_rev s) as [|c' r'] eqn:Hrev.
  - injection Hr as <- _. done.
  - injection Hr as <- _. by apply (IH c' r').
Qed.

Lemma resolveUrl_fixed r :
  hasHttpScheme r = true -> startsWithSpace r = false ->
  startsWithSpace_reversed (String_rev r) = false ->
  MainV1.resolveUrl r = r.
Proof.
  intros Hscheme Hstart Hend. unfold MainV1.resolveUrl. cbv zeta.
  by rewrite (String_trim_fixed r Hstart Hend), Hscheme.
Qed.

(** X27. Resolving what the handler returned returns it again. *)
Theorem resolveUrl_idempotent (input : string) :
  MainV1.resolveUrl (MainV1.resolveUrl input) = MainV1.resolveUrl input.
Proof.
  destruct (String_trim_trimmed input) as [Hstart Hend].
  unfold MainV1.resolveUrl at 2 3. cbv zeta.
  destruct (hasHttpScheme (String_trim input)) eqn:Hscheme;
    [by apply resolveUrl_fixed|].
  destruct (looksLikeDomain (String_trim input)).
  - apply resolveUrl_fixed; [apply hasHttpScheme_https|done|].
    rewrite String_rev_app.
    destruct (String_rev (String_trim input)) as [|c r] eqn:Hrev; [done|].
    rewrite <- Hrev in *. apply startsWithSpace_reversed_app; [done| |done].
    by rewrite Hrev.
  - apply resolveUrl_fixed;
      [apply (hasHttpScheme_https ("www.google.com/search?q=" +:+ _))|done|].
    rewrite String_rev_app.
    destruct (String_rev (encodeURIComponent (String_trim input))) as [|c r] eqn:Hrev;
      [done|].
    destruct (querySafe_ascii c
                (all_chars_rev_head _ _ _ _ (encodeURIComponent_safe _) Hrev)) as [H1 H2].
    change (String c r +:+ ?v) with (String c (r +:+ v)).
    by apply startsWithSpace_reversed_ascii.
Qed.

End Navigation.

Section NavigationOnReference.
Local Existing Instance Reference.platform.

(** The theorem at a search for two words after the engine was set. *)
Lemma resolveUrl_follows_searchEngine_witness :
  result (Main.resolveUrl "  rocq prover ")
         (after (ProfileStorage.updateSettings (onlySearchEngine ProfileStorage.bing))
                Reference.fresh)
  = Returned (Some "https://www.bing.com/search?q=rocq%20prover").
Proof.
  destruct (resolveUrl_follows_searchEngine "  rocq prover " ProfileStorage.bing
              Reference.fresh) as [_ H]; [reflexivity..|].
  exact H.
Defined.

End NavigationOnReference.

(** ** A download from its start to its end *)

Section DownloadLifecycle.
Context {P : Platform} {L : PlatformLaws P}.

Lemma upsert_new item (l : list DownloadItem) :
  dl_id item ∉ (dl_id <$> l) -> upsert item l = item :: l.
Proof.
  intros Hnew. unfold upsert.
  assert (list_find (fun d => dl_id d = dl_id item) l = None) as ->; [|done].
  apply list_find_None, Forall_forall. intros d Hd Heq. apply Hnew.
  rewrite <- Heq. by apply list_elem_of_fmap_2.
Qed.

Lemma upsert_head item d (l : list DownloadItem) :
  dl_id d = dl_id item -> upsert item (d :: l) = item :: l.
Proof. intros Heq. unfold upsert. cbn [list_find]. by rewrite decide_True. Qed.

Lemma take_100_cons {A} (x : A) l : take 100 (x :: take 99 l) = x :: take 99 l.
Proof. cbn [take]. f_equal. apply take_take. Qed.

Lemma saveDownload_then item w (l : list DownloadItem) :
  stored w (profileFile w "downloads") (JArr []) = JArr (json_of_DownloadItem <$> l) ->
  exists w',
    (ProfileStorage.saveDownload item ;;; ret item) w = (w', Returned item) /\
    stored w' (profileFile w' "downloads") (JArr [])
      = JArr (json_of_DownloadItem <$> take 100 (upsert item l)).
Proof.
  intros Hdoc. eexists.
  rewrite (run_bind_returned _ _ _ _ _ (saveDownload_run item w l Hdoc)).
  split; [reflexivity|]. apply stored_put.
Qed.

(** X28. A download that starts, is updated and is done leaves one entry, at
    the front of the list: it has the id made at the start, the bytes
    received at the end, and the state "completed" if Electron reported
    "completed" and "cancelled" otherwise, also for a download that was
    interrupted. *)
Theorem download_lifecycle (item item1 item2 : ElectronDownloadItem) (state1 state2 : string)
    (w : World) (l : list DownloadItem) :
  stored w (profileFile w "downloads") (JArr []) = JArr (json_of_DownloadItem <$> l) ->
  ("dl-" +:+ pretty (clock w (ticks w)) +:+ "-" +:+ mathRandom w (rolls w))
    ∉ (dl_id <$> l) ->
  exists dl0 dl1 dl2 w0 w1 w2,
    Main.will_download item w = (w0, Returned dl0) /\
    Main.on_updated dl0 item1 state1 w0 = (w1, Returned dl1) /\
    Main.on_done dl1 item2 state2 w1 = (w2, Returned dl2) /\
    dl_id dl2 = "dl-" +:+ pretty (clock w (ticks w)) +:+ "-" +:+ mathRandom w (rolls w) /\
    dl_receivedBytes dl2 = getReceivedBytes item2 /\
    dl_state dl2 = (if String.eqb state2 "completed" then completed else cancelled) /\
    result ProfileStorage.getDownloads w2
      = Returned (JArr (json_of_DownloadItem <$> take 100 (dl2 :: l))).
Proof.
  intros Hdoc Hnew.
  set (id := "dl-" +:+ pretty (clock w (ticks w)) +:+ "-" +:+ mathRandom w (rolls w)) in *.
  set (dl0 := mkDownloadItem id (getFilename item) (getURL item) (getSavePath item)
                             (getTotalBytes item) 0 progressing (clock w (S (ticks w)))).
  set (dl1 := mkDownloadItem id (getFilename item) (getURL item)
                             (getSavePath item1) (getTotalBytes item1) (getReceivedBytes item1)
                             (if String.eqb state1 "interrupted" then interrupted
                              else progressing)
                             (clock w (S (ticks w)))).
  set (dl2 := mkDownloadItem id (getFilename item) (getURL item)
                             (getSavePath item1) (getTotalBytes item1) (getReceivedBytes item2)
                             (if String.eqb state2 "completed" then completed else cancelled)
                             (clock w (S (ticks w)))).
  destruct (saveDownload_then dl0 (tick (roll (tick w))) l Hdoc) as (w0 & Hrun0 & Hdoc0).
  rewrite (upsert_new dl0 l Hnew) in Hdoc0. cbn [take] in Hdoc0.
  destruct (saveDownload_then dl1 w0 _ Hdoc0) as (w1 & Hrun1 & Hdoc1).
  rewrite (upsert_head dl1 dl0) in Hdoc1 by done. rewrite take_100_cons in Hdoc1.
  destruct (saveDownload_then dl2 w1 _ Hdoc1) as (w2 & Hrun2 & Hdoc2).
  rewrite (upsert_head dl2 dl1) in Hdoc2 by done. rewrite take_100_cons in Hdoc2.
  exists dl0, dl1, dl2, w0, w1, w2.
  split; [unfold Main.will_download; exec; exact Hrun0|].
  split; [exact Hrun1|]. split; [exact Hrun2|].
  split; [reflexivity|]. split; [reflexivity|]. split; [reflexivity|].
  unfold result. rewrite getDownloads_run. cbn [snd]. by rewrite Hdoc2.
Qed.

End DownloadLifecycle.

Section DownloadLifecycleOnReference.
Local Existing Instance Reference.platform.

(** The theorem at a new installation and a download that Electron reports
    as interrupted at its end. *)
Lemma download_lifecycle_witness :
  exists dl w2,
    dl_state dl = cancelled /\
    result ProfileStorage.getDownloads w2 = Returned (JArr [json_of_DownloadItem dl]).
Proof.
  destruct (download_lifecycle (electronItem 0) (electronItem 500) (electronItem 700)
              "progressing" "interrupted" Reference.fresh [])
    as (dl0 & dl1 & dl2 & w0 & w1 & w2 & _ & _ & _ & _ & _ & Hstate & Hlist).
  - reflexivity.
  - apply not_elem_of_nil.
  - exists dl2, w2. split; [exact Hstate|exact Hlist].
Defined.

End DownloadLifecycleOnReference.

(** ** The settings of the two storage modules *)

Section SettingsVariants.
Context {P : Platform} {L : PlatformLaws P}.

Lemma plain_getSettings_run w :
  Storage.getSettings w =
    (w, Returned (JObj (spread Storage.defaultSettings
                               (ownProps (stored w (plainFile w "settings") (JObj ∅)))))).
Proof. unfold Storage.getSettings. by exec. Qed.

(** X29. On the same settings document the two modules return the same
    settings, but for the search engine when the document names none: the
    plain module then says "google", the per-profile module "duckduckgo". *)
Theorem getSettings_variants (w1 w2 : World) :
  disk w1 !! plainFile w1 "settings" = disk w2 !! profileFile w2 "settings" ->
  let onDisk := ownProps (stored w2 (profileFile w2 "settings") (JObj ∅)) in
  exists m1 m2,
    Storage.getSettings w1 = (w1, Returned (JObj m1)) /\
    ProfileStorage.getSettings w2 = (w2, Returned (JObj m2)) /\
    (forall k, k <> "searchEngine" -> m1 !! k = m2 !! k) /\
    m1 !! "searchEngine" = Some (default (JStr "google") (onDisk !! "searchEngine")) /\
    m2 !! "searchEngine" = Some (default (JStr "duckduckgo") (onDisk !! "searchEngine")).
Proof.
  intros Hsame onDisk.
  assert (stored w1 (plainFile w1 "settings") (JObj ∅)
          = stored w2 (profileFile w2 "settings") (JObj ∅)) as Hdoc
    by (unfold stored; by rewrite Hsame).
  eexists _, _. rewrite plain_getSettings_run, getSettings_run, Hdoc. fold onDisk.
  split; [reflexivity|]. split; [reflexivity|]. unfold spread. split_and!.
  - intros k Hk. rewrite !lookup_union.
    assert (Storage.defaultSettings !! k = ProfileStorage.defaultSettings !! k) as ->; [|done].
    unfold Storage.defaultSettings, ProfileStorage.defaultSettings.
    by rewrite !(lookup_insert_ne _ "searchEngine") by done.
  - rewrite lookup_union.
    change (Storage.defaultSettings !! "searchEngine") with (Some (JStr "google")).
    destruct (onDisk !! "searchEngine"); reflexivity.
  - rewrite lookup_union.
    change (ProfileStorage.defaultSettings !! "searchEngine") with (Some (JStr "duckduckgo")).
    destruct (onDisk !! "searchEngine"); reflexivity.
Qed.

End SettingsVariants.

Section SettingsVariantsOnReference.
Local Existing Instance Reference.platform.

(** The theorem at a new installation. *)
Lemma getSettings_variants_witness :
  exists m1 m2,
    Storage.getSettings Reference.fresh = (Reference.fresh, Returned (JObj m1)) /\
    ProfileStorage.getSettings Reference.fresh = (Reference.fresh, Returned (JObj m2)) /\
    m1 !! "searchEngine" = Some (JStr "google") /\
    m2 !! "searchEngine" = Some (JStr "duckduckgo").
Proof.
  destruct (getSettings_variants Reference.fresh Reference.fresh)
    as (m1 & m2 & H1 & H2 & _ & H3 & H4); [reflexivity|].
  exists m1, m2. split; [exact H1|]. split; [exact H2|]. split; [exact H3|exact H4].
Defined.

End SettingsVariantsOnReference.

(** ** Each profile has its own bookmarks *)

Section ProfileIsolation.
Context {P : Platform} {L : PlatformLaws P}.

Lemma switchProfile_known id w (ps : list Profile) p :
  result ProfileStorage.getProfiles w = Returned (JArr (json_of_Profile <$> ps)) ->
  List.find (fun p => String.eqb (pr_id p) id) ps = Some p ->
  let w' := after (ProfileStorage.switchProfile id) w in
  activeProfileId w' = id /\ userData w' = userData w /\
  (forall q, q <> globalFile w "profiles" -> disk w' !! q = disk w !! q) /\
  stored w' (globalFile w' "profiles") (JArr []) = JArr (json_of_Profile <$> ps).
Proof.
  intros Hres Hfind w'.
  pose proof (result_after ProfileStorage.getProfiles w) as Hrun. rewrite Hres in Hrun.
  destruct (getProfiles_settles w _ Hres) as [Hne Hdoc].
  destruct (getProfiles_frame w) as (_ & Hud & Hdisk).
  set (w0 := after ProfileStorage.getProfiles w) in *.
  pose proof (switchProfile_run id w w0 _ Hrun (Profile_not_null ps)) as Hsw.
  rewrite find_Profiles, Hfind in Hsw. cbn [fmap option_fmap option_map] in Hsw.
  assert (w' = set_activeProfileId id w0) as -> by (unfold w', after; by rewrite Hsw).
  split; [done|]. split; [exact Hud|]. split; [exact Hdisk|].
  unfold globalFile, ProfileStorage.baseDataDir in *. cbn [userData set_activeProfileId].
  rewrite Hud. exact Hdoc.
Qed.

(** X30. A bookmark added while another profile is active does not show in
    this one: after a switch to a profile with another directory, an
    [addBookmark] there and a switch back, [getBookmarks] returns what it
    returned before. *)
Theorem profiles_keep_their_bookmarks (idA idB url title : string) (w : World)
    (ps : list Profile) (pA pB : Profile) :
  result ProfileStorage.getProfiles w = Returned (JArr (json_of_Profile <$> ps)) ->
  List.find (fun p => String.eqb (pr_id p) idA) ps = Some pA ->
  List.find (fun p => String.eqb (pr_id p) idB) ps = Some pB ->
  activeProfileId w = idA ->
  profileDirOf w idA <> profileDirOf w idB ->
  let w1 := after (ProfileStorage.switchProfile idB) w in
  let w2 := after (ProfileStorage.addBookmark url title) w1 in
  let w3 := after (ProfileStorage.switchProfile idA) w2 in
  activeProfileId w1 = idB /\
  activeProfileId w3 = idA /\
  result ProfileStorage.getBookmarks w3 = result ProfileStorage.getBookmarks w.
Proof.
  intros Hres HfindA HfindB HactA Hdirs w1 w2 w3.
  destruct (switchProfile_known idB w ps pB Hres HfindB) as (Hact1 & Hud1 & Hdisk1 & Hdoc1).
  fold w1 in Hact1, Hud1, Hdisk1, Hdoc1.
  destruct (addBookmark_footprint url title w1) as (Hact2 & Hud2 & Hdisk2).
  fold w2 in Hact2, Hud2, Hdisk2.
  assert (forall v, profileFile v "bookmarks" <> globalFile v "profiles") as Hni.
  { intros v. apply profileFile_not_index. unfold profileDocuments. set_solver. }
  assert (result ProfileStorage.getProfiles w2 = Returned (JArr (json_of_Profile <$> ps)))
    as Hres2.
  { destruct (getProfiles_settles w _ Hres) as [Hne _].
    unfold result. rewrite (getProfiles_again w2 (json_of_Profile <$> ps)); [done|done|].
    assert (globalFile w2 "profiles" = globalFile w1 "profiles") as ->
      by (unfold globalFile, ProfileStorage.baseDataDir; by rewrite Hud2).
    unfold stored in *. rewrite Hdisk2; [done|]. intros Heq. by apply (Hni w1). }
  destruct (switchProfile_known idA w2 ps pA Hres2 HfindA) as (Hact3 & Hud3 & Hdisk3 & _).
  fold w3 in Hact3, Hud3, Hdisk3.
  split; [done|]. split; [done|].
  unfold result, ProfileStorage.getBookmarks. exec. cbn [snd]. f_equal.
  assert (profileFile w3 "bookmarks" = profileFile w "bookmarks") as Hfile.
  { unfold profileFile, ProfileStorage.baseDataDir. by rewrite Hact3, Hud3, Hud2, Hud1, HactA. }
  unfold stored. rewrite Hfile.
  assert (profileFile w "bookmarks" = profileDirOf w idA ++ ["bookmarks.json"]) as HfileA.
  { unfold profileFile. rewrite HactA.
    by rewrite (profileDocuments_files "bookmarks") by (unfold profileDocuments; set_solver). }
  rewrite Hdisk3, Hdisk2, Hdisk1; [done| | |].
  - apply Hni.
  - rewrite HfileA. unfold profileFile. rewrite Hact1.
    rewrite (profileDocuments_files "bookmarks") by (unfold profileDocuments; set_solver).
    unfold profileDirOf, ProfileStorage.baseDataDir in *. rewrite Hud1.
    intros [H _]%app_inj_tail. done.
  - rewrite <- Hfile.
    assert (globalFile w2 "profiles" = globalFile w3 "profiles") as ->
      by (unfold globalFile, ProfileStorage.baseDataDir; by rewrite Hud3).
    apply Hni.
Qed.

End ProfileIsolation.

Section ProfileIsolationOnReference.
Local Existing Instance Reference.platform.

(** The theorem at a bookmark added under the default profile while "work"
    is the profile in use. *)
Lemma profiles_keep_their_bookmarks_witness :
  result ProfileStorage.getBookmarks
    (after (ProfileStorage.switchProfile "work")
       (after (ProfileStorage.addBookmark "u" "t")
          (after (ProfileStorage.switchProfile "default") atWork)))
  = result ProfileStorage.getBookmarks atWork.
Proof.
  destruct (profiles_keep_their_bookmarks "work" "default" "u" "t" atWork _
              workProfile (mkProfile "default" "Default" "person" 0 true)
              getProfiles_atWork) as (_ & _ & H).
  - reflexivity.
  - reflexivity.
  - reflexivity.
  - vm_compute. intros [=].
  - exact H.
Defined.

End ProfileIsolationOnReference.
